(** * Kismet data source controller (kis_datasource.cc)

    A shallow embedding of the framed capture protocol and of the
    command/response state machine of [KisDatasource], and the properties
    of the protocol specification checked against it.

    Layout of the development:
    - bytes, big-endian words and C strings;
    - the wire structures ([simple_cap_proto_t], [simple_cap_proto_kv_t]);
    - [write_packet] (encoder) and the framing half of [BufferAvailable]
      (decoder);
    - the controller state, its command registry and the error path;
    - the properties. *)

From Stdlib Require Import ZArith List Strings.String Strings.Ascii Strings.Byte Lia.
From stdpp Require Import gmap strings list fin_maps pretty.
Import ListNotations.

Local Open Scope Z_scope.

(* ===================================================================== *)
(** * Bytes and 32-bit words *)
(* ===================================================================== *)

#[global] Instance byte_eq_dec : EqDecision byte := Byte.byte_eq_dec.

Definition Z_of_byte (b : byte) : Z := Z.of_N (Byte.to_N b).

Definition byte_of_Z (z : Z) : byte :=
  match Byte.of_N (Z.to_N (z mod 256)) with
  | Some b => b
  | None => x00
  end.

(** [uint32_t] arithmetic wraps modulo 2^32. *)
Definition wrap32 (z : Z) : Z := z mod 2 ^ 32.

(** Modelled from the spec: [kis_hton32] and [kis_ntoh32] on a field of
    the frame (endian_magic.h is outside this source tree); the spec has the
    multi-byte integers of the wire big-endian.  [encode32 v] is what the
    four bytes of memory hold after [field = kis_hton32(v)], whatever the
    host order, and [decode32] is [kis_ntoh32(field)]. *)
Definition encode32 (v : Z) : list byte :=
  [ byte_of_Z (Z.shiftr v 24); byte_of_Z (Z.shiftr v 16);
    byte_of_Z (Z.shiftr v 8); byte_of_Z v ].

Definition decode32 (bs : list byte) : Z :=
  match bs with
  | [b3; b2; b1; b0] =>
      Z.shiftl (Z_of_byte b3) 24 + Z.shiftl (Z_of_byte b2) 16
      + Z.shiftl (Z_of_byte b1) 8 + Z_of_byte b0
  | _ => 0
  end.

(** Byte swap of a 32-bit value. *)
Definition bswap32 (v : Z) : Z :=
  Z.shiftl (Z.land v 255) 24 + Z.shiftl (Z.land (Z.shiftr v 8) 255) 16
  + Z.shiftl (Z.land (Z.shiftr v 16) 255) 8 + Z.land (Z.shiftr v 24) 255.

(* ===================================================================== *)
(** * Memory blocks *)
(* ===================================================================== *)

(** A heap block is a list of bytes.  [load] fails outside the block (the
    C++ read is undefined there); [store] overwrites the bytes from [off]
    on and is only used inside the block. *)
Definition load (buf : list byte) (off len : nat) : option (list byte) :=
  if decide (off + len <= length buf)%nat
  then Some (firstn len (skipn off buf))
  else None.

Definition store (buf : list byte) (off : nat) (bs : list byte) : list byte :=
  list_inserts off bs buf.

Definition load32 (buf : list byte) (off : nat) : option Z :=
  decode32 <$> load buf off 4.

Definition store32 (buf : list byte) (off : nat) (v : Z) : list byte :=
  store buf off (encode32 v).

(* ===================================================================== *)
(** * Strings *)
(* ===================================================================== *)

Definition bytes_of_string (s : string) : list byte := list_byte_of_string s.
Definition string_of_bytes (bs : list byte) : string := string_of_list_byte bs.

(** The bytes a C string function sees: everything before the first NUL. *)
Fixpoint c_str (bs : list byte) : list byte :=
  match bs with
  | [] => []
  | b :: bs' => if decide (b = x00) then [] else b :: c_str bs'
  end.

(** [snprintf(dst, n, "%s", src)]: at most [n - 1] characters of the C
    string, then a NUL.  Nothing else of [dst] is written. *)
Definition snprintf_s (n : nat) (src : list byte) : list byte :=
  firstn (n - 1) (c_str src) ++ [x00].

(** Modelled from the spec: [StrLower] (util.cc is outside this source tree); the spec says keys and type tags are ASCII-lowercased. *)
Definition lower_ascii (c : ascii) : ascii :=
  let n := N_of_ascii c in
  if ((65 <=? n) && (n <=? 90))%N then ascii_of_N (n + 32) else c.

Fixpoint StrLower (s : string) : string :=
  match s with
  | EmptyString => EmptyString
  | String c s' => String (lower_ascii c) (StrLower s')
  end.

(* ===================================================================== *)
(** * Wire structures *)
(* ===================================================================== *)

(** Modelled from the spec: [simple_cap_proto_t] (simple_datasource_proto.h
    is outside this source tree).  The spec gives the envelope as
    [signature:u32 | checksum:u32 | sequence:u32 | type:16 bytes |
    length:u32 | num_kv:u32 | kv_pairs]. *)
Definition off_signature : nat := 0.
Definition off_checksum : nat := 4.
Definition off_sequence_number : nat := 8.
Definition off_type : nat := 12.
Definition off_packet_sz : nat := 28.
Definition off_num_kv_pairs : nat := 32.
Definition off_data : nat := 36.
Definition sizeof_simple_cap_proto_t : nat := 36.

(** Modelled from the spec: [simple_cap_proto_kv_h_t], a keyed object's
    header: [key:16 bytes | obj_size:u32], the object bytes following the
    header. *)
Definition off_kv_key : nat := 0.
Definition off_kv_obj_sz : nat := 16.

(** [KisDatasourceCapKeyedObject]: [size] is a field of its own, the
    decoder sets it from the wire and the encoder reads it. *)
Record KisDatasourceCapKeyedObject := mk_kv {
  kv_key : string;
  kv_size : nat;
  kv_object : list byte
}.

#[global] Instance KisDatasourceCapKeyedObject_eq_dec :
  EqDecision KisDatasourceCapKeyedObject.
Proof. solve_decision. Defined.

Abbreviation KVmap := (gmap string KisDatasourceCapKeyedObject).


(* ===================================================================== *)
(** * Packet components *)
(* ===================================================================== *)

(** [kis_layer1_packinfo] and [kis_gps_packinfo] (packet.h), over the type
    [D] of [double] values. *)
Inductive kis_l1_signal_type :=
| kis_l1_signal_type_none | kis_l1_signal_type_dbm | kis_l1_signal_type_rssi.

Record kis_layer1_packinfo (D : Type) := mk_l1 {
  signal_type : kis_l1_signal_type;
  signal_dbm : Z; noise_dbm : Z; signal_rssi : Z; noise_rssi : Z;
  freq_khz : D; channel : string; datarate : D
}.

(** The member [fix] is spelled [fix_] here. *)
Record kis_gps_packinfo (D : Type) := mk_gps {
  lat : D; lon : D; alt : D; speed : D; heading : D; precision : D;
  fix_ : Z; time : Z; gpsname : string
}.

Arguments mk_l1 {D}.
Arguments signal_type {D}.
Arguments signal_dbm {D}.
Arguments noise_dbm {D}.
Arguments signal_rssi {D}.
Arguments noise_rssi {D}.
Arguments freq_khz {D}.
Arguments channel {D}.
Arguments datarate {D}.
Arguments mk_gps {D}.
Arguments lat {D}.
Arguments lon {D}.
Arguments alt {D}.
Arguments speed {D}.
Arguments heading {D}.
Arguments precision {D}.
Arguments fix_ {D}.
Arguments time {D}.
Arguments gpsname {D}.

(* ===================================================================== *)
(** * What the controller takes from outside this file *)
(* ===================================================================== *)

(** Constants, types and helpers that kis_datasource.cc uses from headers,
    utility files and libraries outside this source tree.  They are left
    open: every definition below takes them as they are, and no result
    depends on a particular choice. *)
Class Platform := {
  (** simple_datasource_proto.h *)
  KIS_CAP_SIMPLE_PROTO_SIG : Z;
  (** [sizeof(simple_cap_proto_kv_h_t)]: the object bytes of a record
      start that many bytes after its key. *)
  sizeof_simple_cap_proto_kv_h_t : nat;
  (** util.cc *)
  Adler32Checksum : list byte -> Z;
  (** [StringToOpts(in, ",", &opts)]: [None] when it returns a negative
      value. *)
  StringToOpts : string -> string -> option (list (string * string));
  StringToBool : string -> bool -> bool;
  (** endian_magic.h: the byte order of the host. *)
  host_big_endian : bool;
  (** messagebus.h *)
  MSGFLAG_ERROR : Z;
  (** What a fresh [new char[n]] block holds at each index, and the value
      of a [size] member that a constructor leaves unassigned. *)
  uninit : nat -> byte;
  uninit_size : nat;
  (** uuid.h: [uuid(string)], [None] when the [error] member is set. *)
  uuid : Type;
  uuid_of_string : string -> option uuid;
  (** [double] and the conversion of an [int32_t] to it. *)
  double : Type;
  double_of_int32 : Z -> double;
  (** packet.h: the records built by [new kis_layer1_packinfo()] and
      [new kis_gps_packinfo()]. *)
  new_kis_layer1_packinfo : kis_layer1_packinfo double;
  new_kis_gps_packinfo : kis_gps_packinfo double;
  (** msgpack: [msgpack::unpack] and the conversions [as<T>()]; an
      exception is the text of its [what()]. *)
  msgpack_object : Type;
  msgpack_unpack : list byte -> string + msgpack_object;
  as_StrMap : msgpack_object -> string + gmap string msgpack_object;
  as_string : msgpack_object -> string + string;
  as_unsigned_int : msgpack_object -> string + Z;
  as_int32_t : msgpack_object -> string + Z;
  as_uint64_t : msgpack_object -> string + Z;
  as_double : msgpack_object -> string + double;
  AsStringVector : msgpack_object -> string + list string;
  via_array : msgpack_object -> list msgpack_object;
  via_bin : msgpack_object -> list byte;
  (** The bytes the msgpack packer writes for the two-entry map
      [{rate, channels}]. *)
  pack_rate_channels : double -> list string -> list byte
}.

(* ===================================================================== *)
(** * The frame codec *)
(* ===================================================================== *)

(** What the framing half of [BufferAvailable] comes to:
    - [NeedMore]: it returns before anything is consumed (short buffer or
      short frame);
    - [InvalidSignature], [InvalidChecksum]: it calls
      [trigger_error("Source got invalid control frame")];
    - [ReadOutOfBounds]: a keyed record is read past the end of [buf],
      which is undefined in C++;
    - [Dispatch frame_sz ctype kv_map]: [frame_sz] bytes are consumed and
      [proto_dispatch_packet(ctype, kv_map)] is called. *)
Inductive frame_result :=
| NeedMore
| InvalidSignature
| InvalidChecksum
| ReadOutOfBounds
| Dispatch (consumed : nat) (ctype : string) (kv_map : KVmap).

Section Wire.

Context `{P : Platform}.

(** ** Encoder: [KisDatasource::write_packet], the frame it builds *)

(** The first loop of [write_packet].  Every entry gets a heap record
    [kvt] (header and object), and its size is added to [kvpair_len]; the
    record is never appended to [proto_kvpairs], which stays as it was
    declared: empty.  ([std::map] iterates in key order; what the loop
    leaves behind, a sum, does not depend on the order.) *)
Definition kvt_record (kv : KisDatasourceCapKeyedObject) : list byte :=
  let kvt := map uninit (seq 0 (sizeof_simple_cap_proto_kv_h_t + kv_size kv)) in
  let kvt := store kvt off_kv_key
               (snprintf_s 16 (bytes_of_string (kv_key kv))) in
  let kvt := store32 kvt off_kv_obj_sz (Z.of_nat (kv_size kv)) in
  store kvt sizeof_simple_cap_proto_kv_h_t (firstn (kv_size kv) (kv_object kv)).

Definition write_packet_loop1 (in_kvpairs : KVmap) : list (list byte) * nat :=
  foldl (fun '(proto_kvpairs, kvpair_len) '(_, kv) =>
           let kvt := kvt_record kv in
           (proto_kvpairs,
            kvpair_len + (sizeof_simple_cap_proto_kv_h_t + kv_size kv))%nat)
        ([], 0%nat) (map_to_list in_kvpairs).

(** The second loop: pack the records of [proto_kvpairs] one after the
    other from [ret->data]. *)
Definition write_packet_loop2 (proto_kvpairs : list (list byte))
    (ret : list byte) : list byte * nat :=
  foldl (fun '(ret, kvpair_offt) kvt =>
           let len := length kvt in
           (store ret (off_data + kvpair_offt) kvt, kvpair_offt + len)%nat)
        (ret, 0%nat) proto_kvpairs.

(** [pack_len = sizeof(simple_cap_proto_t) + kvpair_len] *)
Definition write_packet_pack_len (in_kvpairs : KVmap) : nat :=
  (sizeof_simple_cap_proto_t + snd (write_packet_loop1 in_kvpairs))%nat.

(** The buffer [ret] up to the point where the checksum is computed; the
    fresh [new char[pack_len]] block starts as [uninit]. *)
Definition write_packet_ret (next_cmd_sequence : Z)
    (in_cmd : string) (in_kvpairs : KVmap) : list byte :=
  let proto_kvpairs := fst (write_packet_loop1 in_kvpairs) in
  let pack_len := write_packet_pack_len in_kvpairs in
  let ret := map uninit (seq 0 pack_len) in
  let ret := store32 ret off_signature KIS_CAP_SIMPLE_PROTO_SIG in
  let ret := store32 ret off_checksum 0 in
  let ret := store32 ret off_sequence_number next_cmd_sequence in
  let ret := store32 ret off_packet_sz (Z.of_nat pack_len) in
  let ret := store ret off_type (snprintf_s 16 (bytes_of_string in_cmd)) in
  let ret := store32 ret off_num_kv_pairs (Z.of_nat (length proto_kvpairs)) in
  fst (write_packet_loop2 proto_kvpairs ret).

(** The buffer handed to [PutWriteBufferData]: [ret] with its checksum. *)
Definition write_packet_frame (next_cmd_sequence : Z)
    (in_cmd : string) (in_kvpairs : KVmap) : list byte :=
  let ret := write_packet_ret next_cmd_sequence in_cmd in_kvpairs in
  let calc_checksum := wrap32 (Adler32Checksum ret) in
  store32 ret off_checksum calc_checksum.

(** ** Decoder: the framing half of [KisDatasource::BufferAvailable] *)

(** [KisDatasourceCapKeyedObject(simple_cap_proto_kv *in_kp)], with
    [in_kp = &data[data_offt]]. *)
Definition KisDatasourceCapKeyedObject_of_wire (data : list byte)
    (data_offt : nat) : option KisDatasourceCapKeyedObject :=
  ckey ← load data (data_offt + off_kv_key) 16;
  obj_sz ← load32 data (data_offt + off_kv_obj_sz);
  let size := Z.to_nat obj_sz in
  object ← load data (data_offt + sizeof_simple_cap_proto_kv_h_t) size;
  Some {| kv_key := string_of_bytes (c_str ckey);
          kv_size := size;
          kv_object := object |}.

(** The record loop.  [kvn] counts the remaining iterations; the offset of
    the next record is assigned, not accumulated, exactly as in the
    source ([data_offt = sizeof(...) + obj_sz]). *)
Fixpoint extract_kv_pairs (kvn : nat) (data : list byte) (data_offt : nat)
    (kv_map : KVmap) : option KVmap :=
  match kvn with
  | O => Some kv_map
  | S kvn' =>
      kv ← KisDatasourceCapKeyedObject_of_wire data data_offt;
      let data_offt := (sizeof_simple_cap_proto_kv_h_t + kv_size kv)%nat in
      extract_kv_pairs kvn' data data_offt (<[StrLower (kv_key kv) := kv]> kv_map)
  end.

(** [buf] is the peeked read buffer, [in_amt = length buf]. *)
Definition BufferAvailable_frame (buf : list byte) : frame_result :=
  let in_amt := length buf in
  if (in_amt <? sizeof_simple_cap_proto_t)%nat then NeedMore else
  if negb (decode32 (firstn 4 (skipn off_signature buf))
           =? wrap32 KIS_CAP_SIMPLE_PROTO_SIG) then InvalidSignature else
  let frame_sz := Z.to_nat (decode32 (firstn 4 (skipn off_packet_sz buf))) in
  if (in_amt <? frame_sz)%nat then NeedMore else
  let frame_checksum := decode32 (firstn 4 (skipn off_checksum buf)) in
  let buf := store32 buf off_checksum 0 in
  let calc_checksum := wrap32 (Adler32Checksum (firstn frame_sz buf)) in
  if negb (calc_checksum =? frame_checksum) then InvalidChecksum else
  let num_kv_pairs := Z.to_nat (decode32 (firstn 4 (skipn off_num_kv_pairs buf))) in
  match extract_kv_pairs num_kv_pairs (skipn off_data buf) 0 ∅ with
  | None => ReadOutOfBounds
  | Some kv_map =>
      let ctype := string_of_bytes (c_str (firstn 16 (skipn off_type buf))) in
      Dispatch frame_sz ctype kv_map
  end.

End Wire.

(* ===================================================================== *)
(** * Controller state *)
(* ===================================================================== *)

(** A completion callback ([std::function]) is opaque: it is known by an
    identifier, and calling it is recorded as an event.  [None] is the
    [NULL] callback. *)
Definition callback := nat.

(** [SharedInterface]: the interface name and its flags, as given to
    [populate]. *)
Definition SharedInterface : Type := string * string.

(** [KisDatasource::tracked_command], with the members this file uses. *)
Record tracked_command := mk_tracked_command {
  transaction : Z;
  command_seq : Z;
  list_cb : option callback;
  probe_cb : option callback;
  open_cb : option callback;
  configure_cb : option callback;
  timer_id : Z
}.

(** Modelled from the spec: the constructor
    [tracked_command(transaction, sequence, this)] (kis_datasource.h is
    outside this source tree); the spec describes a pending command as a
    transaction, a sequence, one completion and an optional timer, so a new
    command has no callback and no timer ([timer_id = -1]). *)
Definition new_tracked_command (in_transaction seqno : Z) : tracked_command :=
  {| transaction := in_transaction; command_seq := seqno;
     list_cb := None; probe_cb := None; open_cb := None; configure_cb := None;
     timer_id := -1 |}.

(** The builder's capability flags. *)
Record KisDatasourceBuilder := mk_builder {
  get_list_capable : bool;
  get_probe_capable : bool;
  get_local_capable : bool;
  get_tune_capable : bool
}.

(** Modelled from the spec: the transport ([RingbufferHandler],
    ringbuf_handler.h), of which the controller uses a peek and a consume
    on the read side and a write of bytes that may fail.
    [PutWriteBufferData(data, len, true)] is atomic: all of [data] is
    queued when it fits, nothing otherwise. *)
Record RingbufferHandler := mk_ringbuf {
  rb_readable : list byte;
  rb_written : list byte;
  rb_free : nat
}.

Definition PeekReadBufferData (rb : RingbufferHandler) (in_amt : nat) : list byte :=
  firstn in_amt (rb_readable rb).

Definition GetReadBufferData (rb : RingbufferHandler) (amt : nat)
  : RingbufferHandler :=
  {| rb_readable := skipn amt (rb_readable rb);
     rb_written := rb_written rb;
     rb_free := rb_free rb |}.

Definition PutWriteBufferData (rb : RingbufferHandler) (data : list byte)
  : nat * RingbufferHandler :=
  if (length data <=? rb_free rb)%nat
  then (length data,
        {| rb_readable := rb_readable rb;
           rb_written := rb_written rb ++ data;
           rb_free := rb_free rb - length data |})
  else (0%nat, rb).

(** Modelled from the spec: the timer service ([Timetracker],
    timetracker.h): [register_timer(delay, cb) -> id] and
    [remove_timer(id)].  The only timed action of this file is the reopen
    of the source, [open_interface(get_source_definition(), 0, NULL)]. *)
Inductive timer_action :=
| ReopenInterface.

Record timer_event := mk_timer {
  timer_seconds : Z;
  timer_fire : timer_action
}.

Record Timetracker := mk_timetracker {
  tt_timers : gmap Z timer_event;
  tt_next_id : Z
}.

Definition RegisterTimer (tt : Timetracker) (seconds : Z) (a : timer_action)
  : Z * Timetracker :=
  (tt_next_id tt,
   {| tt_timers := <[tt_next_id tt := mk_timer seconds a]> (tt_timers tt);
      tt_next_id := tt_next_id tt + 1 |}).

Definition RemoveTimer (tt : Timetracker) (id : Z) : Timetracker :=
  {| tt_timers := delete id (tt_timers tt); tt_next_id := tt_next_id tt |}.

Section State.

Context `{P : Platform}.

(** [kis_datachunk] and [kis_packet] with the three components the
    controller attaches. *)
Record kis_datachunk := mk_chunk { dlt : Z; chunk_data : list byte }.

Record kis_packet := mk_packet {
  ts_tv_sec : Z; ts_tv_usec : Z;
  pack_comp_linkframe : option kis_datachunk;
  pack_comp_l1info : option (kis_layer1_packinfo double);
  pack_comp_gps : option (kis_gps_packinfo double)
}.

(** What the controller does to the world around it. *)
Inductive event :=
| EvListCb (cb : callback) (tx : Z) (ifaces : list SharedInterface)
| EvProbeCb (cb : callback) (tx : Z) (success : bool) (reason : string)
| EvOpenCb (cb : callback) (tx : Z) (success : bool) (reason : string)
| EvConfigureCb (cb : callback) (tx : Z) (success : bool) (reason : string)
| EvMsg (text : string) (flags : Z)
| EvCloseHandler (reason : string)
| EvErrorHandler (reason : string)
| EvDestroyPacket
| EvProcessPacket (pkt : kis_packet).

(** The members of [KisDatasource] that this file reads or writes. *)
Record KisDatasource := mk_datasource {
  source_builder : KisDatasourceBuilder;
  source_name : string;
  source_uuid : uuid;
  source_definition : string;
  source_interface : string;
  source_channels_vec : list string;
  source_channel : string;
  source_hop_rate : double;
  source_hop_vec : list string;
  source_error : bool;
  source_error_reason : string;
  source_retry : bool;
  source_retry_attempts : Z;
  local_uuid : bool;
  source_definition_opts : gmap string string;
  next_cmd_sequence : Z;
  error_timer_id : Z;
  command_ack_map : gmap Z tracked_command;
  listed_interfaces : list SharedInterface;
  ringbuf_handler : option RingbufferHandler;
  timetracker : Timetracker
}.

End State.

Section Setters.

Context `{P : Platform}.

(** Assignment to one member; the others are copied. *)
Definition set_source_name (v : string) (st : KisDatasource) : KisDatasource :=
  mk_datasource (source_builder st) v (source_uuid st) (source_definition
  st) (source_interface st) (source_channels_vec st) (source_channel st)
  (source_hop_rate st) (source_hop_vec st) (source_error st)
  (source_error_reason st) (source_retry st) (source_retry_attempts st)
  (local_uuid st) (source_definition_opts st) (next_cmd_sequence st)
  (error_timer_id st) (command_ack_map st) (listed_interfaces st)
  (ringbuf_handler st) (timetracker st).

Definition set_source_uuid (v : uuid) (st : KisDatasource) : KisDatasource :=
  mk_datasource (source_builder st) (source_name st) v (source_definition
  st) (source_interface st) (source_channels_vec st) (source_channel st)
  (source_hop_rate st) (source_hop_vec st) (source_error st)
  (source_error_reason st) (source_retry st) (source_retry_attempts st)
  (local_uuid st) (source_definition_opts st) (next_cmd_sequence st)
  (error_timer_id st) (command_ack_map st) (listed_interfaces st)
  (ringbuf_handler st) (timetracker st).

Definition set_source_interface (v : string) (st : KisDatasource) : KisDatasource :=
  mk_datasource (source_builder st) (source_name st) (source_uuid st)
  (source_definition st) v (source_channels_vec st) (source_channel st)
  (source_hop_rate st) (source_hop_vec st) (source_error st)
  (source_error_reason st) (source_retry st) (source_retry_attempts st)
  (local_uuid st) (source_definition_opts st) (next_cmd_sequence st)
  (error_timer_id st) (command_ack_map st) (listed_interfaces st)
  (ringbuf_handler st) (timetracker st).

Definition set_source_channels_vec (v : list string) (st : KisDatasource) : KisDatasource :=
  mk_datasource (source_builder st) (source_name st) (source_uuid st)
  (source_definition st) (source_interface st) v (source_channel st)
  (source_hop_rate st) (source_hop_vec st) (source_error st)
  (source_error_reason st) (source_retry st) (source_retry_attempts st)
  (local_uuid st) (source_definition_opts st) (next_cmd_sequence st)
  (error_timer_id st) (command_ack_map st) (listed_interfaces st)
  (ringbuf_handler st) (timetracker st).

Definition set_source_channel (v : string) (st : KisDatasource) : KisDatasource :=
  mk_datasource (source_builder st) (source_name st) (source_uuid st)
  (source_definition st) (source_interface st) (source_channels_vec st) v
  (source_hop_rate st) (source_hop_vec st) (source_error st)
  (source_error_reason st) (source_retry st) (source_retry_attempts st)
  (local_uuid st) (source_definition_opts st) (next_cmd_sequence st)
  (error_timer_id st) (command_ack_map st) (listed_interfaces st)
  (ringbuf_handler st) (timetracker st).

Definition set_source_hop_rate (v : double) (st : KisDatasource) : KisDatasource :=
  mk_datasource (source_builder st) (source_name st) (source_uuid st)
  (source_definition st) (source_interface st) (source_channels_vec st)
  (source_channel st) v (source_hop_vec st) (source_error st)
  (source_error_reason st) (source_retry st) (source_retry_attempts st)
  (local_uuid st) (source_definition_opts st) (next_cmd_sequence st)
  (error_timer_id st) (command_ack_map st) (listed_interfaces st)
  (ringbuf_handler st) (timetracker st).

Definition set_source_hop_vec (v : list string) (st : KisDatasource) : KisDatasource :=
  mk_datasource (source_builder st) (source_name st) (source_uuid st)
  (source_definition st) (source_interface st) (source_channels_vec st)
  (source_channel st) (source_hop_rate st) v (source_error st)
  (source_error_reason st) (source_retry st) (source_retry_attempts st)
  (local_uuid st) (source_definition_opts st) (next_cmd_sequence st)
  (error_timer_id st) (command_ack_map st) (listed_interfaces st)
  (ringbuf_handler st) (timetracker st).

Definition set_source_error (v : bool) (st : KisDatasource) : KisDatasource :=
  mk_datasource (source_builder st) (source_name st) (source_uuid st)
  (source_definition st) (source_interface st) (source_channels_vec st)
  (source_channel st) (source_hop_rate st) (source_hop_vec st) v
  (source_error_reason st) (source_retry st) (source_retry_attempts st)
  (local_uuid st) (source_definition_opts st) (next_cmd_sequence st)
  (error_timer_id st) (command_ack_map st) (listed_interfaces st)
  (ringbuf_handler st) (timetracker st).

Definition set_source_error_reason (v : string) (st : KisDatasource) : KisDatasource :=
  mk_datasource (source_builder st) (source_name st) (source_uuid st)
  (source_definition st) (source_interface st) (source_channels_vec st)
  (source_channel st) (source_hop_rate st) (source_hop_vec st) (source_error
  st) v (source_retry st) (source_retry_attempts st) (local_uuid st)
  (source_definition_opts st) (next_cmd_sequence st) (error_timer_id st)
  (command_ack_map st) (listed_interfaces st) (ringbuf_handler st)
  (timetracker st).

Definition set_source_retry (v : bool) (st : KisDatasource) : KisDatasource :=
  mk_datasource (source_builder st) (source_name st) (source_uuid st)
  (source_definition st) (source_interface st) (source_channels_vec st)
  (source_channel st) (source_hop_rate st) (source_hop_vec st) (source_error
  st) (source_error_reason st) v (source_retry_attempts st) (local_uuid st)
  (source_definition_opts st) (next_cmd_sequence st) (error_timer_id st)
  (command_ack_map st) (listed_interfaces st) (ringbuf_handler st)
  (timetracker st).

Definition set_source_retry_attempts (v : Z) (st : KisDatasource) : KisDatasource :=
  mk_datasource (source_builder st) (source_name st) (source_uuid st)
  (source_definition st) (source_interface st) (source_channels_vec st)
  (source_channel st) (source_hop_rate st) (source_hop_vec st) (source_error
  st) (source_error_reason st) (source_retry st) v (local_uuid st)
  (source_definition_opts st) (next_cmd_sequence st) (error_timer_id st)
  (command_ack_map st) (listed_interfaces st) (ringbuf_handler st)
  (timetracker st).

Definition set_local_uuid (v : bool) (st : KisDatasource) : KisDatasource :=
  mk_datasource (source_builder st) (source_name st) (source_uuid st)
  (source_definition st) (source_interface st) (source_channels_vec st)
  (source_channel st) (source_hop_rate st) (source_hop_vec st) (source_error
  st) (source_error_reason st) (source_retry st) (source_retry_attempts st)
  v (source_definition_opts st) (next_cmd_sequence st) (error_timer_id st)
  (command_ack_map st) (listed_interfaces st) (ringbuf_handler st)
  (timetracker st).

Definition set_source_definition_opts (v : gmap string string) (st : KisDatasource) : KisDatasource :=
  mk_datasource (source_builder st) (source_name st) (source_uuid st)
  (source_definition st) (source_interface st) (source_channels_vec st)
  (source_channel st) (source_hop_rate st) (source_hop_vec st) (source_error
  st) (source_error_reason st) (source_retry st) (source_retry_attempts st)
  (local_uuid st) v (next_cmd_sequence st) (error_timer_id st)
  (command_ack_map st) (listed_interfaces st) (ringbuf_handler st)
  (timetracker st).

Definition set_next_cmd_sequence (v : Z) (st : KisDatasource) : KisDatasource :=
  mk_datasource (source_builder st) (source_name st) (source_uuid st)
  (source_definition st) (source_interface st) (source_channels_vec st)
  (source_channel st) (source_hop_rate st) (source_hop_vec st) (source_error
  st) (source_error_reason st) (source_retry st) (source_retry_attempts st)
  (local_uuid st) (source_definition_opts st) v (error_timer_id st)
  (command_ack_map st) (listed_interfaces st) (ringbuf_handler st)
  (timetracker st).

Definition set_error_timer_id (v : Z) (st : KisDatasource) : KisDatasource :=
  mk_datasource (source_builder st) (source_name st) (source_uuid st)
  (source_definition st) (source_interface st) (source_channels_vec st)
  (source_channel st) (source_hop_rate st) (source_hop_vec st) (source_error
  st) (source_error_reason st) (source_retry st) (source_retry_attempts st)
  (local_uuid st) (source_definition_opts st) (next_cmd_sequence st) v
  (command_ack_map st) (listed_interfaces st) (ringbuf_handler st)
  (timetracker st).

Definition set_command_ack_map (v : gmap Z tracked_command) (st : KisDatasource) : KisDatasource :=
  mk_datasource (source_builder st) (source_name st) (source_uuid st)
  (source_definition st) (source_interface st) (source_channels_vec st)
  (source_channel st) (source_hop_rate st) (source_hop_vec st) (source_error
  st) (source_error_reason st) (source_retry st) (source_retry_attempts st)
  (local_uuid st) (source_definition_opts st) (next_cmd_sequence st)
  (error_timer_id st) v (listed_interfaces st) (ringbuf_handler st)
  (timetracker st).

Definition set_listed_interfaces (v : list SharedInterface) (st : KisDatasource) : KisDatasource :=
  mk_datasource (source_builder st) (source_name st) (source_uuid st)
  (source_definition st) (source_interface st) (source_channels_vec st)
  (source_channel st) (source_hop_rate st) (source_hop_vec st) (source_error
  st) (source_error_reason st) (source_retry st) (source_retry_attempts st)
  (local_uuid st) (source_definition_opts st) (next_cmd_sequence st)
  (error_timer_id st) (command_ack_map st) v (ringbuf_handler st)
  (timetracker st).

Definition set_ringbuf_handler (v : option RingbufferHandler) (st : KisDatasource) : KisDatasource :=
  mk_datasource (source_builder st) (source_name st) (source_uuid st)
  (source_definition st) (source_interface st) (source_channels_vec st)
  (source_channel st) (source_hop_rate st) (source_hop_vec st) (source_error
  st) (source_error_reason st) (source_retry st) (source_retry_attempts st)
  (local_uuid st) (source_definition_opts st) (next_cmd_sequence st)
  (error_timer_id st) (command_ack_map st) (listed_interfaces st) v
  (timetracker st).

Definition set_timetracker (v : Timetracker) (st : KisDatasource) : KisDatasource :=
  mk_datasource (source_builder st) (source_name st) (source_uuid st)
  (source_definition st) (source_interface st) (source_channels_vec st)
  (source_channel st) (source_hop_rate st) (source_hop_vec st) (source_error
  st) (source_error_reason st) (source_retry st) (source_retry_attempts st)
  (local_uuid st) (source_definition_opts st) (next_cmd_sequence st)
  (error_timer_id st) (command_ack_map st) (listed_interfaces st)
  (ringbuf_handler st) v.

End Setters.

(* ===================================================================== *)
(** * The controller *)
(* ===================================================================== *)

Section Controller.

Context `{P : Platform}.

(** ** Computations on the controller *)

(** Why a computation has no defined continuation. *)
Inductive undefined_behaviour :=
| InvalidIterator   (** an erased [std::map] iterator is used again *)
| OutOfBoundsRead   (** a keyed record is read past the peeked buffer *)
| NullHandler.      (** [ringbuf_handler] is used while it is [NULL] *)

(** A member function either returns, or reaches undefined behaviour; both
    come with the state reached and the events emitted so far. *)
Inductive outcome (A : Type) :=
| Returns (a : A) (st : KisDatasource) (evs : list event)
| Undefined (why : undefined_behaviour) (st : KisDatasource) (evs : list event).

Arguments Returns {A}.
Arguments Undefined {A}.

Definition M (A : Type) : Type := KisDatasource -> outcome A.

Definition ret {A} (a : A) : M A := fun st => Returns a st [].

Definition bind {A B} (m : M A) (f : A -> M B) : M B :=
  fun st =>
    match m st with
    | Returns a st1 evs1 =>
        match f a st1 with
        | Returns b st2 evs2 => Returns b st2 (evs1 ++ evs2)
        | Undefined why st2 evs2 => Undefined why st2 (evs1 ++ evs2)
        end
    | Undefined why st1 evs1 => Undefined why st1 evs1
    end.

Notation "x <- m ;; k" := (bind m (fun x => k))
  (at level 100, m at next level, right associativity).
Notation "m ;; k" := (bind m (fun _ => k))
  (at level 100, right associativity).

Definition get : M KisDatasource := fun st => Returns st st [].
Definition modify (f : KisDatasource -> KisDatasource) : M unit :=
  fun st => Returns tt (f st) [].
Definition emit (e : event) : M unit := fun st => Returns tt st [e].
Definition undefined {A} (why : undefined_behaviour) : M A :=
  fun st => Undefined why st [].
Definition when (b : bool) (m : M unit) : M unit := if b then m else ret tt.

(** [if (cb != NULL) cb(...)] *)
Definition call_list_cb (cb : option callback) (tx : Z)
    (ifaces : list SharedInterface) : M unit :=
  match cb with Some c => emit (EvListCb c tx ifaces) | None => ret tt end.
Definition call_probe_cb (cb : option callback) (tx : Z) (ok : bool)
    (reason : string) : M unit :=
  match cb with Some c => emit (EvProbeCb c tx ok reason) | None => ret tt end.
Definition call_open_cb (cb : option callback) (tx : Z) (ok : bool)
    (reason : string) : M unit :=
  match cb with Some c => emit (EvOpenCb c tx ok reason) | None => ret tt end.
Definition call_configure_cb (cb : option callback) (tx : Z) (ok : bool)
    (reason : string) : M unit :=
  match cb with Some c => emit (EvConfigureCb c tx ok reason) | None => ret tt end.

(** A [try] block with no effect on the controller: the [what()] of the
    exception, or the value. *)
Definition throws (A : Type) : Type := string + A.
Definition try_bind {A B} (m : throws A) (f : A -> throws B) : throws B :=
  match m with inl what => inl what | inr a => f a end.
Notation "x <~ m ;; k" := (try_bind m (fun x => k))
  (at level 100, m at next level, right associativity).

(** ** The command registry *)

(** [command_ack_map.begin()]: [std::map] iterates in key order, so this is
    the entry with the least sequence number. *)
Definition map_begin {A} (m : gmap Z A) : option (Z * A) :=
  foldr (fun kv acc =>
           match acc with
           | None => Some kv
           | Some kv' => if kv.1 <? kv'.1 then Some kv else Some kv'
           end) None (map_to_list m).

Definition remove_timer (id : Z) : M unit :=
  modify (fun st => set_timetracker (RemoveTimer (timetracker st) id) st).

(** [KisDatasource::cancel_command] *)
Definition cancel_command (in_transaction : Z) (in_error : string) : M unit :=
  st <- get;;
  match command_ack_map st !! in_transaction with
  | Some cmd =>
      (match list_cb cmd, probe_cb cmd, open_cb cmd, configure_cb cmd with
       | Some cb, _, _, _ => emit (EvListCb cb (transaction cmd) [])
       | None, Some cb, _, _ => emit (EvProbeCb cb (transaction cmd) false in_error)
       | None, None, Some cb, _ => emit (EvOpenCb cb (transaction cmd) false in_error)
       | None, None, None, Some cb =>
           emit (EvConfigureCb cb (transaction cmd) false in_error)
       | None, None, None, None => ret tt
       end);;
      when (-1 <? timer_id cmd) (remove_timer (timer_id cmd));;
      modify (fun st =>
                set_command_ack_map (delete in_transaction (command_ack_map st)) st)
  | None => ret tt
  end.

(** [KisDatasource::cancel_all_commands].  The iterator [i] is fetched
    once, before the loop, and never assigned again.  With a pending
    command, [cancel_command(i->first, ...)] erases the entry [i] points
    to, which invalidates [i]; the loop test [i != command_ack_map.end()]
    then uses the invalidated iterator, and the behaviour of the program is
    undefined from there on.  (With the usual node-based [std::map] the
    test stays true and the loop keeps calling [cancel_command] on a key
    that is no longer in the map.) *)
Definition cancel_all_commands (in_error : string) : M unit :=
  st <- get;;
  match map_begin (command_ack_map st) with
  | None => ret tt
  | Some (i_first, _) =>
      cancel_command i_first in_error;;
      undefined InvalidIterator
  end.

(** [KisDatasource::trigger_error] *)
Definition trigger_error (in_error : string) : M unit :=
  cancel_all_commands in_error;;
  st <- get;;
  when (bool_decide (is_Some (ringbuf_handler st))) (emit (EvErrorHandler in_error));;
  modify (set_source_error true);;
  modify (set_source_error_reason in_error).

(** [KisDatasource::BufferError] *)
Definition BufferError (in_error : string) : M unit := trigger_error in_error.

(** [KisDatasource::close_source] *)
Definition close_source : M unit :=
  st <- get;;
  when (0 <? error_timer_id st) (remove_timer (error_timer_id st));;
  cancel_all_commands "Closing source";;
  st <- get;;
  when (bool_decide (is_Some (ringbuf_handler st)))
       (emit (EvCloseHandler "Closing source")).

(** [KisDatasource::handle_source_error] *)
Definition handle_source_error : M unit :=
  st <- get;;
  if negb (source_retry st) then
    emit (EvMsg ("Source " ++ source_name st ++ " has encountered an error but "
                 ++ "is not configured to automatically re-try opening; it will remain "
                 ++ "closed.") MSGFLAG_ERROR)
  else
    modify (fun st => set_source_retry_attempts
                        (wrap32 (source_retry_attempts st + 1)) st);;
    st <- get;;
    emit (EvMsg ("Source " ++ source_name st ++ " has encountered an error. "
                 ++ "Kismet will attempt to re-open the source in 5 seconds.  ("
                 ++ pretty (source_retry_attempts st) ++ " failures)")
                MSGFLAG_ERROR);;
    when (0 <? error_timer_id st) (remove_timer (error_timer_id st));;
    modify (fun st =>
              let '(id, tt') := RegisterTimer (timetracker st) 5 ReopenInterface in
              set_error_timer_id id (set_timetracker tt' st)).

(** ** Sending commands *)

(** Modelled from the spec: [kis_ntoh32] applied to a host value
    (endian_magic.h is outside this source tree); with the wire big-endian it
    is the identity on a big-endian host and a byte swap on a little-endian
    one. *)
Definition kis_ntoh32 (v : Z) : Z :=
  if host_big_endian then v else bswap32 v.

(** [KisDatasourceCapKeyedObject(string in_key, const char *in_object,
    ssize_t in_len)]: [key] and [object] are assigned, [size] is not. *)
Definition KisDatasourceCapKeyedObject_new (in_key : string)
    (in_object : list byte) : KisDatasourceCapKeyedObject :=
  {| kv_key := substring 0 16 in_key;
     kv_size := uninit_size;
     kv_object := in_object |}.

(** [KisDatasource::write_packet]: [Some ret_seqno] when it returns true,
    [None] when it returns false. *)
Definition write_packet (in_cmd : string) (in_kvpairs : KVmap) : M (option Z) :=
  st <- get;;
  match ringbuf_handler st with
  | None => ret None
  | Some rb =>
      let pack_len := write_packet_pack_len in_kvpairs in
      let frame := write_packet_frame (next_cmd_sequence st) in_cmd in_kvpairs in
      let ret_seqno := kis_ntoh32 (next_cmd_sequence st) in
      modify (set_next_cmd_sequence (wrap32 (next_cmd_sequence st + 1)));;
      let '(ret_sz, rb') := PutWriteBufferData rb frame in
      modify (set_ringbuf_handler (Some rb'));;
      if negb (ret_sz =? pack_len)%nat then ret None else ret (Some ret_seqno)
  end.

Definition register_command (seqno : Z) (cmd : tracked_command) : M unit :=
  modify (fun st => set_command_ack_map (<[seqno := cmd]> (command_ack_map st)) st).

(** [KisDatasource::send_command_list_interfaces] *)
Definition send_command_list_interfaces (in_transaction : Z)
    (in_cb : option callback) : M unit :=
  let kvmap : KVmap := ∅ in
  success <- write_packet "LISTDEVICE" kvmap;;
  match success with
  | None => call_list_cb in_cb in_transaction []
  | Some seqno =>
      let cmd := new_tracked_command in_transaction seqno in
      register_command seqno
        (mk_tracked_command (transaction cmd) (command_seq cmd) in_cb
           (probe_cb cmd) (open_cb cmd) (configure_cb cmd) (timer_id cmd))
  end.

(** [KisDatasource::send_command_probe_interface] *)
Definition send_command_probe_interface (in_definition : string)
    (in_transaction : Z) (in_cb : option callback) : M unit :=
  let definition :=
    KisDatasourceCapKeyedObject_new "DEFINITION" (bytes_of_string in_definition) in
  let kvmap : KVmap := <["DEFINITION"%string := definition]> ∅ in
  success <- write_packet "PROBEDEVICE" kvmap;;
  match success with
  | None => call_probe_cb in_cb in_transaction false "unable to generate command frame"
  | Some seqno =>
      let cmd := new_tracked_command in_transaction seqno in
      register_command seqno
        (mk_tracked_command (transaction cmd) (command_seq cmd) (list_cb cmd)
           in_cb (open_cb cmd) (configure_cb cmd) (timer_id cmd))
  end.

(** [KisDatasource::send_command_open_interface] *)
Definition send_command_open_interface (in_definition : string)
    (in_transaction : Z) (in_cb : option callback) : M unit :=
  let definition :=
    KisDatasourceCapKeyedObject_new "DEFINITION" (bytes_of_string in_definition) in
  let kvmap : KVmap := <["DEFINITION"%string := definition]> ∅ in
  success <- write_packet "OPENDEVICE" kvmap;;
  match success with
  | None => call_open_cb in_cb in_transaction false "unable to generate command frame"
  | Some seqno =>
      let cmd := new_tracked_command in_transaction seqno in
      register_command seqno
        (mk_tracked_command (transaction cmd) (command_seq cmd) (list_cb cmd)
           (probe_cb cmd) in_cb (configure_cb cmd) (timer_id cmd))
  end.

(** [KisDatasource::send_command_set_channel] *)
Definition send_command_set_channel (in_channel : string)
    (in_transaction : Z) (in_cb : option callback) : M unit :=
  let chanset :=
    KisDatasourceCapKeyedObject_new "CHANSET" (bytes_of_string in_channel) in
  let kvmap : KVmap := <["CHANSET"%string := chanset]> ∅ in
  success <- write_packet "CONFIGURE" kvmap;;
  match success with
  | None =>
      call_configure_cb in_cb in_transaction false "unable to generate command frame"
  | Some seqno =>
      let cmd := new_tracked_command in_transaction seqno in
      register_command seqno
        (mk_tracked_command (transaction cmd) (command_seq cmd) (list_cb cmd)
           (probe_cb cmd) (open_cb cmd) in_cb (timer_id cmd))
  end.

(** [KisDatasource::send_command_set_channel_hop] *)
Definition send_command_set_channel_hop (in_rate : double)
    (in_chans : list string) (in_transaction : Z) (in_cb : option callback)
  : M unit :=
  let stream := pack_rate_channels in_rate in_chans in
  let chanhop := KisDatasourceCapKeyedObject_new "CHANHOP" stream in
  let kvmap : KVmap := <["CHANHOP"%string := chanhop]> ∅ in
  success <- write_packet "CONFIGURE" kvmap;;
  match success with
  | None =>
      call_configure_cb in_cb in_transaction false "unable to generate command frame"
  | Some seqno =>
      let cmd := new_tracked_command in_transaction seqno in
      register_command seqno
        (mk_tracked_command (transaction cmd) (command_seq cmd) (list_cb cmd)
           (probe_cb cmd) (open_cb cmd) in_cb (timer_id cmd))
  end.

(** ** The source definition *)

(** [KisDatasource::parse_interface_definition] *)
Definition parse_interface_definition (in_definition : string) : M bool :=
  modify (set_local_uuid false);;
  match index 0 ":" in_definition with
  | None =>
      modify (set_source_interface in_definition);;
      modify (set_source_name in_definition);;
      ret true
  | Some cpos =>
      modify (set_source_interface (substring 0 cpos in_definition));;
      match StringToOpts
              (substring (cpos + 1) (String.length in_definition - cpos - 1)
                 in_definition) "," with
      | None => ret false
      | Some options =>
          modify (fun st =>
                    set_source_definition_opts
                      (foldl (fun opts '(opt, val) => <[StrLower opt := val]> opts)
                         (source_definition_opts st) options) st);;
          st <- get;;
          (match source_definition_opts st !! "name"%string with
           | Some name => modify (set_source_name name)
           | None => modify (set_source_name (source_interface st))
           end);;
          st <- get;;
          uuid_ok <-
            (match source_definition_opts st !! "uuid"%string with
             | Some text =>
                 match uuid_of_string text with
                 | None =>
                     emit (EvMsg ("Invalid UUID for data source " ++ source_name st
                                  ++ "/" ++ source_interface st) MSGFLAG_ERROR);;
                     ret false
                 | Some u =>
                     modify (set_source_uuid u);;
                     modify (set_local_uuid true);;
                     ret true
                 end
             | None => ret true
             end);;
          if negb uuid_ok then ret false else
          st <- get;;
          (match source_definition_opts st !! "retry"%string with
           | Some text => modify (set_source_retry (StringToBool text true))
           | None => ret tt
           end);;
          ret true
      end
  end.

(** ** The public operations *)

(** [KisDatasource::list_interfaces] *)
Definition list_interfaces (in_transaction : Z) (in_cb : option callback) : M unit :=
  st <- get;;
  if negb (get_list_capable (source_builder st)) then
    call_list_cb in_cb in_transaction []
  else send_command_list_interfaces in_transaction in_cb.

(** [KisDatasource::probe_interface] *)
Definition probe_interface (in_definition : string) (in_transaction : Z)
    (in_cb : option callback) : M unit :=
  st <- get;;
  if negb (get_probe_capable (source_builder st)) then
    call_probe_cb in_cb in_transaction false "Driver not capable of probing"
  else send_command_probe_interface in_definition in_transaction in_cb.

(** [KisDatasource::open_interface] *)
Definition open_interface (in_definition : string) (in_transaction : Z)
    (in_cb : option callback) : M unit :=
  st <- get;;
  if negb (get_local_capable (source_builder st)) then
    call_open_cb in_cb in_transaction false "Driver does not support direct capture"
  else
    when (0 <? error_timer_id st) (remove_timer (error_timer_id st));;
    ok <- parse_interface_definition in_definition;;
    if negb ok then
      call_open_cb in_cb in_transaction false "Malformed source config"
    else send_command_open_interface in_definition in_transaction in_cb.

(** [KisDatasource::set_channel] *)
Definition set_channel (in_channel : string) (in_transaction : Z)
    (in_cb : option callback) : M unit :=
  st <- get;;
  if negb (get_tune_capable (source_builder st)) then
    call_configure_cb in_cb in_transaction false
      "Driver not capable of changing channel"
  else send_command_set_channel in_channel in_transaction in_cb.

(** [KisDatasource::set_channel_hop(double, SharedTrackerElement, ...)] *)
Definition set_channel_hop_elem (in_rate : double) (in_chans : list string)
    (in_transaction : Z) (in_cb : option callback) : M unit :=
  st <- get;;
  if negb (get_tune_capable (source_builder st)) then
    call_configure_cb in_cb in_transaction false
      "Driver not capable of changing channel"
  else send_command_set_channel_hop in_rate in_chans in_transaction in_cb.

(** [KisDatasource::set_channel_hop(double, std::vector<std::string>, ...)]:
    the vector is copied into a channel vector element by element and
    handed to the overload above. *)
Definition set_channel_hop (in_rate : double) (in_chans : list string)
    (in_transaction : Z) (in_cb : option callback) : M unit :=
  st <- get;;
  if negb (get_tune_capable (source_builder st)) then
    call_configure_cb in_cb in_transaction false
      "Driver not capable of changing channel"
  else
    let vec := foldl (fun vec c => vec ++ [c]) [] in_chans in
    set_channel_hop_elem in_rate vec in_transaction in_cb.



(** ** Payload decoders *)

Definition object_bytes (in_obj : KisDatasourceCapKeyedObject) : list byte :=
  firstn (kv_size in_obj) (kv_object in_obj).

(** [msgpack::unpack] followed by [as<MsgpackStrMap>()] *)
Definition unpack_dict (in_obj : KisDatasourceCapKeyedObject)
  : throws (gmap string msgpack_object) :=
  deserialized <~ msgpack_unpack (object_bytes in_obj);;
  as_StrMap deserialized.

(** Modelled from the spec: [sizeof(simple_cap_proto_success_value)]
    (simple_datasource_proto.h); the spec has [success] as a fixed 5-byte
    record of a boolean and a 32-bit sequence number. *)
Definition sizeof_simple_cap_proto_success_value : nat := 5.

(** [KisDatasource::get_kv_success] *)
Definition get_kv_success (in_obj : KisDatasourceCapKeyedObject) : M bool :=
  if negb (kv_size in_obj =? sizeof_simple_cap_proto_success_value)%nat then
    trigger_error "Invalid SUCCESS object in response";;
    ret false
  else
    ret (match kv_object in_obj with
         | status_success :: _ => negb (bool_decide (status_success = x00))
         | [] => false
         end).

(** [KisDatasource::get_kv_success_sequence] *)
Definition get_kv_success_sequence (in_obj : KisDatasourceCapKeyedObject) : M Z :=
  if negb (kv_size in_obj =? sizeof_simple_cap_proto_success_value)%nat then
    trigger_error "Invalid SUCCESS object in response";;
    ret 0
  else
    ret (decode32 (firstn 4 (skipn 1 (kv_object in_obj)))).

(** [KisDatasource::handle_kv_message] *)
Definition handle_kv_message (in_obj : KisDatasourceCapKeyedObject) : M string :=
  let unpacked : throws (string * Z) :=
    dict <~ unpack_dict in_obj;;
    msg <~ (match dict !! "msg"%string with
            | Some o => as_string o
            | None => inl "missing 'msg' entry"%string
            end);;
    flags <~ (match dict !! "flags"%string with
              | Some o => as_unsigned_int o
              | None => inl "missing 'flags' entry"%string
              end);;
    inr (msg, flags) in
  match unpacked with
  | inr (msg, flags) => emit (EvMsg msg flags);; ret msg
  | inl what =>
      let ss := ("failed to unpack message bundle: " ++ what)%string in
      trigger_error ss;;
      ret ss
  end.

(** [KisDatasource::handle_kv_channels] *)
Definition handle_kv_channels (in_obj : KisDatasourceCapKeyedObject) : M unit :=
  let unpacked : throws (option (list string)) :=
    dict <~ unpack_dict in_obj;;
    match dict !! "channels"%string with
    | Some o => channel_vec <~ AsStringVector o;; inr (Some channel_vec)
    | None => inr None
    end in
  match unpacked with
  | inr (Some channel_vec) => modify (set_source_channels_vec channel_vec)
  | inr None => ret tt
  | inl what =>
      trigger_error ("failed to unpack proberesp channels bundle: " ++ what)
  end.

Definition set_signal (siginfo : kis_layer1_packinfo double)
    (ty : kis_l1_signal_type) (sd nd sr nr : Z) : kis_layer1_packinfo double :=
  mk_l1 ty sd nd sr nr (freq_khz siginfo) (channel siginfo) (datarate siginfo).

(** [KisDatasource::handle_kv_signal], its [try] block *)
Definition unpack_signal (in_obj : KisDatasourceCapKeyedObject)
  : throws (kis_layer1_packinfo double) :=
  let siginfo := new_kis_layer1_packinfo in
  dict <~ unpack_dict in_obj;;
  siginfo <~ (match dict !! "signal_dbm"%string with
              | Some o => v <~ as_int32_t o;;
                          inr (set_signal siginfo kis_l1_signal_type_dbm v
                                 (noise_dbm siginfo) (signal_rssi siginfo)
                                 (noise_rssi siginfo))
              | None => inr siginfo
              end);;
  siginfo <~ (match dict !! "noise_dbm"%string with
              | Some o => v <~ as_int32_t o;;
                          inr (set_signal siginfo kis_l1_signal_type_dbm
                                 (signal_dbm siginfo) v (signal_rssi siginfo)
                                 (noise_rssi siginfo))
              | None => inr siginfo
              end);;
  siginfo <~ (match dict !! "signal_rssi"%string with
              | Some o => v <~ as_int32_t o;;
                          inr (set_signal siginfo kis_l1_signal_type_rssi
                                 (signal_dbm siginfo) (noise_dbm siginfo) v
                                 (noise_rssi siginfo))
              | None => inr siginfo
              end);;
  siginfo <~ (match dict !! "noise_rssi"%string with
              | Some o => v <~ as_int32_t o;;
                          inr (set_signal siginfo kis_l1_signal_type_rssi
                                 (signal_dbm siginfo) (noise_dbm siginfo)
                                 (signal_rssi siginfo) v)
              | None => inr siginfo
              end);;
  siginfo <~ (match dict !! "freq_khz"%string with
              | Some o => v <~ as_double o;;
                          inr (mk_l1 (signal_type siginfo) (signal_dbm siginfo)
                                 (noise_dbm siginfo) (signal_rssi siginfo)
                                 (noise_rssi siginfo) v (channel siginfo)
                                 (datarate siginfo))
              | None => inr siginfo
              end);;
  siginfo <~ (match dict !! "channel"%string with
              | Some o => v <~ as_string o;;
                          inr (mk_l1 (signal_type siginfo) (signal_dbm siginfo)
                                 (noise_dbm siginfo) (signal_rssi siginfo)
                                 (noise_rssi siginfo) (freq_khz siginfo) v
                                 (datarate siginfo))
              | None => inr siginfo
              end);;
  match dict !! "datarate"%string with
  | Some o => v <~ as_double o;;
              inr (mk_l1 (signal_type siginfo) (signal_dbm siginfo)
                     (noise_dbm siginfo) (signal_rssi siginfo)
                     (noise_rssi siginfo) (freq_khz siginfo) (channel siginfo) v)
  | None => inr siginfo
  end.

(** [KisDatasource::handle_kv_signal]: [None] is the [NULL] result. *)
Definition handle_kv_signal (in_obj : KisDatasourceCapKeyedObject)
  : M (option (kis_layer1_packinfo double)) :=
  match unpack_signal in_obj with
  | inr siginfo => ret (Some siginfo)
  | inl what =>
      trigger_error ("failed to unpack gps bundle: " ++ what);;
      ret None
  end.

(** [KisDatasource::handle_kv_gps], its [try] block.  Each [if] of the
    source is one step; the step for ["fix"] assigns to [precision], as the
    source does. *)
Definition unpack_gps (in_obj : KisDatasourceCapKeyedObject)
  : throws (kis_gps_packinfo double) :=
  let gpsinfo := new_kis_gps_packinfo in
  dict <~ unpack_dict in_obj;;
  gpsinfo <~ (match dict !! "lat"%string with
              | Some o => v <~ as_double o;;
                          inr (mk_gps v (lon gpsinfo) (alt gpsinfo) (speed gpsinfo)
                                 (heading gpsinfo) (precision gpsinfo)
                                 (fix_ gpsinfo) (time gpsinfo) (gpsname gpsinfo))
              | None => inr gpsinfo
              end);;
  gpsinfo <~ (match dict !! "lon"%string with
              | Some o => v <~ as_double o;;
                          inr (mk_gps (lat gpsinfo) v (alt gpsinfo) (speed gpsinfo)
                                 (heading gpsinfo) (precision gpsinfo)
                                 (fix_ gpsinfo) (time gpsinfo) (gpsname gpsinfo))
              | None => inr gpsinfo
              end);;
  gpsinfo <~ (match dict !! "alt"%string with
              | Some o => v <~ as_double o;;
                          inr (mk_gps (lat gpsinfo) (lon gpsinfo) v (speed gpsinfo)
                                 (heading gpsinfo) (precision gpsinfo)
                                 (fix_ gpsinfo) (time gpsinfo) (gpsname gpsinfo))
              | None => inr gpsinfo
              end);;
  gpsinfo <~ (match dict !! "speed"%string with
              | Some o => v <~ as_double o;;
                          inr (mk_gps (lat gpsinfo) (lon gpsinfo) (alt gpsinfo) v
                                 (heading gpsinfo) (precision gpsinfo)
                                 (fix_ gpsinfo) (time gpsinfo) (gpsname gpsinfo))
              | None => inr gpsinfo
              end);;
  gpsinfo <~ (match dict !! "heading"%string with
              | Some o => v <~ as_double o;;
                          inr (mk_gps (lat gpsinfo) (lon gpsinfo) (alt gpsinfo)
                                 (speed gpsinfo) v (precision gpsinfo)
                                 (fix_ gpsinfo) (time gpsinfo) (gpsname gpsinfo))
              | None => inr gpsinfo
              end);;
  gpsinfo <~ (match dict !! "precision"%string with
              | Some o => v <~ as_double o;;
                          inr (mk_gps (lat gpsinfo) (lon gpsinfo) (alt gpsinfo)
                                 (speed gpsinfo) (heading gpsinfo) v
                                 (fix_ gpsinfo) (time gpsinfo) (gpsname gpsinfo))
              | None => inr gpsinfo
              end);;
  gpsinfo <~ (match dict !! "fix"%string with
              | Some o => v <~ as_int32_t o;;
                          inr (mk_gps (lat gpsinfo) (lon gpsinfo) (alt gpsinfo)
                                 (speed gpsinfo) (heading gpsinfo) (double_of_int32 v)
                                 (fix_ gpsinfo) (time gpsinfo) (gpsname gpsinfo))
              | None => inr gpsinfo
              end);;
  gpsinfo <~ (match dict !! "time"%string with
              | Some o => v <~ as_uint64_t o;;
                          inr (mk_gps (lat gpsinfo) (lon gpsinfo) (alt gpsinfo)
                                 (speed gpsinfo) (heading gpsinfo) (precision gpsinfo)
                                 (fix_ gpsinfo) v (gpsname gpsinfo))
              | None => inr gpsinfo
              end);;
  match dict !! "name"%string with
  | Some o => v <~ as_string o;;
              inr (mk_gps (lat gpsinfo) (lon gpsinfo) (alt gpsinfo)
                     (speed gpsinfo) (heading gpsinfo) (precision gpsinfo)
                     (fix_ gpsinfo) (time gpsinfo) v)
  | None => inr gpsinfo
  end.

(** [KisDatasource::handle_kv_gps]: [None] is the [NULL] result. *)
Definition handle_kv_gps (in_obj : KisDatasourceCapKeyedObject)
  : M (option (kis_gps_packinfo double)) :=
  match unpack_gps in_obj with
  | inr gpsinfo => ret (Some gpsinfo)
  | inl what =>
      trigger_error ("failed to unpack gps bundle: " ++ what);;
      ret None
  end.

(** The GPS decoder as the protocol description words it, to compare
    [unpack_gps] with: every field of the map is optional, and a field that
    is present is stored in the member of the same name ([name] in
    [gpsname]). *)
Definition optional_field {A} (dict : gmap string msgpack_object) (key : string)
    (convert : msgpack_object -> throws A) (dflt : A) : throws A :=
  match dict !! key with
  | Some o => convert o
  | None => inr dflt
  end.

Definition unpack_gps_described (in_obj : KisDatasourceCapKeyedObject)
  : throws (kis_gps_packinfo double) :=
  let gpsinfo := new_kis_gps_packinfo in
  dict <~ unpack_dict in_obj;;
  lat' <~ optional_field dict "lat" as_double (lat gpsinfo);;
  lon' <~ optional_field dict "lon" as_double (lon gpsinfo);;
  alt' <~ optional_field dict "alt" as_double (alt gpsinfo);;
  speed' <~ optional_field dict "speed" as_double (speed gpsinfo);;
  heading' <~ optional_field dict "heading" as_double (heading gpsinfo);;
  precision' <~ optional_field dict "precision" as_double (precision gpsinfo);;
  fix' <~ optional_field dict "fix" as_int32_t (fix_ gpsinfo);;
  time' <~ optional_field dict "time" as_uint64_t (time gpsinfo);;
  name' <~ optional_field dict "name" as_string (gpsname gpsinfo);;
  inr (mk_gps lat' lon' alt' speed' heading' precision' fix' time' name').

(** [KisDatasource::handle_kv_packet], its [try] block: the timestamp and
    the link frame. *)
Definition unpack_packet (in_obj : KisDatasourceCapKeyedObject)
  : throws (Z * Z * kis_datachunk) :=
  dict <~ unpack_dict in_obj;;
  tv_sec <~ (match dict !! "tv_sec"%string with
             | Some o => as_uint64_t o
             | None => inl "tv_sec timestamp missing"%string
             end);;
  tv_usec <~ (match dict !! "tv_usec"%string with
              | Some o => as_uint64_t o
              | None => inl "tv_usec timestamp missing"%string
              end);;
  dlt <~ (match dict !! "dlt"%string with
          | Some o => as_uint64_t o
          | None => inl "DLT missing"%string
          end);;
  size <~ (match dict !! "size"%string with
           | Some o => as_uint64_t o
           | None => inl "size field missing or zero"%string
           end);;
  rawdata <~ (match dict !! "packet"%string with
              | Some o => inr o
              | None => inl "packet data missing"%string
              end);;
  if negb (Z.of_nat (length (via_bin rawdata)) =? size)
  then inl "packet size did not match data size"%string
  else inr (tv_sec, tv_usec, mk_chunk dlt (via_bin rawdata)).

(** [KisDatasource::handle_kv_packet]: [None] is the [NULL] result. *)
Definition handle_kv_packet (in_obj : KisDatasourceCapKeyedObject)
  : M (option kis_packet) :=
  match unpack_packet in_obj with
  | inr (tv_sec, tv_usec, datachunk) =>
      ret (Some (mk_packet tv_sec tv_usec (Some datachunk) None None))
  | inl what =>
      emit EvDestroyPacket;;
      trigger_error ("failed to unpack packet bundle: " ++ what);;
      ret None
  end.

(** [KisDatasource::handle_kv_uuid] *)
Definition handle_kv_uuid (in_obj : KisDatasourceCapKeyedObject) : M unit :=
  match uuid_of_string (string_of_bytes (object_bytes in_obj)) with
  | None => trigger_error "unable to parse UUID"
  | Some parsed_uuid =>
      st <- get;;
      when (negb (local_uuid st)) (modify (set_source_uuid parsed_uuid))
  end.

(** [KisDatasource::handle_kv_config_channel] *)
Definition handle_kv_config_channel (in_obj : KisDatasourceCapKeyedObject)
  : M unit :=
  modify (set_source_channel (string_of_bytes (object_bytes in_obj))).

(** [KisDatasource::handle_kv_config_hop]: the hop list is replaced before
    the rate is looked at. *)
Definition handle_kv_config_hop (in_obj : KisDatasourceCapKeyedObject) : M unit :=
  let fail what := trigger_error ("failed to unpack chanset bundle: " ++ what) in
  match unpack_dict in_obj with
  | inl what => fail what
  | inr dict =>
      match dict !! "channels"%string with
      | None => fail "channel list missing in hop config"%string
      | Some o =>
          match AsStringVector o with
          | inl what => fail what
          | inr channel_vec =>
              modify (set_source_hop_vec channel_vec);;
              match dict !! "rate"%string with
              | None => fail "rate missing in hop config"%string
              | Some r =>
                  match as_double r with
                  | inl what => fail what
                  | inr rate => modify (set_source_hop_rate rate)
                  end
              end
          end
      end
  end.

(** [KisDatasource::handle_kv_interfacelist]: the loop over the array; an
    interface is appended as soon as it is read. *)
Fixpoint interfacelist_loop (elems : list msgpack_object) : M (throws unit) :=
  match elems with
  | [] => ret (inr tt)
  | e :: elems' =>
      let unpacked : throws SharedInterface :=
        dict <~ as_StrMap e;;
        interface <~ (match dict !! "interface"%string with
                      | Some o => as_string o
                      | None => inl "interface missing in list response"%string
                      end);;
        opts <~ (match dict !! "flags"%string with
                 | Some o => as_string o
                 | None => inr ""%string
                 end);;
        inr (interface, opts) in
      match unpacked with
      | inl what => ret (inl what)
      | inr intf =>
          modify (fun st => set_listed_interfaces (listed_interfaces st ++ [intf]) st);;
          interfacelist_loop elems'
      end
  end.

Definition handle_kv_interfacelist (in_obj : KisDatasourceCapKeyedObject)
  : M unit :=
  modify (set_listed_interfaces []);;
  let fail what :=
    trigger_error ("failed to unpack proberesp channels bundle: " ++ what) in
  match msgpack_unpack (object_bytes in_obj) with
  | inl what => fail what
  | inr deserialized =>
      r <- interfacelist_loop (via_array deserialized);;
      match r with
      | inl what => fail what
      | inr _ => ret tt
      end
  end.

(** ** The dispatcher *)

Definition erase_command (seq : Z) : M unit :=
  modify (fun st => set_command_ack_map (delete seq (command_ack_map st)) st).

(** [if ((i = in_kvpairs.find(key)) != in_kvpairs.end()) handler(i->second)] *)
Definition if_found {A} (in_kvpairs : KVmap) (key : string) (dflt : A)
    (handler : KisDatasourceCapKeyedObject -> M A) : M A :=
  match in_kvpairs !! key with
  | Some obj => handler obj
  | None => ret dflt
  end.

(** [KisDatasource::proto_packet_probe_resp] *)
Definition proto_packet_probe_resp (in_kvpairs : KVmap) : M unit :=
  msg <- if_found in_kvpairs "message" ""%string handle_kv_message;;
  if_found in_kvpairs "channels" tt handle_kv_channels;;
  if_found in_kvpairs "chanset" tt handle_kv_config_channel;;
  match in_kvpairs !! "success"%string with
  | None => trigger_error "No valid response found for probe request"
  | Some i =>
      seq <- get_kv_success_sequence i;;
      st <- get;;
      (match command_ack_map st !! seq with
       | Some ci =>
           (match probe_cb ci with
            | Some cb => ok <- get_kv_success i;; emit (EvProbeCb cb seq ok msg)
            | None => ret tt
            end);;
           erase_command seq
       | None => ret tt
       end);;
      close_source
  end.

(** [KisDatasource::proto_packet_open_resp] *)
Definition proto_packet_open_resp (in_kvpairs : KVmap) : M unit :=
  msg <- if_found in_kvpairs "message" ""%string handle_kv_message;;
  if_found in_kvpairs "channels" tt handle_kv_channels;;
  if_found in_kvpairs "chanset" tt handle_kv_config_channel;;
  if_found in_kvpairs "chanhop" tt handle_kv_config_hop;;
  if_found in_kvpairs "uuid" tt handle_kv_uuid;;
  match in_kvpairs !! "success"%string with
  | None => trigger_error "No valid response found for open request"
  | Some i =>
      seq <- get_kv_success_sequence i;;
      st <- get;;
      (match command_ack_map st !! seq with
       | Some ci =>
           (match open_cb ci with
            | Some cb => ok <- get_kv_success i;; emit (EvOpenCb cb seq ok msg)
            | None => ret tt
            end);;
           erase_command seq
       | None => ret tt
       end);;
      ok <- get_kv_success i;;
      when (negb ok) (trigger_error msg)
  end.

(** [KisDatasource::proto_packet_list_resp] *)
Definition proto_packet_list_resp (in_kvpairs : KVmap) : M unit :=
  msg <- if_found in_kvpairs "message" ""%string handle_kv_message;;
  if_found in_kvpairs "interfacelist" tt handle_kv_interfacelist;;
  match in_kvpairs !! "success"%string with
  | None => trigger_error "No valid response found for list request"
  | Some i =>
      seq <- get_kv_success_sequence i;;
      st <- get;;
      (match command_ack_map st !! seq with
       | Some ci =>
           (match list_cb ci with
            | Some cb => emit (EvListCb cb seq (listed_interfaces st))
            | None => ret tt
            end);;
           erase_command seq
       | None => ret tt
       end);;
      close_source
  end.

(** [KisDatasource::proto_packet_error] *)
Definition proto_packet_error (in_kvpairs : KVmap) : M unit :=
  fail_reason <- if_found in_kvpairs "message"
                   "Received error frame on data source"%string handle_kv_message;;
  trigger_error fail_reason.

(** [KisDatasource::proto_packet_message] *)
Definition proto_packet_message (in_kvpairs : KVmap) : M unit :=
  if_found in_kvpairs "message" ""%string handle_kv_message;;
  ret tt.

(** [KisDatasource::proto_packet_configresp] *)
Definition proto_packet_configresp (in_kvpairs : KVmap) : M unit :=
  msg <- if_found in_kvpairs "message" ""%string handle_kv_message;;
  if_found in_kvpairs "chanset" tt handle_kv_config_channel;;
  if_found in_kvpairs "chanhop" tt handle_kv_config_hop;;
  match in_kvpairs !! "success"%string with
  | None => trigger_error "No valid response found for config request"
  | Some i =>
      seq <- get_kv_success_sequence i;;
      st <- get;;
      (match command_ack_map st !! seq with
       | Some ci =>
           (match configure_cb ci with
            | Some cb => ok <- get_kv_success i;; emit (EvConfigureCb cb seq ok msg)
            | None => ret tt
            end);;
           erase_command seq
       | None => ret tt
       end);;
      ok <- get_kv_success i;;
      when (negb ok) (trigger_error msg)
  end.

(** [KisDatasource::proto_packet_data] *)
Definition proto_packet_data (in_kvpairs : KVmap) : M unit :=
  if_found in_kvpairs "message" ""%string handle_kv_message;;
  packet <- if_found in_kvpairs "packet" None handle_kv_packet;;
  match packet with
  | None => ret tt
  | Some packet =>
      siginfo <- if_found in_kvpairs "signal" None handle_kv_signal;;
      gpsinfo <- if_found in_kvpairs "gps" None handle_kv_gps;;
      emit (EvProcessPacket
              (mk_packet (ts_tv_sec packet) (ts_tv_usec packet)
                 (pack_comp_linkframe packet) siginfo gpsinfo))
  end.

(** [KisDatasource::proto_dispatch_packet] *)
Definition proto_dispatch_packet (in_type : string) (in_kvmap : KVmap) : M unit :=
  let ltype := StrLower in_type in
  if String.eqb ltype "proberesp" then proto_packet_probe_resp in_kvmap
  else if String.eqb ltype "openresp" then proto_packet_open_resp in_kvmap
  else if String.eqb ltype "listresp" then proto_packet_list_resp in_kvmap
  else if String.eqb ltype "error" then proto_packet_error in_kvmap
  else if String.eqb ltype "message" then proto_packet_message in_kvmap
  else if String.eqb ltype "configresp" then proto_packet_configresp in_kvmap
  else if String.eqb ltype "data" then proto_packet_data in_kvmap
  else ret tt.

(** [KisDatasource::BufferAvailable]; [in_amt] bytes are readable. *)
Definition BufferAvailable (in_amt : nat) : M unit :=
  if (in_amt <? sizeof_simple_cap_proto_t)%nat then ret tt else
  st <- get;;
  match ringbuf_handler st with
  | None => undefined NullHandler
  | Some rb =>
      let buf := PeekReadBufferData rb in_amt in
      match BufferAvailable_frame buf with
      | NeedMore => ret tt
      | InvalidSignature =>
          emit (EvMsg ("Kismet data source " ++ source_name st ++ " got an invalid "
                       ++ "control from on IPC/Network, closing.") MSGFLAG_ERROR);;
          trigger_error "Source got invalid control frame"
      | InvalidChecksum =>
          emit (EvMsg ("Kismet data source " ++ source_name st
                       ++ " got an invalid checksum "
                       ++ "on control from IPC/Network, closing.") MSGFLAG_ERROR);;
          trigger_error "Source got invalid control frame"
      | ReadOutOfBounds => undefined OutOfBoundsRead
      | Dispatch frame_sz ctype kv_map =>
          modify (set_ringbuf_handler (Some (GetReadBufferData rb frame_sz)));;
          proto_dispatch_packet ctype kv_map
      end
  end.

End Controller.

Arguments Returns {P A}.
Arguments Undefined {P A}.

Section DefinitionState.

Context `{P : Platform}.

(** The members that decide whether a UUID from the wire is adopted, and
    those [open_interface] looks at before parsing. *)
Definition same_definition_state (st st' : KisDatasource) : Prop :=
  local_uuid st' = local_uuid st
  /\ source_uuid st' = source_uuid st
  /\ source_definition_opts st' = source_definition_opts st
  /\ error_timer_id st' = error_timer_id st
  /\ source_builder st' = source_builder st
  /\ timetracker st' = timetracker st.

End DefinitionState.

(* ===================================================================== *)
(** * Device keys and element types (trackedelement.cc) *)
(* ===================================================================== *)

(** [uint64_t] arithmetic wraps modulo 2^64. *)
Definition wrap64 (z : Z) : Z := z mod 2 ^ 64.

(** [device_key]: the members [spkey], [dkey] and [error]. *)
Record device_key := mk_device_key {
  spkey : Z;
  dkey : Z;
  error : bool
}.

(** [device_key::device_key()] *)
Definition device_key_default : device_key :=
  {| spkey := 0; dkey := 0; error := true |}.

(** [device_key::device_key(uint32_t in_pkey, uint64_t in_dkey)] *)
Definition device_key_of_pkey (in_pkey in_dkey : Z) : device_key :=
  {| spkey := Z.land (wrap32 in_pkey) 0xFFFFFFFF;
     dkey := wrap64 in_dkey;
     error := false |}.



Section DeviceKeyGen.

(** [adler32_checksum] (util.h, outside this source tree) is left open;
    its result is converted to the type it is assigned to or returned
    as. *)
Variable adler32_checksum : list byte -> Z.

(** [device_key::gen_pkey] *)
Definition gen_pkey (phy : string) : Z :=
  wrap32 (adler32_checksum (bytes_of_string phy)).

(** [device_key::gen_spkey]; [uuid_block] is [s_uuid.uuid_block]. *)
Definition gen_spkey (uuid_block : list byte) (phy : string) : Z :=
  let uuid32 := wrap64 (adler32_checksum (firstn 16 uuid_block)) in
  let phy32 := wrap64 (gen_pkey phy) in
  Z.lor (wrap64 (Z.shiftl uuid32 32)) phy32.

End DeviceKeyGen.

(** [tracker_type]: the enumerators that the switches of this file name,
    and [tracker_type_other] for any other value of the enumeration. *)
Inductive tracker_type :=
| tracker_string | tracker_int8 | tracker_uint8 | tracker_int16
| tracker_uint16 | tracker_int32 | tracker_uint32 | tracker_int64
| tracker_uint64 | tracker_float | tracker_double | tracker_mac_addr
| tracker_vector | tracker_map | tracker_int_map | tracker_uuid
| tracker_key | tracker_mac_map | tracker_string_map | tracker_double_map
| tracker_byte_array | tracker_key_map | tracker_vector_double
| tracker_double_map_double | tracker_vector_string | tracker_hashkey_map
| tracker_alias
| tracker_type_other (v : Z).

(** [tracker_element::type_to_typestring] *)
Definition type_to_typestring (t : tracker_type) : string :=
  match t with
  | tracker_string => "tracker_string"
  | tracker_int8 => "tracker_int8"
  | tracker_uint8 => "tracker_uint8"
  | tracker_int16 => "tracker_int16"
  | tracker_uint16 => "tracker_uint16"
  | tracker_int32 => "tracker_int32"
  | tracker_uint32 => "tracker_uint32"
  | tracker_int64 => "tracker_int64"
  | tracker_uint64 => "tracker_uint64"
  | tracker_float => "tracker_float"
  | tracker_double => "tracker_double"
  | tracker_mac_addr => "tracker_mac_addr"
  | tracker_vector => "tracker_vector"
  | tracker_map => "tracker_map"
  | tracker_int_map => "tracker_int_map"
  | tracker_uuid => "tracker_uuid"
  | tracker_key => "tracker_key"
  | tracker_mac_map => "tracker_mac_map"
  | tracker_string_map => "tracker_string_map"
  | tracker_double_map => "tracker_double_map"
  | tracker_byte_array => "tracker_byte_array"
  | tracker_key_map => "tracker_key_map"
  | tracker_vector_double => "tracker_vector_double"
  | tracker_double_map_double => "tracker_double_map_double"
  | tracker_vector_string => "tracker_vector_string"
  | tracker_hashkey_map => "tracker_hashkey_map"
  | tracker_alias => "tracker_alias"
  | tracker_type_other _ => "TrackerUnknown"
  end.

(** [tracker_element::typestring_to_type]: [inl what] is the
    [std::runtime_error] it throws. *)
Definition typestring_to_type (s : string) : string + tracker_type :=
  if String.eqb s "tracker_string" then inr tracker_string
  else if String.eqb s "tracker_int8" then inr tracker_int8
  else if String.eqb s "tracker_uint8" then inr tracker_uint8
  else if String.eqb s "tracker_int16" then inr tracker_int16
  else if String.eqb s "tracker_uint16" then inr tracker_uint16
  else if String.eqb s "tracker_int32" then inr tracker_int32
  else if String.eqb s "tracker_uint32" then inr tracker_uint32
  else if String.eqb s "tracker_int64" then inr tracker_int64
  else if String.eqb s "tracker_uint64" then inr tracker_uint64
  else if String.eqb s "tracker_float" then inr tracker_float
  else if String.eqb s "tracker_double" then inr tracker_double
  else if String.eqb s "tracker_mac_addr" then inr tracker_mac_addr
  else if String.eqb s "tracker_vector" then inr tracker_vector
  else if String.eqb s "tracker_map" then inr tracker_map
  else if String.eqb s "tracker_int_map" then inr tracker_int_map
  else if String.eqb s "tracker_uuid" then inr tracker_uuid
  else if String.eqb s "tracker_key" then inr tracker_key
  else if String.eqb s "tracker_mac_map" then inr tracker_mac_map
  else if String.eqb s "tracker_string_map" then inr tracker_string_map
  else if String.eqb s "tracker_double_map" then inr tracker_double_map
  else if String.eqb s "tracker_byte_array" then inr tracker_byte_array
  else if String.eqb s "tracker_key_map" then inr tracker_key_map
  else if String.eqb s "tracker_vector_double" then inr tracker_vector_double
  else if String.eqb s "tracker_double_map_double"
       then inr tracker_double_map_double
  else if String.eqb s "tracker_vector_string" then inr tracker_vector_string
  else if String.eqb s "tracker_hashkey_map" then inr tracker_hashkey_map
  else if String.eqb s "tracker_alias" then inr tracker_alias
  else inl ("Unable to interpret tracker type " ++ s)%string.

(* ===================================================================== *)
(** * A concrete platform *)
(* ===================================================================== *)

(** One choice for everything [Platform] leaves open, so that the
    definitions can be run on explicit inputs: the signature and the keyed
    header size of the protocol description, Adler-32 as usually defined, a
    small subset of msgpack (fixint, fixstr, fixarray, fixmap, bin8,
    float64), and textual UUIDs. *)

Definition adler32 (data : list byte) : Z :=
  let '(a, b) :=
    foldl (fun '(a, b) c =>
             let a' := (a + Z_of_byte c) mod 65521 in
             (a', (b + a') mod 65521))
          (1, 0) data in
  Z.lor (Z.shiftl b 16) a.

Fixpoint split_on (sep : ascii) (s : string) : list string :=
  match s with
  | EmptyString => [EmptyString]
  | String c s' =>
      match split_on sep s' with
      | [] => [String c EmptyString]
      | w :: ws =>
          if Ascii.eqb c sep then EmptyString :: w :: ws
          else String c w :: ws
      end
  end.

Definition sample_StringToOpts (s sep : string)
  : option (list (string * string)) :=
  let items := if String.eqb s "" then [] else split_on "," s in
  foldr (fun item acc =>
           match index 0 "=" item, acc with
           | Some i, Some l =>
               Some ((substring 0 i item,
                      substring (i + 1) (String.length item - i - 1) item) :: l)
           | _, _ => None
           end) (Some []) items.

Definition sample_StringToBool (s : string) (dflt : bool) : bool :=
  if String.eqb (StrLower s) "true" then true
  else if String.eqb (StrLower s) "false" then false
  else dflt.

Definition is_hex (c : ascii) : bool :=
  let n := N_of_ascii c in
  ((48 <=? n) && (n <=? 57) || (97 <=? n) && (n <=? 102)
   || (65 <=? n) && (n <=? 70))%N.

(** A UUID in its textual form 8-4-4-4-12. *)
Definition sample_uuid_of_string (s : string) : option string :=
  let cs := list_ascii_of_string s in
  if ((length cs =? 36)%nat
      && forallb (fun '(i, c) =>
                    if ((i =? 8) || (i =? 13) || (i =? 18) || (i =? 23))%nat
                    then Ascii.eqb c "-" else is_hex c)
           (combine (seq 0 36) cs))%bool
  then Some (StrLower s) else None.

Inductive sample_double :=
| D_of_int (z : Z)
| D_of_bits (bits : list byte).

#[local] Unset Elimination Schemes.

Inductive sample_object :=
| ONil
| OInt (z : Z)
| OFloat (bits : list byte)
| OStr (s : string)
| OBin (b : list byte)
| OArr (l : list sample_object)
| OMap (l : list (sample_object * sample_object)).

#[local] Set Elimination Schemes.

Fixpoint sample_unpack_at (fuel : nat) (bs : list byte)
  : option (sample_object * list byte) :=
  match fuel with
  | O => None
  | S fuel' =>
      let fix items (k : nat) (bs : list byte)
        : option (list sample_object * list byte) :=
        match k with
        | O => Some ([], bs)
        | S k' =>
            match sample_unpack_at fuel' bs with
            | Some (o, bs') =>
                match items k' bs' with
                | Some (os, bs'') => Some (o :: os, bs'')
                | None => None
                end
            | None => None
            end
        end in
      let fix pairs (l : list sample_object)
        : list (sample_object * sample_object) :=
        match l with
        | k :: v :: l' => (k, v) :: pairs l'
        | _ => []
        end in
      match bs with
      | [] => None
      | b :: rest =>
          let n := Z_of_byte b in
          if n <? 128 then Some (OInt n, rest)
          else if n <? 144 then
            match items (Z.to_nat (2 * (n - 128))) rest with
            | Some (os, rest') => Some (OMap (pairs os), rest')
            | None => None
            end
          else if n <? 160 then
            match items (Z.to_nat (n - 144)) rest with
            | Some (os, rest') => Some (OArr os, rest')
            | None => None
            end
          else if n <? 192 then
            let len := Z.to_nat (n - 160) in
            if (len <=? length rest)%nat
            then Some (OStr (string_of_bytes (firstn len rest)), skipn len rest)
            else None
          else if n =? 192 then Some (ONil, rest)
          else if n =? 196 then
            match rest with
            | l :: rest' =>
                let len := Z.to_nat (Z_of_byte l) in
                if (len <=? length rest')%nat
                then Some (OBin (firstn len rest'), skipn len rest')
                else None
            | [] => None
            end
          else if n =? 203 then
            if (8 <=? length rest)%nat
            then Some (OFloat (firstn 8 rest), skipn 8 rest)
            else None
          else if 224 <=? n then Some (OInt (n - 256), rest)
          else None
      end
  end.

Definition sample_unpack (bs : list byte) : string + sample_object :=
  match sample_unpack_at (S (length bs)) bs with
  | Some (o, _) => inr o
  | None => inl "insufficient bytes"%string
  end.

Definition bad_cast {A} : string + A := inl "std::bad_cast"%string.

Definition sample_as_string (o : sample_object) : string + string :=
  match o with
  | OStr s => inr s
  | OBin b => inr (string_of_bytes b)
  | _ => bad_cast
  end.

Definition sample_as_StrMap (o : sample_object)
  : string + gmap string sample_object :=
  match o with
  | OMap l =>
      foldr (fun '(k, v) acc =>
               match sample_as_string k, acc with
               | inr k, inr m => inr (<[k := v]> m)
               | _, _ => bad_cast
               end) (inr ∅) l
  | _ => bad_cast
  end.

Definition sample_as_int (lo hi : Z) (o : sample_object) : string + Z :=
  match o with
  | OInt z => if (lo <=? z) && (z <=? hi) then inr z else bad_cast
  | _ => bad_cast
  end.

Definition sample_as_double (o : sample_object) : string + sample_double :=
  match o with
  | OInt z => inr (D_of_int z)
  | OFloat bits => inr (D_of_bits bits)
  | _ => bad_cast
  end.

Definition sample_AsStringVector (o : sample_object) : string + list string :=
  match o with
  | OArr l =>
      foldr (fun e acc =>
               match sample_as_string e, acc with
               | inr s, inr ss => inr (s :: ss)
               | _, _ => bad_cast
               end) (inr []) l
  | _ => bad_cast
  end.

Definition sample_platform : Platform := {|
  KIS_CAP_SIMPLE_PROTO_SIG := 0xDECAFBAD;
  sizeof_simple_cap_proto_kv_h_t := 24;
  Adler32Checksum := adler32;
  StringToOpts := sample_StringToOpts;
  StringToBool := sample_StringToBool;
  host_big_endian := false;
  MSGFLAG_ERROR := 4;
  uninit := fun _ => "170"%byte;
  uninit_size := 0;
  uuid := string;
  uuid_of_string := sample_uuid_of_string;
  double := sample_double;
  double_of_int32 := D_of_int;
  new_kis_layer1_packinfo :=
    mk_l1 kis_l1_signal_type_none 0 0 0 0 (D_of_int 0) "" (D_of_int 0);
  new_kis_gps_packinfo :=
    mk_gps (D_of_int 0) (D_of_int 0) (D_of_int 0) (D_of_int 0) (D_of_int 0)
      (D_of_int 0) 0 0 "";
  msgpack_object := sample_object;
  msgpack_unpack := sample_unpack;
  as_StrMap := sample_as_StrMap;
  as_string := sample_as_string;
  as_unsigned_int := sample_as_int 0 4294967295;
  as_int32_t := sample_as_int (-2147483648) 2147483647;
  as_uint64_t := sample_as_int 0 18446744073709551615;
  as_double := sample_as_double;
  AsStringVector := sample_AsStringVector;
  via_array := fun o => match o with OArr l => l | _ => [] end;
  via_bin := fun o => match o with OBin b => b | _ => [] end;
  pack_rate_channels := fun _ _ => []
|}.

(** ** Frames as a peer lays them out *)

(** A field of [n] bytes holding [bs], NUL-padded. *)
Definition pad_to (n : nat) (bs : list byte) : list byte :=
  firstn n (bs ++ repeat x00 n).

(** One keyed record: the key, the object size, the rest of the header,
    and the object bytes right after the header. *)
Definition wire_record `{P : Platform} (key : string) (obj : list byte)
  : list byte :=
  pad_to 16 (bytes_of_string key) ++ encode32 (Z.of_nat (length obj))
  ++ repeat x00 (sizeof_simple_cap_proto_kv_h_t - 20) ++ obj.

(** A frame around [data] announcing [num_kv] records: the envelope is
    filled field by field, the checksum field with [checksum]. *)
Definition wire_frame_with `{P : Platform} (checksum seqno : Z) (type : string)
    (num_kv : Z) (data : list byte) : list byte :=
  let frame := repeat x00 sizeof_simple_cap_proto_t ++ data in
  let frame := store32 frame off_signature KIS_CAP_SIMPLE_PROTO_SIG in
  let frame := store32 frame off_sequence_number seqno in
  let frame := store frame off_type (pad_to 16 (bytes_of_string type)) in
  let frame := store32 frame off_packet_sz (Z.of_nat (length frame)) in
  let frame := store32 frame off_num_kv_pairs num_kv in
  store32 frame off_checksum checksum.

(** The same with the checksum the decoder expects. *)
Definition wire_frame `{P : Platform} (seqno : Z) (type : string)
    (num_kv : Z) (data : list byte) : list byte :=
  wire_frame_with
    (wrap32 (Adler32Checksum (wire_frame_with 0 seqno type num_kv data)))
    seqno type num_kv data.

(** The map given to [write_packet] by a probe of ["wlan0"], with the
    object size filled in. *)
Definition probe_wlan0_kvpairs : KVmap :=
  {[ "DEFINITION"%string :=
       mk_kv "DEFINITION" 5 (bytes_of_string "wlan0") ]}.

(** Three one-byte records, keys ["a"], ["b"] and ["c"]. *)
Definition three_records `{P : Platform} : list byte :=
  wire_record "a" ["001"%byte] ++ wire_record "b" ["002"%byte]
  ++ wire_record "c" ["003"%byte].

(** ** Controllers to run the definitions on *)

(** A controller right after construction, over a connected transport with
    room for 4096 bytes; [caps] is what its builder can do. *)
Definition fresh_datasource `{P : Platform} (caps : KisDatasourceBuilder)
    (zero_uuid : uuid) (zero_rate : double) : KisDatasource :=
  {| source_builder := caps;
     source_name := ""; source_uuid := zero_uuid;
     source_definition := ""; source_interface := "";
     source_channels_vec := []; source_channel := "";
     source_hop_rate := zero_rate; source_hop_vec := [];
     source_error := false; source_error_reason := "";
     source_retry := false; source_retry_attempts := 0;
     local_uuid := false; source_definition_opts := ∅;
     next_cmd_sequence := 1000; error_timer_id := -1;
     command_ack_map := ∅; listed_interfaces := [];
     ringbuf_handler := Some (mk_ringbuf [] [] 4096);
     timetracker := mk_timetracker ∅ 1 |}.

Definition all_capable : KisDatasourceBuilder := mk_builder true true true true.
Definition not_capable : KisDatasourceBuilder := mk_builder false false false false.

Definition sample_datasource (caps : KisDatasourceBuilder)
  : KisDatasource (P := sample_platform) :=
  fresh_datasource (P := sample_platform) caps
    "00000000-0000-0000-0000-000000000000"%string (D_of_int 0).

(** Two pending commands: a list command under sequence 1 and a probe
    command under sequence 2. *)
Definition pending_list : tracked_command :=
  mk_tracked_command 100 1 (Some 10%nat) None None None (-1).
Definition pending_probe : tracked_command :=
  mk_tracked_command 200 2 None (Some 20%nat) None None (-1).
Definition two_pending : gmap Z tracked_command :=
  <[2 := pending_probe]> (<[1 := pending_list]> ∅).

(** The controller after [open_interface] with a definition that carries a
    uuid option. *)
Definition state_of {A} (o : outcome (P := sample_platform) A)
  : KisDatasource (P := sample_platform) :=
  match o with
  | Returns _ st _ => st
  | Undefined _ st _ => st
  end.

Definition opened_with_uuid : KisDatasource (P := sample_platform) :=
  state_of
    (open_interface (P := sample_platform)
       "wlan0:uuid=00000000-0000-0000-0000-000000000001" 2 (Some 5%nat)
       (sample_datasource all_capable)).

(** A [uuid] keyed object as the decoder builds it. *)
Definition wire_uuid_object : KisDatasourceCapKeyedObject :=
  mk_kv "uuid" 36 (bytes_of_string "ffffffff-ffff-ffff-ffff-ffffffffffff").

(** A [gps] keyed object holding the msgpack map [{"fix": 3}]. *)
Definition gps_fix_object : KisDatasourceCapKeyedObject :=
  mk_kv "gps" 6
    ["129"%byte; "163"%byte; "f"%byte; "i"%byte; "x"%byte; "003"%byte].

(** The sample controller with the two commands pending, and with retry
    enabled. *)
Definition two_pending_datasource : KisDatasource (P := sample_platform) :=
  set_command_ack_map (P := sample_platform) two_pending
    (sample_datasource all_capable).

Definition retry_datasource : KisDatasource (P := sample_platform) :=
  set_source_retry (P := sample_platform) true (sample_datasource all_capable).

(** A [success] keyed object: success flag 1, sequence number 1. *)
Definition success_object_seq1 : KisDatasourceCapKeyedObject :=
  mk_kv "success" 5 ["001"%byte; x00; x00; x00; "001"%byte].

(* ===================================================================== *)
(** * Names on the wire *)
(* ===================================================================== *)

(** A name that a 16-byte field of the wire format holds as it is: at
    most 16 bytes, none of them NUL. *)
Definition wire_name (s : string) : bool :=
  (length (bytes_of_string s) <=? 16)%nat
  && forallb (fun b => negb (bool_decide (b = x00))) (bytes_of_string s).

(* ===================================================================== *)
(** * Completions *)
(* ===================================================================== *)


(* ===================================================================== *)
(** * Keyed objects as a peer sends them *)
(* ===================================================================== *)

(** A [success] keyed object as the decoder builds it from the wire: the
    5-byte record of a flag and a sequence number in network order. *)
Definition success_object (ok : bool) (seq : Z) : KisDatasourceCapKeyedObject :=
  mk_kv "success" 5 ((if ok then "001"%byte else x00) :: encode32 seq).

(** One element of the interface list as [handle_kv_interfacelist] reads
    it inside its loop: the string map, the mandatory ["interface"] and the
    optional ["flags"]. *)
Definition interface_entry `{P : Platform} (e : msgpack_object)
  : string + SharedInterface :=
  match as_StrMap e with
  | inl what => inl what
  | inr dict =>
      match (match dict !! "interface"%string with
             | Some o => as_string o
             | None => inl "interface missing in list response"%string
             end) with
      | inl what => inl what
      | inr interface =>
          match (match dict !! "flags"%string with
                 | Some o => as_string o
                 | None => inr ""%string
                 end) with
          | inl what => inl what
          | inr opts => inr (interface, opts)
          end
      end
  end.

(** ** More inputs to run the definitions on *)

(** A msgpack string of fewer than 32 bytes: the length tag, then the
    bytes. *)
Definition mp_str (s : string) : list byte :=
  byte_of_Z (160 + Z.of_nat (String.length s)) :: bytes_of_string s.

Definition sample_kv (key : string) (bs : list byte)
  : KisDatasourceCapKeyedObject :=
  mk_kv key (length bs) bs.

(** [{"msg": "low battery", "flags": 2}] and [{"flags": 2}] *)
Definition message_object : KisDatasourceCapKeyedObject :=
  sample_kv "message"
    (["130"%byte] ++ mp_str "msg" ++ mp_str "low battery"
     ++ mp_str "flags" ++ ["002"%byte]).
Definition message_object_no_text : KisDatasourceCapKeyedObject :=
  sample_kv "message" (["129"%byte] ++ mp_str "flags" ++ ["002"%byte]).

(** [{"channels": ["1", "6"]}] *)
Definition hop_object_no_rate : KisDatasourceCapKeyedObject :=
  sample_kv "chanhop"
    (["129"%byte] ++ mp_str "channels"
     ++ ["146"%byte] ++ mp_str "1" ++ mp_str "6").

(** [{"signal_dbm": -20, "noise_rssi": 7}] *)
Definition signal_object : KisDatasourceCapKeyedObject :=
  sample_kv "signal"
    (["130"%byte] ++ mp_str "signal_dbm" ++ ["236"%byte]
     ++ mp_str "noise_rssi" ++ ["007"%byte]).

(** [{"tv_sec": 1, "tv_usec": 2, "dlt": 105, "size": size, "packet":
    bin(3 bytes)}] *)
Definition packet_object (size : byte) : KisDatasourceCapKeyedObject :=
  sample_kv "packet"
    (["133"%byte] ++ mp_str "tv_sec" ++ ["001"%byte]
     ++ mp_str "tv_usec" ++ ["002"%byte]
     ++ mp_str "dlt" ++ ["105"%byte]
     ++ mp_str "size" ++ [size]
     ++ mp_str "packet" ++ ["196"%byte; "003"%byte; "a"%byte; "b"%byte; "c"%byte]).

(** A [gps] object with no bytes at all. *)
Definition gps_object_empty : KisDatasourceCapKeyedObject := sample_kv "gps" [].

(** [[{"interface": "wlan0", "flags": "x"}, {"flags": "y"},
      {"interface": "wlan1"}]] *)
Definition interfacelist_object : KisDatasourceCapKeyedObject :=
  sample_kv "interfacelist"
    (["147"%byte]
     ++ ["130"%byte] ++ mp_str "interface" ++ mp_str "wlan0"
     ++ mp_str "flags" ++ mp_str "x"
     ++ ["129"%byte] ++ mp_str "flags" ++ mp_str "y"
     ++ ["129"%byte] ++ mp_str "interface" ++ mp_str "wlan1").

(** The sample controller without a transport, with a transport that has
    room for 10 bytes, starting its sequence numbers at 0, with one open
    command pending under sequence 5, with interfaces listed earlier, and
    with retry enabled and a timer service that starts at id 1. *)
Definition no_transport_datasource : KisDatasource (P := sample_platform) :=
  set_ringbuf_handler (P := sample_platform) None (sample_datasource all_capable).


Definition zero_sequence_datasource : KisDatasource (P := sample_platform) :=
  set_next_cmd_sequence (P := sample_platform) 0 (sample_datasource all_capable).

Definition pending_open : tracked_command :=
  mk_tracked_command 300 5 None None (Some 30%nat) None (-1).

Definition open_pending_datasource : KisDatasource (P := sample_platform) :=
  set_command_ack_map (P := sample_platform) {[ 5 := pending_open ]}
    (sample_datasource all_capable).

Definition listed_datasource : KisDatasource (P := sample_platform) :=
  set_listed_interfaces (P := sample_platform) [("eth0", "old")]%string
    (sample_datasource all_capable).

(** A data frame's objects: a packet announcing [size] bytes, and the
    empty [gps] object. *)
Definition data_frame_kv (size : byte) : KVmap :=
  <["gps"%string := gps_object_empty]>
    {[ "packet"%string := packet_object size ]}.

(* ===================================================================== *)
(** * Properties of the wire format *)
(* ===================================================================== *)

Lemma Z_of_byte_range (b : byte) : 0 <= Z_of_byte b < 256.
Proof.
  unfold Z_of_byte. pose proof (Byte.to_N_bounded b) as Hb.
  lia.
Qed.

Lemma Z_of_byte_of_Z (z : Z) : Z_of_byte (byte_of_Z z) = z mod 256.
Proof.
  unfold Z_of_byte, byte_of_Z.
  assert (Hr : 0 <= z mod 256 < 256) by (apply Z.mod_pos_bound; lia).
  destruct (Byte.of_N (Z.to_N (z mod 256))) as [b|] eqn:E.
  - apply Byte.to_of_N in E. rewrite E. lia.
  - apply Byte.of_N_None_iff in E. lia.
Qed.

Lemma decode32_encode32 (v : Z) : decode32 (encode32 v) = wrap32 v.
Proof.
  unfold decode32, encode32, wrap32. rewrite !Z_of_byte_of_Z.
  rewrite !Z.shiftl_mul_pow2, !Z.shiftr_div_pow2 by lia.
  change (2 ^ 24) with 16777216. change (2 ^ 16) with 65536.
  change (2 ^ 8) with 256. change (2 ^ 32) with 4294967296.
  assert (E2 : v / 65536 = v / 256 / 256)
    by (rewrite Z.div_div by lia; reflexivity).
  assert (E3 : v / 16777216 = v / 256 / 256 / 256)
    by (rewrite !Z.div_div by lia; reflexivity).
  rewrite E2, E3.
  set (q1 := v / 256). set (q2 := q1 / 256). set (q3 := q2 / 256).
  pose proof (Z.div_mod v 256 ltac:(lia)) as D0.
  pose proof (Z.div_mod q1 256 ltac:(lia)) as D1.
  pose proof (Z.div_mod q2 256 ltac:(lia)) as D2.
  pose proof (Z.div_mod q3 256 ltac:(lia)) as D3.
  fold q1 in D0. fold q2 in D1. fold q3 in D2.
  pose proof (Z.mod_pos_bound v 256 ltac:(lia)).
  pose proof (Z.mod_pos_bound q1 256 ltac:(lia)).
  pose proof (Z.mod_pos_bound q2 256 ltac:(lia)).
  pose proof (Z.mod_pos_bound q3 256 ltac:(lia)).
  apply Z.mod_unique with (q := q3 / 256); lia.
Qed.

Lemma length_encode32 (v : Z) : length (encode32 v) = 4%nat.
Proof. reflexivity. Qed.

Lemma length_store (buf : list byte) off bs : length (store buf off bs) = length buf.
Proof. apply length_inserts. Qed.

(** Reading a field that a store has just written. *)
Lemma field_store_same (buf : list byte) off bs :
  (off + length bs <= length buf)%nat ->
  firstn (length bs) (skipn off (store buf off bs)) = bs.
Proof.
  intros Hlen. unfold store. apply list_eq. intros i.
  rewrite lookup_take, lookup_drop. case_decide as Hi.
  - rewrite list_lookup_inserts by lia. f_equal. lia.
  - symmetry. apply lookup_ge_None. lia.
Qed.

(** Reading a field that a store leaves alone. *)
Lemma field_store_other (buf : list byte) off bs o n :
  (o + n <= off \/ off + length bs <= o)%nat ->
  firstn n (skipn o (store buf off bs)) = firstn n (skipn o buf).
Proof.
  intros Hd. unfold store. apply list_eq. intros i.
  rewrite !lookup_take, !lookup_drop. case_decide as Hi; [|done].
  destruct Hd; [apply list_lookup_inserts_lt | apply list_lookup_inserts_ge]; lia.
Qed.

Lemma skipn_store_after (buf : list byte) off bs o :
  (off + length bs <= o)%nat ->
  skipn o (store buf off bs) = skipn o buf.
Proof.
  intros Hd. unfold store. apply list_eq. intros i.
  rewrite !lookup_drop. apply list_lookup_inserts_ge. lia.
Qed.

Lemma firstn_store_over (buf : list byte) off bs n :
  (length buf <= n)%nat ->
  firstn n (store buf off bs) = store buf off bs.
Proof. intros. apply firstn_all2. rewrite length_store. lia. Qed.

(** Two stores to the same place: the second one wins. *)
Lemma store_store (buf : list byte) off bs bs' :
  length bs = length bs' ->
  store (store buf off bs) off bs' = store buf off bs'.
Proof.
  intros Hl. unfold store. apply list_eq. intros i.
  destruct (decide (i < off)%nat).
  { rewrite !list_lookup_inserts_lt by lia. done. }
  destruct (decide (off + length bs' <= i)%nat).
  { rewrite !list_lookup_inserts_ge by lia. done. }
  destruct (decide (i < length buf)%nat).
  - rewrite !list_lookup_inserts by (rewrite ?length_inserts; lia). done.
  - rewrite !(proj2 (lookup_ge_None _ _)) by (rewrite ?length_inserts; lia). done.
Qed.

(** Storing what is already there changes nothing. *)
Lemma store_field_id (buf : list byte) off bs :
  firstn (length bs) (skipn off buf) = bs ->
  store buf off bs = buf.
Proof.
  intros Hf. unfold store. apply list_eq. intros i.
  destruct (decide (i < off)%nat).
  { rewrite list_lookup_inserts_lt by lia. done. }
  destruct (decide (off + length bs <= i)%nat).
  { rewrite list_lookup_inserts_ge by lia. done. }
  destruct (decide (i < length buf)%nat).
  - rewrite list_lookup_inserts by lia.
    rewrite <- Hf at 1. rewrite lookup_take_lt, lookup_drop by lia.
    f_equal. lia.
  - rewrite !(proj2 (lookup_ge_None _ _)) by (rewrite ?length_inserts; lia). done.
Qed.

Lemma c_str_no_nul (bs : list byte) : Forall (fun b => b <> x00) (c_str bs).
Proof.
  induction bs as [|b bs IH]; simpl; [constructor|].
  case_decide; [constructor | constructor; assumption].
Qed.

Lemma c_str_app_nul (w rest : list byte) :
  Forall (fun b => b <> x00) w -> c_str (w ++ x00 :: rest) = w.
Proof.
  induction 1 as [|b w Hb Hw IH]; simpl.
  - first [reflexivity | case_decide; congruence].
  - case_decide; [contradiction | by rewrite IH].
Qed.

Lemma length_snprintf_s n src :
  (0 < n)%nat -> (length (snprintf_s n src) <= n)%nat.
Proof.
  intros Hn. unfold snprintf_s. rewrite length_app, length_take. simpl. lia.
Qed.

(** What [snprintf] followed by a C-string read gives back: the C string,
    cut to [n - 1] characters. *)
Lemma c_str_snprintf_s n src rest :
  c_str (snprintf_s n src ++ rest) = firstn (n - 1) (c_str src).
Proof.
  unfold snprintf_s. rewrite <- app_assoc. simpl.
  apply c_str_app_nul. apply Forall_take, c_str_no_nul.
Qed.

(** A store of at most [n] bytes at [off], then a read of [n] bytes there. *)
Lemma field_store_prefix (buf : list byte) off bs n :
  (length bs <= n)%nat -> (off + n <= length buf)%nat ->
  firstn n (skipn off (store buf off bs))
  = bs ++ firstn (n - length bs) (skipn (off + length bs) buf).
Proof.
  intros Hn Hlen. unfold store. apply list_eq. intros i.
  rewrite lookup_take, lookup_drop. case_decide as Hi.
  - destruct (decide (i < length bs)%nat).
    + rewrite list_lookup_inserts by lia. rewrite lookup_app_l by lia.
      f_equal. lia.
    + rewrite list_lookup_inserts_ge by lia. rewrite lookup_app_r by lia.
      rewrite lookup_take_lt, lookup_drop by lia. f_equal. lia.
  - symmetry. apply lookup_ge_None.
    rewrite length_app, length_take, length_drop. lia.
Qed.

Section WireFacts.

Context `{P : Platform}.

(** The total that the first loop of [write_packet] adds up. *)
Lemma write_packet_loop1_spec (in_kvpairs : KVmap) :
  write_packet_loop1 in_kvpairs
  = ([], sum_list_with
           (fun e => (sizeof_simple_cap_proto_kv_h_t + kv_size e.2)%nat)
           (map_to_list in_kvpairs)).
Proof.
  unfold write_packet_loop1.
  assert (G : forall l acc,
    foldl (fun '(proto_kvpairs, kvpair_len) '(_, kv) =>
             let kvt := kvt_record kv in
             (proto_kvpairs,
              kvpair_len + (sizeof_simple_cap_proto_kv_h_t + kv_size kv))%nat)
          ([], acc) l
    = ([] : list (list byte),
       (acc + sum_list_with
                (fun e : string * KisDatasourceCapKeyedObject =>
                   (sizeof_simple_cap_proto_kv_h_t + kv_size e.2)%nat) l)%nat)).
  { induction l as [|[k kv] l IH]; intros acc; simpl.
    - f_equal. lia.
    - rewrite IH. f_equal. lia. }
  apply G.
Qed.

(** [proto_kvpairs] is empty when the first loop ends, whatever the map. *)
Lemma write_packet_proto_kvpairs_empty (in_kvpairs : KVmap) :
  fst (write_packet_loop1 in_kvpairs) = [].
Proof. by rewrite write_packet_loop1_spec. Qed.

Lemma write_packet_pack_len_spec (in_kvpairs : KVmap) :
  write_packet_pack_len in_kvpairs
  = (sizeof_simple_cap_proto_t
     + sum_list_with (fun e => (sizeof_simple_cap_proto_kv_h_t + kv_size e.2)%nat)
         (map_to_list in_kvpairs))%nat.
Proof. unfold write_packet_pack_len. by rewrite write_packet_loop1_spec. Qed.

Lemma write_packet_pack_len_ge (in_kvpairs : KVmap) :
  (36 <= write_packet_pack_len in_kvpairs)%nat.
Proof. unfold write_packet_pack_len, sizeof_simple_cap_proto_t. lia. Qed.

(** The buffer before the checksum: the fresh block with six fields
    written, and no keyed object. *)
Lemma write_packet_ret_unfold seqno in_cmd (in_kvpairs : KVmap) :
  write_packet_ret seqno in_cmd in_kvpairs
  = store32
      (store
         (store32
            (store32
               (store32
                  (store32 (map uninit (seq 0 (write_packet_pack_len in_kvpairs)))
                     off_signature KIS_CAP_SIMPLE_PROTO_SIG)
                  off_checksum 0)
               off_sequence_number seqno)
            off_packet_sz (Z.of_nat (write_packet_pack_len in_kvpairs)))
         off_type (snprintf_s 16 (bytes_of_string in_cmd)))
      off_num_kv_pairs 0.
Proof.
  unfold write_packet_ret. rewrite write_packet_proto_kvpairs_empty. reflexivity.
Qed.

Lemma length_write_packet_ret seqno in_cmd (in_kvpairs : KVmap) :
  length (write_packet_ret seqno in_cmd in_kvpairs)
  = write_packet_pack_len in_kvpairs.
Proof.
  rewrite write_packet_ret_unfold.
  unfold store32. rewrite !length_store, length_map, length_seq. done.
Qed.

Lemma length_write_packet_frame seqno in_cmd (in_kvpairs : KVmap) :
  length (write_packet_frame seqno in_cmd in_kvpairs)
  = write_packet_pack_len in_kvpairs.
Proof.
  unfold write_packet_frame, store32.
  by rewrite length_store, length_write_packet_ret.
Qed.

Lemma field32_store_same (buf : list byte) off v :
  (off + 4 <= length buf)%nat ->
  firstn 4 (skipn off (store32 buf off v)) = encode32 v.
Proof. intros. unfold store32. by apply (field_store_same buf off (encode32 v)). Qed.

Lemma field_store32_other (buf : list byte) off v o n :
  (o + n <= off \/ off + 4 <= o)%nat ->
  firstn n (skipn o (store32 buf off v)) = firstn n (skipn o buf).
Proof. intros. unfold store32. by apply field_store_other. Qed.

Lemma length_store32 (buf : list byte) off v :
  length (store32 buf off v) = length buf.
Proof. apply length_store. Qed.

Ltac frame_len :=
  unfold store32; rewrite ?length_store, ?length_map, ?length_seq; lia.

Ltac peel_stores :=
  repeat first
    [ rewrite field32_store_same by frame_len
    | rewrite field_store32_other by lia
    | rewrite field_store_other by lia ].

Section FrameFields.

Variables (seqno : Z) (in_cmd : string) (in_kvpairs : KVmap).

Lemma frame_signature :
  firstn 4 (skipn off_signature (write_packet_frame seqno in_cmd in_kvpairs))
  = encode32 KIS_CAP_SIMPLE_PROTO_SIG.
Proof.
  unfold write_packet_frame. rewrite write_packet_ret_unfold.
  pose proof (write_packet_pack_len_ge in_kvpairs).
  pose proof (length_snprintf_s 16 (bytes_of_string in_cmd) ltac:(lia)).
  unfold off_signature, off_checksum, off_sequence_number, off_packet_sz,
    off_type, off_num_kv_pairs.
  by peel_stores.
Qed.

Lemma frame_packet_sz :
  firstn 4 (skipn off_packet_sz (write_packet_frame seqno in_cmd in_kvpairs))
  = encode32 (Z.of_nat (write_packet_pack_len in_kvpairs)).
Proof.
  unfold write_packet_frame. rewrite write_packet_ret_unfold.
  pose proof (write_packet_pack_len_ge in_kvpairs).
  pose proof (length_snprintf_s 16 (bytes_of_string in_cmd) ltac:(lia)).
  unfold off_signature, off_checksum, off_sequence_number, off_packet_sz,
    off_type, off_num_kv_pairs.
  by peel_stores.
Qed.

Lemma frame_sequence_number :
  firstn 4 (skipn off_sequence_number (write_packet_frame seqno in_cmd in_kvpairs))
  = encode32 seqno.
Proof.
  unfold write_packet_frame. rewrite write_packet_ret_unfold.
  pose proof (write_packet_pack_len_ge in_kvpairs).
  pose proof (length_snprintf_s 16 (bytes_of_string in_cmd) ltac:(lia)).
  unfold off_signature, off_checksum, off_sequence_number, off_packet_sz,
    off_type, off_num_kv_pairs.
  by peel_stores.
Qed.

(** The [num_kv_pairs] field of every frame that [write_packet] builds
    holds zero. *)
Lemma frame_num_kv_pairs :
  firstn 4 (skipn off_num_kv_pairs (write_packet_frame seqno in_cmd in_kvpairs))
  = encode32 0.
Proof.
  unfold write_packet_frame. rewrite write_packet_ret_unfold.
  pose proof (write_packet_pack_len_ge in_kvpairs).
  pose proof (length_snprintf_s 16 (bytes_of_string in_cmd) ltac:(lia)).
  unfold off_signature, off_checksum, off_sequence_number, off_packet_sz,
    off_type, off_num_kv_pairs.
  by peel_stores.
Qed.

Lemma frame_checksum :
  firstn 4 (skipn off_checksum (write_packet_frame seqno in_cmd in_kvpairs))
  = encode32 (wrap32 (Adler32Checksum (write_packet_ret seqno in_cmd in_kvpairs))).
Proof.
  unfold write_packet_frame.
  pose proof (write_packet_pack_len_ge in_kvpairs).
  pose proof (length_write_packet_ret seqno in_cmd in_kvpairs).
  unfold off_checksum. rewrite field32_store_same by lia. done.
Qed.

(** Nothing is packed after the envelope: the body of the frame is the
    fresh block as it was allocated. *)
Lemma frame_data :
  skipn off_data (write_packet_frame seqno in_cmd in_kvpairs)
  = map uninit (seq 36 (write_packet_pack_len in_kvpairs - 36)).
Proof.
  unfold write_packet_frame. rewrite write_packet_ret_unfold.
  pose proof (write_packet_pack_len_ge in_kvpairs).
  pose proof (length_snprintf_s 16 (bytes_of_string in_cmd) ltac:(lia)).
  unfold off_signature, off_checksum, off_sequence_number, off_packet_sz,
    off_type, off_num_kv_pairs, off_data, store32.
  rewrite !skipn_store_after by (simpl length; lia).
  rewrite List.skipn_map, List.skipn_seq. done.
Qed.

(** Zeroing the checksum field of the frame gives back the buffer the
    checksum was computed on. *)
Lemma frame_zero_checksum :
  store32 (write_packet_frame seqno in_cmd in_kvpairs) off_checksum 0
  = write_packet_ret seqno in_cmd in_kvpairs.
Proof.
  unfold write_packet_frame, store32.
  rewrite store_store by reflexivity.
  apply store_field_id. change (length (encode32 0)) with 4%nat.
  rewrite write_packet_ret_unfold.
  pose proof (write_packet_pack_len_ge in_kvpairs).
  pose proof (length_snprintf_s 16 (bytes_of_string in_cmd) ltac:(lia)).
  unfold off_signature, off_checksum, off_sequence_number, off_packet_sz,
    off_type, off_num_kv_pairs.
  by peel_stores.
Qed.

(** The type field, read as the decoder reads it. *)
Lemma frame_type :
  c_str (firstn 16 (skipn off_type (write_packet_ret seqno in_cmd in_kvpairs)))
  = firstn 15 (c_str (bytes_of_string in_cmd)).
Proof.
  rewrite write_packet_ret_unfold.
  pose proof (write_packet_pack_len_ge in_kvpairs).
  pose proof (length_snprintf_s 16 (bytes_of_string in_cmd) ltac:(lia)).
  unfold off_signature, off_checksum, off_sequence_number, off_packet_sz,
    off_type, off_num_kv_pairs.
  rewrite field_store32_other by lia.
  rewrite field_store_prefix by frame_len.
  apply (c_str_snprintf_s 16).
Qed.

(** What the decoder makes of a frame built by [write_packet]: the frame
    is accepted, its type tag comes back (cut to 15 characters), and the
    keyed-object map is empty, whatever map was given to [write_packet]. *)
Lemma BufferAvailable_frame_write_packet :
  Z.of_nat (write_packet_pack_len in_kvpairs) < 2 ^ 32 ->
  BufferAvailable_frame (write_packet_frame seqno in_cmd in_kvpairs)
  = Dispatch (write_packet_pack_len in_kvpairs)
      (string_of_bytes (firstn 15 (c_str (bytes_of_string in_cmd)))) ∅.
Proof.
  intros Hlen. unfold BufferAvailable_frame.
  pose proof (write_packet_pack_len_ge in_kvpairs) as Hge.
  rewrite length_write_packet_frame.
  destruct (Nat.ltb_spec (write_packet_pack_len in_kvpairs)
              sizeof_simple_cap_proto_t) as [Hlt|_];
    [unfold sizeof_simple_cap_proto_t in Hlt; lia|].
  rewrite frame_signature, decode32_encode32, Z.eqb_refl. cbn [negb].
  rewrite frame_packet_sz, decode32_encode32.
  assert (Hw : wrap32 (Z.of_nat (write_packet_pack_len in_kvpairs))
               = Z.of_nat (write_packet_pack_len in_kvpairs))
    by (unfold wrap32; apply Z.mod_small; lia).
  rewrite Hw, Nat2Z.id, Nat.ltb_irrefl.
  rewrite frame_checksum, decode32_encode32, frame_zero_checksum.
  rewrite firstn_all2 by (rewrite length_write_packet_ret; lia).
  assert (Hww : forall z, wrap32 (wrap32 z) = wrap32 z)
    by (intros z; unfold wrap32; apply Z.mod_mod; lia).
  rewrite Hww, Z.eqb_refl. cbn [negb].
  rewrite <- frame_zero_checksum at 1.
  rewrite field_store32_other by (unfold off_num_kv_pairs, off_checksum; lia).
  rewrite frame_num_kv_pairs, decode32_encode32.
  change (Z.to_nat (wrap32 0)) with 0%nat. cbn [extract_kv_pairs].
  by rewrite frame_type.
Qed.

End FrameFields.

End WireFacts.

(* ===================================================================== *)
(** * The encoder and the decoder against their description *)
(* ===================================================================== *)

Section WireClaims.

Context `{P : Platform}.

Lemma pack_len_probe_wlan0 :
  write_packet_pack_len probe_wlan0_kvpairs
  = (36 + (sizeof_simple_cap_proto_kv_h_t + 5))%nat.
Proof.
  rewrite write_packet_pack_len_spec. unfold probe_wlan0_kvpairs.
  rewrite map_to_list_singleton. simpl. unfold sizeof_simple_cap_proto_t. lia.
Qed.

Lemma length_pad_to n (bs : list byte) : length (pad_to n bs) = n.
Proof.
  unfold pad_to. rewrite length_take, length_app, repeat_length. lia.
Qed.

Lemma length_wire_frame_with cs seqno type num_kv (data : list byte) :
  length (wire_frame_with cs seqno type num_kv data) = (36 + length data)%nat.
Proof.
  unfold wire_frame_with, store32.
  rewrite !length_store, length_app, repeat_length. done.
Qed.

(** The decoder on a frame whose envelope is right: the frame is consumed
    whole and the record loop runs over its body. *)
Lemma BufferAvailable_frame_wire_frame seqno type num_kv (data : list byte) :
  Z.of_nat (36 + length data) < 2 ^ 32 ->
  0 <= num_kv < 2 ^ 32 ->
  BufferAvailable_frame (wire_frame seqno type num_kv data)
  = match extract_kv_pairs (Z.to_nat num_kv) data 0 ∅ with
    | None => ReadOutOfBounds
    | Some kv_map =>
        Dispatch (36 + length data)
          (string_of_bytes (c_str (pad_to 16 (bytes_of_string type)))) kv_map
    end.
Proof.
  intros Hlen Hkv. unfold BufferAvailable_frame, wire_frame.
  set (cs := wrap32 (Adler32Checksum (wire_frame_with 0 seqno type num_kv data))).
  rewrite length_wire_frame_with.
  destruct (Nat.ltb_spec (36 + length data) sizeof_simple_cap_proto_t) as [Hlt|_];
    [unfold sizeof_simple_cap_proto_t in Hlt; lia|].
  assert (Hz : store32 (wire_frame_with cs seqno type num_kv data) off_checksum 0
               = wire_frame_with 0 seqno type num_kv data).
  { unfold wire_frame_with, store32. by rewrite store_store. }
  rewrite Hz.
  pose proof (length_pad_to 16 (bytes_of_string type)) as Hpad.
  assert (Hsig : firstn 4 (skipn off_signature
                   (wire_frame_with cs seqno type num_kv data))
                 = encode32 KIS_CAP_SIMPLE_PROTO_SIG).
  { unfold wire_frame_with, off_signature, off_checksum, off_sequence_number,
      off_packet_sz, off_type, off_num_kv_pairs, sizeof_simple_cap_proto_t.
    rewrite !field_store32_other by lia. rewrite field_store_other by lia.
    rewrite field_store32_other by lia.
    apply field32_store_same. rewrite length_app, repeat_length. lia. }
  assert (Hsz : firstn 4 (skipn off_packet_sz
                  (wire_frame_with cs seqno type num_kv data))
                = encode32 (Z.of_nat (36 + length data))).
  { unfold wire_frame_with, off_signature, off_checksum, off_sequence_number,
      off_packet_sz, off_type, off_num_kv_pairs, sizeof_simple_cap_proto_t.
    rewrite !field_store32_other by lia.
    rewrite field32_store_same
      by (unfold store32; rewrite !length_store, length_app, repeat_length; lia).
    unfold store32. rewrite !length_store, length_app, repeat_length. done. }
  assert (Hcs : firstn 4 (skipn off_checksum
                  (wire_frame_with cs seqno type num_kv data)) = encode32 cs).
  { unfold wire_frame_with, off_checksum.
    apply field32_store_same.
    unfold store32. rewrite !length_store, length_app, repeat_length.
    unfold sizeof_simple_cap_proto_t. lia. }
  assert (Hn : firstn 4 (skipn off_num_kv_pairs
                 (wire_frame_with 0 seqno type num_kv data)) = encode32 num_kv).
  { unfold wire_frame_with, off_signature, off_checksum, off_sequence_number,
      off_packet_sz, off_type, off_num_kv_pairs, sizeof_simple_cap_proto_t.
    rewrite field_store32_other by lia.
    apply field32_store_same.
    unfold store32. rewrite !length_store, length_app, repeat_length. lia. }
  assert (Ht : firstn 16 (skipn off_type
                 (wire_frame_with 0 seqno type num_kv data))
               = pad_to 16 (bytes_of_string type)).
  { unfold wire_frame_with, off_signature, off_checksum, off_sequence_number,
      off_packet_sz, off_type, off_num_kv_pairs, sizeof_simple_cap_proto_t.
    rewrite !field_store32_other by lia.
    rewrite <- Hpad at 1. apply field_store_same.
    unfold store32. rewrite !length_store, length_app, repeat_length. lia. }
  assert (Hd : skipn off_data (wire_frame_with 0 seqno type num_kv data) = data).
  { unfold wire_frame_with, off_signature, off_checksum, off_sequence_number,
      off_packet_sz, off_type, off_num_kv_pairs, off_data,
      sizeof_simple_cap_proto_t, store32.
    rewrite !skipn_store_after by (simpl length; lia).
    apply drop_app_length'. symmetry. apply repeat_length. }
  rewrite Hsig, Hsz, Hcs, Hn, Ht, Hd, !decode32_encode32.
  rewrite Z.eqb_refl. cbn [negb].
  assert (Hw : forall z, 0 <= z < 2 ^ 32 -> wrap32 z = z)
    by (intros z Hzr; unfold wrap32; apply Z.mod_small; lia).
  rewrite (Hw (Z.of_nat _)) by lia. rewrite Nat2Z.id, Nat.ltb_irrefl.
  rewrite firstn_all2 by (rewrite length_wire_frame_with; lia).
  assert (Hww : wrap32 cs = cs)
    by (subst cs; unfold wrap32; apply Z.mod_mod; lia).
  rewrite Hww. subst cs. rewrite Z.eqb_refl. cbn [negb].
  rewrite (Hw num_kv) by lia. done.
Qed.

(** C1 (the code departs from it).  [write_packet("PROBEDEVICE",
    {DEFINITION: "wlan0"})]: the map has one entry, yet the frame announces
    zero keyed objects; its length field counts the envelope and the one
    record (header plus 5 bytes), and the body behind the envelope is the
    fresh heap block as allocated: the record is not packed. *)
Theorem write_packet_probe_frame_has_no_kv (seqno : Z) :
  let frame := write_packet_frame seqno "PROBEDEVICE" probe_wlan0_kvpairs in
  size probe_wlan0_kvpairs = 1%nat
  /\ decode32 (firstn 4 (skipn off_num_kv_pairs frame)) = 0
  /\ decode32 (firstn 4 (skipn off_packet_sz frame))
     = wrap32 (Z.of_nat (36 + (sizeof_simple_cap_proto_kv_h_t + 5)))
  /\ skipn off_data frame
     = map uninit (seq 36 (sizeof_simple_cap_proto_kv_h_t + 5)).
Proof.
  cbv zeta. split; [|split; [|split]].
  - unfold probe_wlan0_kvpairs. apply map_size_singleton.
  - rewrite frame_num_kv_pairs. apply decode32_encode32.
  - rewrite frame_packet_sz, decode32_encode32, pack_len_probe_wlan0. done.
  - rewrite frame_data, pack_len_probe_wlan0. f_equal. f_equal. lia.
Qed.

(** With nothing to carry, the round trip is right: a command with an
    empty map comes back with its type tag, cut to 15 characters, and an
    empty map. *)
Lemma write_packet_round_trip_empty (seqno : Z) (in_cmd : string) :
  BufferAvailable_frame (write_packet_frame seqno in_cmd ∅)
  = Dispatch 36 (string_of_bytes (firstn 15 (c_str (bytes_of_string in_cmd)))) ∅.
Proof.
  rewrite BufferAvailable_frame_write_packet.
  - rewrite write_packet_pack_len_spec, map_to_list_empty. reflexivity.
  - rewrite write_packet_pack_len_spec, map_to_list_empty. simpl.
    unfold sizeof_simple_cap_proto_t. lia.
Qed.

(** C2 (the code departs from it).  Encoding [("PROBEDEVICE",
    {DEFINITION: "wlan0"})] with [write_packet] and decoding the bytes
    gives the type tag back with an empty map: the entry under
    ["definition"] is lost. *)
Theorem write_packet_round_trip_loses_kv (seqno : Z) :
  Z.of_nat sizeof_simple_cap_proto_kv_h_t < 2 ^ 31 ->
  exists consumed kv_map,
    BufferAvailable_frame
      (write_packet_frame seqno "PROBEDEVICE" probe_wlan0_kvpairs)
    = Dispatch consumed "PROBEDEVICE" kv_map
    /\ kv_map !! "definition"%string = None
    /\ kv_map = ∅.
Proof.
  intros HH. eexists _, _. split; [|split].
  - rewrite BufferAvailable_frame_write_packet.
    + reflexivity.
    + rewrite pack_len_probe_wlan0. lia.
  - apply lookup_empty.
  - reflexivity.
Qed.

Lemma length_wire_record key (obj : list byte) :
  (20 <= sizeof_simple_cap_proto_kv_h_t)%nat ->
  length (wire_record key obj) = (sizeof_simple_cap_proto_kv_h_t + length obj)%nat.
Proof.
  intros HH. unfold wire_record.
  rewrite !length_app, length_pad_to, repeat_length. simpl. lia.
Qed.

Lemma load_app_mid (pre x post : list byte) o n :
  (o + n <= length x)%nat ->
  load (pre ++ x ++ post) (length pre + o) n = Some (firstn n (skipn o x)).
Proof.
  intros Hn. unfold load. rewrite !length_app. case_decide; [|lia].
  f_equal. rewrite <- drop_drop, drop_app_length.
  rewrite drop_app_le by lia. rewrite take_app_le; [done|].
  rewrite length_drop. lia.
Qed.

(** A record laid out at the offset the decoder looks at is read back as
    it is: its key up to the first NUL, its size, and its object bytes. *)
Lemma KisDatasourceCapKeyedObject_of_wire_record (pre post : list byte) key obj :
  (20 <= sizeof_simple_cap_proto_kv_h_t)%nat ->
  Z.of_nat (length obj) < 2 ^ 32 ->
  KisDatasourceCapKeyedObject_of_wire (pre ++ wire_record key obj ++ post)
    (length pre)
  = Some {| kv_key := string_of_bytes (c_str (pad_to 16 (bytes_of_string key)));
            kv_size := length obj;
            kv_object := obj |}.
Proof.
  intros HH Hobj. unfold KisDatasourceCapKeyedObject_of_wire, load32.
  pose proof (length_wire_record key obj HH) as Hl.
  pose proof (length_pad_to 16 (bytes_of_string key)) as Hp.
  unfold off_kv_key, off_kv_obj_sz.
  rewrite !load_app_mid by lia. simpl.
  assert (E1 : firstn 16 (wire_record key obj) = pad_to 16 (bytes_of_string key)).
  { unfold wire_record. by rewrite take_app_length'. }
  assert (E2 : firstn 4 (skipn 16 (wire_record key obj))
               = encode32 (Z.of_nat (length obj))).
  { unfold wire_record. rewrite drop_app_length' by done.
    by rewrite take_app_length'. }
  change (drop 0 (wire_record key obj)) with (wire_record key obj).
  rewrite E1, E2, decode32_encode32.
  assert (Hw : wrap32 (Z.of_nat (length obj)) = Z.of_nat (length obj))
    by (unfold wrap32; apply Z.mod_small; lia).
  rewrite Hw, Nat2Z.id.
  rewrite load_app_mid by lia. simpl.
  assert (E3 : skipn sizeof_simple_cap_proto_kv_h_t (wire_record key obj) = obj).
  { unfold wire_record. rewrite !app_assoc. apply drop_app_length'.
    rewrite !length_app, length_pad_to, repeat_length. simpl. lia. }
  rewrite E3, firstn_all. done.
Qed.

(** C3 (the code departs from it).  A valid frame with three one-byte
    records ["a"], ["b"], ["c"] laid out one after the other: records 0 and
    1 are extracted, but the third read does not start at the total size of
    records 0 and 1; it starts again where record 1 does, and the object of
    record 2 is never extracted under ["c"]. *)
Theorem BufferAvailable_third_record_not_read :
  (20 <= sizeof_simple_cap_proto_kv_h_t)%nat ->
  Z.of_nat sizeof_simple_cap_proto_kv_h_t < 2 ^ 30 ->
  KisDatasourceCapKeyedObject_of_wire three_records
    (2 * (sizeof_simple_cap_proto_kv_h_t + 1))
  = Some (mk_kv "c" 1 ["003"%byte])
  /\ exists consumed kv_map,
       BufferAvailable_frame (wire_frame 0 "DATA" 3 three_records)
       = Dispatch consumed "DATA" kv_map
       /\ kv_map !! "a"%string = Some (mk_kv "a" 1 ["001"%byte])
       /\ kv_map !! "b"%string = Some (mk_kv "b" 1 ["002"%byte])
       /\ kv_map !! "c"%string = None.
Proof.
  intros HH Hb.
  assert (La : length (wire_record "a" ["001"%byte])
               = (sizeof_simple_cap_proto_kv_h_t + 1)%nat)
    by (by rewrite length_wire_record).
  assert (Lb : length (wire_record "b" ["002"%byte])
               = (sizeof_simple_cap_proto_kv_h_t + 1)%nat)
    by (by rewrite length_wire_record).
  assert (Lc : length (wire_record "c" ["003"%byte])
               = (sizeof_simple_cap_proto_kv_h_t + 1)%nat)
    by (by rewrite length_wire_record).
  assert (R0 : KisDatasourceCapKeyedObject_of_wire three_records 0
               = Some (mk_kv "a" 1 ["001"%byte])).
  { unfold three_records.
    apply (KisDatasourceCapKeyedObject_of_wire_record [] _ "a" ["001"%byte] HH).
    simpl. lia. }
  assert (R1 : KisDatasourceCapKeyedObject_of_wire three_records
                 (sizeof_simple_cap_proto_kv_h_t + 1)
               = Some (mk_kv "b" 1 ["002"%byte])).
  { unfold three_records. rewrite <- La.
    apply (KisDatasourceCapKeyedObject_of_wire_record _ _ "b" ["002"%byte] HH).
    simpl. lia. }
  assert (R2 : KisDatasourceCapKeyedObject_of_wire three_records
                 (2 * (sizeof_simple_cap_proto_kv_h_t + 1))
               = Some (mk_kv "c" 1 ["003"%byte])).
  { unfold three_records.
    replace (2 * (sizeof_simple_cap_proto_kv_h_t + 1))%nat
      with (length (wire_record "a" ["001"%byte] ++ wire_record "b" ["002"%byte]))
      by (rewrite length_app; lia).
    rewrite (app_assoc (wire_record "a" _)).
    rewrite <- (app_nil_r (wire_record "c" _)) at 1.
    apply (KisDatasourceCapKeyedObject_of_wire_record _ [] "c" ["003"%byte] HH).
    simpl. lia. }
  split; [exact R2|].
  eexists _, _. split.
  - rewrite BufferAvailable_frame_wire_frame.
    + change (Z.to_nat 3) with 3%nat. simpl extract_kv_pairs.
      rewrite R0. simpl. rewrite R1. simpl. rewrite R1. simpl. reflexivity.
    + unfold three_records. rewrite !length_app, La, Lb, Lc. lia.
    + lia.
  - split; [|split]; by simplify_map_eq.
Qed.

End WireClaims.

Lemma BufferAvailable_third_record_not_read_witness :
  (20 <= @sizeof_simple_cap_proto_kv_h_t sample_platform)%nat
  /\ Z.of_nat (@sizeof_simple_cap_proto_kv_h_t sample_platform) < 2 ^ 30
  /\ exists consumed kv_map,
       BufferAvailable_frame (P := sample_platform)
         (wire_frame (P := sample_platform) 0 "DATA" 3
            (three_records (P := sample_platform)))
       = Dispatch consumed "DATA" kv_map
       /\ kv_map !! "c"%string = None.
Proof.
  assert (H1 : (20 <= @sizeof_simple_cap_proto_kv_h_t sample_platform)%nat)
    by (vm_compute; lia).
  assert (H2 : Z.of_nat (@sizeof_simple_cap_proto_kv_h_t sample_platform) < 2 ^ 30)
    by (vm_compute; reflexivity).
  split; [exact H1|]. split; [exact H2|].
  destruct (BufferAvailable_third_record_not_read (P := sample_platform) H1 H2)
    as [_ (consumed & kv_map & Hd & _ & _ & Hc)].
  exists consumed, kv_map. split; assumption.
Defined.

Lemma write_packet_round_trip_loses_kv_witness :
  Z.of_nat (@sizeof_simple_cap_proto_kv_h_t sample_platform) < 2 ^ 31
  /\ exists consumed kv_map,
       BufferAvailable_frame (P := sample_platform)
         (write_packet_frame (P := sample_platform) 7 "PROBEDEVICE"
            probe_wlan0_kvpairs)
       = Dispatch consumed "PROBEDEVICE" kv_map
       /\ kv_map !! "definition"%string = None
       /\ kv_map = ∅.
Proof.
  split; [vm_compute; reflexivity|].
  apply (write_packet_round_trip_loses_kv (P := sample_platform) 7).
  vm_compute; reflexivity.
Defined.

(* ===================================================================== *)
(** * Properties of the controller *)
(* ===================================================================== *)

Section ControllerFacts.

Context `{P : Platform}.

(** ** The registry and the error path *)

Lemma map_begin_None {A} (m : gmap Z A) : map_begin m = None <-> m = ∅.
Proof.
  unfold map_begin. rewrite <- map_to_list_empty_iff.
  destruct (map_to_list m) as [|kv l]; [done|]. simpl.
  split; [|done]. destruct (foldr _ _ l) as [kv'|]; [|done].
  by destruct (kv.1 <? kv'.1).
Qed.

Lemma map_begin_Some {A} (m : gmap Z A) k a :
  map_begin m = Some (k, a) -> m !! k = Some a.
Proof.
  unfold map_begin. intros H.
  apply elem_of_map_to_list.
  revert k a H. induction (map_to_list m) as [|kv l IH]; intros k a H; [done|].
  simpl in H. destruct (foldr _ _ l) as [kv'|] eqn:E.
  - destruct (kv.1 <? kv'.1); injection H as <-.
    + destruct kv; left.
    + destruct kv' as [k' a']. right. by apply IH.
  - injection H as <-. destruct kv; left.
Qed.

(** With nothing pending, [cancel_all_commands] returns at once. *)
Lemma cancel_all_commands_empty in_error st :
  command_ack_map st = ∅ ->
  cancel_all_commands in_error st = Returns tt st [].
Proof.
  intros He. unfold cancel_all_commands, bind, get.
  rewrite (proj2 (map_begin_None _) He). reflexivity.
Qed.

(** [cancel_command] always returns, and leaves the error flag alone. *)
Lemma cancel_command_returns seq in_error st :
  exists st' evs,
    cancel_command seq in_error st = Returns tt st' evs
    /\ source_error st' = source_error st.
Proof.
  unfold cancel_command, bind, get.
  destruct (command_ack_map st !! seq) as [cmd|]; [|by eexists _, _].
  destruct (list_cb cmd), (probe_cb cmd), (open_cb cmd), (configure_cb cmd);
    simpl; destruct (-1 <? timer_id cmd); simpl; by eexists _, _.
Qed.

(** With a command pending, [cancel_all_commands] does not return: after
    the first [cancel_command] the erased iterator is used again. *)
Lemma cancel_all_commands_pending in_error st :
  command_ack_map st <> ∅ ->
  exists st' evs,
    cancel_all_commands in_error st = Undefined InvalidIterator st' evs
    /\ source_error st' = source_error st.
Proof.
  intros Hne. unfold cancel_all_commands, bind, get.
  destruct (map_begin (command_ack_map st)) as [[k a]|] eqn:E.
  - destruct (cancel_command_returns k in_error st) as (st' & evs & -> & Hs).
    simpl. by eexists _, _.
  - apply map_begin_None in E. contradiction.
Qed.

(** C4 (the code departs from it).  A controller with a list command
    (sequence 1, callback 10) and a probe command (sequence 2, callback 20)
    pending meets a transport error.  The first command is cancelled and
    its completion called; then the loop of [cancel_all_commands] uses its
    erased iterator.  The probe command is still registered and its
    completion has not been called. *)
Theorem BufferError_leaves_second_command st :
  command_ack_map st = two_pending ->
  BufferError "transport lost" st
  = Undefined InvalidIterator
      (set_command_ack_map {[ 2 := pending_probe ]} st)
      [EvListCb 10%nat 100 []].
Proof.
  intros Hm.
  assert (Hb : map_begin two_pending = Some (1, pending_list))
    by (vm_compute; reflexivity).
  assert (Hl : two_pending !! 1 = Some pending_list)
    by (vm_compute; reflexivity).
  assert (Hd : delete 1 two_pending = ({[ 2 := pending_probe ]} : gmap Z _))
    by (vm_compute; reflexivity).
  unfold BufferError, trigger_error, cancel_all_commands, bind, get.
  rewrite Hm, Hb. unfold cancel_command, bind, get. rewrite Hm, Hl.
  simpl. rewrite Hm, Hd. reflexivity.
Qed.

(** A response of another kind that carries the sequence number of a
    pending command retires it silently: an [openresp] for the pending list
    command erases it, and no completion is called. *)
Lemma proto_packet_open_resp_retires_list_command st :
  command_ack_map st = {[ 1 := pending_list ]} ->
  proto_packet_open_resp {[ "success"%string := success_object_seq1 ]} st
  = Returns tt (set_command_ack_map ∅ st) [].
Proof.
  intros Hm. unfold proto_packet_open_resp, if_found, bind, get.
  rewrite !lookup_singleton_ne by done. rewrite lookup_singleton_eq.
  cbn. rewrite Hm. rewrite lookup_singleton_eq. cbn.
  rewrite Hm, delete_singleton_eq. reflexivity.
Qed.

(** C5 (the code departs from it).  With a command pending,
    [cancel_all_commands] does not return with an empty registry, and
    [trigger_error] does not reach the assignment of the error flag: both
    stop at the erased iterator, the flag as it was. *)
Theorem trigger_error_with_pending_command st in_error :
  command_ack_map st <> ∅ ->
  (exists st' evs,
     cancel_all_commands in_error st = Undefined InvalidIterator st' evs)
  /\ (exists st' evs,
        trigger_error in_error st = Undefined InvalidIterator st' evs
        /\ source_error st' = source_error st).
Proof.
  intros Hne.
  destruct (cancel_all_commands_pending in_error st Hne) as (st' & evs & Hc & Hs).
  split; [by eexists _, _|].
  unfold trigger_error, bind. rewrite Hc. by eexists _, _.
Qed.

(** With nothing pending, [trigger_error] returns with the flag and the
    reason set, and nothing else changed. *)
Lemma trigger_error_empty st in_error :
  command_ack_map st = ∅ ->
  trigger_error in_error st
  = Returns tt (set_source_error_reason in_error (set_source_error true st))
      (match ringbuf_handler st with
       | Some _ => [EvErrorHandler in_error]
       | None => []
       end).
Proof.
  intros He. unfold trigger_error, bind.
  rewrite cancel_all_commands_empty by done.
  unfold get. destruct (ringbuf_handler st); reflexivity.
Qed.

(** C6 (the code departs from it).  A controller with retry enabled and
    nothing pending: [trigger_error] returns, and it has scheduled no
    timer, kept the reopen timer id, and left the retry counter alone. *)
Theorem trigger_error_schedules_no_reopen st in_error :
  source_retry st = true ->
  command_ack_map st = ∅ ->
  exists st' evs,
    trigger_error in_error st = Returns tt st' evs
    /\ timetracker st' = timetracker st
    /\ error_timer_id st' = error_timer_id st
    /\ source_retry_attempts st' = source_retry_attempts st.
Proof.
  intros _ He. rewrite trigger_error_empty by done.
  eexists _, _. split; [reflexivity|]. by destruct st.
Qed.

(** What [handle_source_error] does when it is called with retry enabled:
    the counter goes up by one and one timer is registered at 5 seconds to
    reopen the source. *)
Lemma handle_source_error_schedules st :
  source_retry st = true ->
  error_timer_id st <= 0 ->
  exists st' evs,
    handle_source_error st = Returns tt st' evs
    /\ source_retry_attempts st' = wrap32 (source_retry_attempts st + 1)
    /\ error_timer_id st' = tt_next_id (timetracker st)
    /\ tt_timers (timetracker st')
       = <[tt_next_id (timetracker st) := mk_timer 5 ReopenInterface]>
           (tt_timers (timetracker st)).
Proof.
  intros Hr Ht. unfold handle_source_error, bind, get. rewrite Hr. simpl.
  destruct (Z.ltb_spec 0 (error_timer_id st)); [lia|].
  destruct st; simpl in *. eexists _, _. repeat split; reflexivity.
Qed.

(** ** Capability gating *)

(** C7.  Each public operation called on a controller whose builder lacks
    the capability it needs returns at once: the caller's completion (when
    there is one) is called exactly once with a failure (the empty list
    for a list request, [false] and a reason for the others), and the
    controller is left exactly as it was, transport and registry
    included, so no byte is written. *)
Theorem capability_gating st (tx : Z) (cb : option callback)
    (definition chan : string) (rate : double) (chans : list string) :
  (get_list_capable (source_builder st) = false ->
   list_interfaces tx cb st
   = Returns tt st
       (match cb with Some c => [EvListCb c tx []] | None => [] end))
  /\ (get_probe_capable (source_builder st) = false ->
      probe_interface definition tx cb st
      = Returns tt st
          (match cb with
           | Some c => [EvProbeCb c tx false "Driver not capable of probing"]
           | None => []
           end))
  /\ (get_local_capable (source_builder st) = false ->
      open_interface definition tx cb st
      = Returns tt st
          (match cb with
           | Some c =>
               [EvOpenCb c tx false "Driver does not support direct capture"]
           | None => []
           end))
  /\ (get_tune_capable (source_builder st) = false ->
      set_channel chan tx cb st
      = Returns tt st
          (match cb with
           | Some c =>
               [EvConfigureCb c tx false "Driver not capable of changing channel"]
           | None => []
           end)
      /\ set_channel_hop rate chans tx cb st
         = Returns tt st
             (match cb with
              | Some c =>
                  [EvConfigureCb c tx false
                     "Driver not capable of changing channel"]
              | None => []
              end)
      /\ set_channel_hop_elem rate chans tx cb st
         = Returns tt st
             (match cb with
              | Some c =>
                  [EvConfigureCb c tx false
                     "Driver not capable of changing channel"]
              | None => []
              end)).
Proof.
  split; [|split; [|split]]; intros Hc; [| | |split; [|split]];
    unfold list_interfaces, probe_interface, open_interface, set_channel,
      set_channel_hop, set_channel_hop_elem, bind, get;
    rewrite Hc; destruct cb; reflexivity.
Qed.

(** ** The GPS decoder *)

(** One [if] of the GPS decoder is one optional field of the description,
    when the assignment leaves the record as it is for the default. *)
Lemma unpack_gps_step {A B} (dict : gmap string msgpack_object) key
    (convert : msgpack_object -> throws A) (gpsinfo : kis_gps_packinfo double)
    (assign : A -> kis_gps_packinfo double) (dflt : A)
    (rest : kis_gps_packinfo double -> throws B) (rest' : A -> throws B) :
  assign dflt = gpsinfo ->
  (forall v, rest (assign v) = rest' v) ->
  try_bind
    (match dict !! key with
     | Some o => try_bind (convert o) (fun v => inr (assign v))
     | None => inr gpsinfo
     end) rest
  = try_bind (optional_field dict key convert dflt) rest'.
Proof.
  intros Ha Hr. unfold optional_field.
  destruct (dict !! key) as [o|]; cbn.
  - destruct (convert o); cbn; [reflexivity | apply Hr].
  - rewrite <- Ha. apply Hr.
Qed.

(** As long as the map holds no [fix], the decoder does what the protocol
    description says: every present field goes to the member of its name,
    every absent one keeps its default. *)
Lemma unpack_gps_without_fix in_obj dict :
  unpack_dict in_obj = inr dict ->
  dict !! "fix"%string = None ->
  unpack_gps in_obj = unpack_gps_described in_obj.
Proof.
  intros Hd Hf. unfold unpack_gps, unpack_gps_described.
  rewrite Hd. cbn [try_bind].
  generalize new_kis_gps_packinfo. intros [la lo al sp he pr fi ti na]. cbn.
  do 6 (apply unpack_gps_step; [reflexivity|]; intros ?; cbn).
  rewrite Hf. unfold optional_field at 1. rewrite Hf. cbn.
  apply unpack_gps_step; [reflexivity|]; intros ?; cbn.
  unfold optional_field. destruct (dict !! "name"%string) as [o|]; cbn;
    [destruct (as_string o)|]; reflexivity.
Qed.

(** C9 (the code departs from it).  A [gps] object whose decoded map holds
    only [fix]: the value lands in [precision], and the record's [fix] keeps
    its default. *)
Theorem handle_kv_gps_fix_stored_in_precision st in_obj o (v : Z) :
  unpack_dict in_obj = inr {[ "fix"%string := o ]} ->
  as_int32_t o = inr v ->
  exists gpsinfo,
    handle_kv_gps in_obj st = Returns (Some gpsinfo) st []
    /\ precision gpsinfo = double_of_int32 v
    /\ fix_ gpsinfo = fix_ new_kis_gps_packinfo.
Proof.
  intros Hd Hv. unfold handle_kv_gps, unpack_gps. rewrite Hd.
  cbn [try_bind].
  rewrite !lookup_singleton_ne by done. cbn [try_bind].
  rewrite lookup_singleton_eq, Hv. cbn [try_bind].
  eexists. split; [reflexivity|]. split; reflexivity.
Qed.

(** ** The source definition and the UUID *)

Lemma send_command_open_interface_returns in_definition tx cb st :
  exists st' evs,
    send_command_open_interface in_definition tx cb st = Returns tt st' evs
    /\ same_definition_state st st'.
Proof.
  unfold send_command_open_interface, write_packet, bind, get.
  destruct (ringbuf_handler st) as [rb|].
  - set (frame := write_packet_frame _ _ _). clearbody frame.
    set (pack_len := write_packet_pack_len _). clearbody pack_len.
    unfold modify.
    destruct (PutWriteBufferData rb frame) as [ret_sz rb'].
    destruct (negb (ret_sz =? pack_len)%nat); destruct cb; simpl;
      eexists _, _; (split; [reflexivity|]); by destruct st.
  - destruct cb; simpl; eexists _, _; (split; [reflexivity|]); by destruct st.
Qed.

(** [open_interface] on a controller that can open and has no reopen timer
    to cancel: it returns, with the definition state that parsing gave. *)
Lemma open_interface_parsed in_definition tx cb st st1 evs1 :
  get_local_capable (source_builder st) = true ->
  error_timer_id st <= 0 ->
  parse_interface_definition in_definition st = Returns true st1 evs1 ->
  exists st2 evs2,
    open_interface in_definition tx cb st = Returns tt st2 evs2
    /\ same_definition_state st1 st2.
Proof.
  intros Hc Ht Hp. unfold open_interface, bind, get. rewrite Hc.
  destruct (Z.ltb_spec 0 (error_timer_id st)); [lia|].
  simpl. rewrite Hp. simpl.
  destruct (send_command_open_interface_returns in_definition tx cb st1)
    as (st2 & evs2 & -> & Hs).
  by eexists _, _.
Qed.

Lemma foldl_insert_opts_lookup_ne (options : list (string * string))
    (opts : gmap string string) key :
  Forall (fun o => StrLower o.1 <> key) options ->
  foldl (fun opts '(opt, val) => <[StrLower opt := val]> opts) opts options
    !! key = opts !! key.
Proof.
  intros Hf. revert opts.
  induction Hf as [|[opt val] options Hne _ IH]; intros opts; simpl; [done|].
  rewrite IH. by apply lookup_insert_ne.
Qed.

(** Parsing a definition with an option part, when the option dictionary
    ends up with a valid [uuid] entry: the source is marked as locally
    UUID-defined with that UUID. *)
Lemma parse_interface_definition_uuid st in_definition cpos options text u :
  index 0 ":" in_definition = Some cpos ->
  StringToOpts
    (substring (cpos + 1) (String.length in_definition - cpos - 1) in_definition)
    "," = Some options ->
  foldl (fun opts '(opt, val) => <[StrLower opt := val]> opts)
    (source_definition_opts st) options !! "uuid"%string = Some text ->
  uuid_of_string text = Some u ->
  exists st1,
    parse_interface_definition in_definition st = Returns true st1 []
    /\ local_uuid st1 = true
    /\ source_uuid st1 = u
    /\ source_definition_opts st1
       = foldl (fun opts '(opt, val) => <[StrLower opt := val]> opts)
           (source_definition_opts st) options
    /\ error_timer_id st1 = error_timer_id st
    /\ source_builder st1 = source_builder st.
Proof.
  intros Hi Ho Hl Hu. unfold parse_interface_definition, bind, get, modify.
  rewrite Hi. cbn [set_local_uuid set_source_interface source_definition_opts].
  destruct st; cbn in *. rewrite Ho. cbn.
  set (opts' := foldl _ _ options) in *.
  destruct (opts' !! "name"%string); cbn; rewrite Hl, Hu; cbn;
    rewrite ?Hl; destruct (opts' !! "retry"%string); cbn;
    eexists; repeat split; reflexivity.
Qed.

(** Without an option part, parsing leaves the source not locally
    UUID-defined, whatever it was before. *)
Lemma parse_interface_definition_plain st in_definition :
  index 0 ":" in_definition = None ->
  exists st1,
    parse_interface_definition in_definition st = Returns true st1 []
    /\ local_uuid st1 = false.
Proof.
  intros Hi. unfold parse_interface_definition, bind, get, modify.
  rewrite Hi. destruct st; cbn. eexists. split; reflexivity.
Qed.

(** A parsable UUID from the wire and a source marked as locally
    UUID-defined: the source UUID stays. *)
Lemma handle_kv_uuid_local st in_obj parsed_uuid :
  uuid_of_string (string_of_bytes (object_bytes in_obj)) = Some parsed_uuid ->
  local_uuid st = true ->
  handle_kv_uuid in_obj st = Returns tt st [].
Proof.
  intros Hp Hl. unfold handle_kv_uuid, bind, get. rewrite Hp, Hl. reflexivity.
Qed.

(** A parsable UUID from the wire and a source not marked: it is adopted. *)
Lemma handle_kv_uuid_adopts st in_obj parsed_uuid :
  uuid_of_string (string_of_bytes (object_bytes in_obj)) = Some parsed_uuid ->
  local_uuid st = false ->
  handle_kv_uuid in_obj st = Returns tt (set_source_uuid parsed_uuid st) [].
Proof.
  intros Hp Hl. unfold handle_kv_uuid, bind, get. rewrite Hp, Hl. reflexivity.
Qed.

(** [parse_interface_definition] always returns, and leaves the timers
    alone. *)
Lemma parse_interface_definition_returns in_definition st :
  exists ok st1 evs,
    parse_interface_definition in_definition st = Returns ok st1 evs
    /\ timetracker st1 = timetracker st.
Proof.
  unfold parse_interface_definition, bind, get, modify.
  destruct (index 0 ":" in_definition) as [cpos|]; cbn;
    [|eexists _, _, _; split; [reflexivity|]; by destruct st].
  destruct (StringToOpts _ _) as [options|]; cbn;
    [|eexists _, _, _; split; [reflexivity|]; by destruct st].
  destruct st; cbn. set (opts' := foldl _ _ options).
  destruct (opts' !! "name"%string); cbn;
    (destruct (opts' !! "uuid"%string) as [text|]; cbn;
     [destruct (uuid_of_string text); cbn|]);
    try (destruct (opts' !! "retry"%string); cbn);
    eexists _, _, _; split; reflexivity.
Qed.

(** An explicit [open_interface] on a controller that can open, while a
    reopen timer is pending (its id is positive), removes that timer and
    registers no other. *)
Lemma open_interface_cancels_reopen_timer in_definition tx cb st :
  get_local_capable (source_builder st) = true ->
  0 < error_timer_id st ->
  exists st' evs,
    open_interface in_definition tx cb st = Returns tt st' evs
    /\ timetracker st' = RemoveTimer (timetracker st) (error_timer_id st).
Proof.
  intros Hc Ht. unfold open_interface, bind, get. rewrite Hc.
  destruct (Z.ltb_spec 0 (error_timer_id st)); [|lia]. cbn [negb when].
  unfold remove_timer, modify.
  set (st0 := set_timetracker _ st).
  destruct (parse_interface_definition_returns in_definition st0)
    as (ok & st1 & evs1 & -> & Ht1).
  destruct ok; cbn [negb].
  - destruct (send_command_open_interface_returns in_definition tx cb st1)
      as (st2 & evs2 & -> & _ & _ & _ & _ & _ & Ht2).
    eexists _, _. split; [reflexivity|]. rewrite Ht2, Ht1. by destruct st.
  - destruct cb; cbn; eexists _, _; (split; [reflexivity|]);
      rewrite Ht1; by destruct st.
Qed.

(** C8 (the code departs from it).  The definition being parsed has an
    option part with no [uuid] option, but the option dictionary still
    holds the [uuid] entry of an earlier definition: parsing marks the
    source as locally UUID-defined again, with the earlier UUID, and a
    valid [uuid] object received afterwards is not adopted. *)
Theorem uuid_of_earlier_definition_blocks_wire_uuid
    st in_definition cpos options text u in_obj parsed_uuid :
  index 0 ":" in_definition = Some cpos ->
  StringToOpts
    (substring (cpos + 1) (String.length in_definition - cpos - 1) in_definition)
    "," = Some options ->
  Forall (fun o => StrLower o.1 <> "uuid"%string) options ->
  source_definition_opts st !! "uuid"%string = Some text ->
  uuid_of_string text = Some u ->
  uuid_of_string (string_of_bytes (object_bytes in_obj)) = Some parsed_uuid ->
  exists st1 st2,
    parse_interface_definition in_definition st = Returns true st1 []
    /\ local_uuid st1 = true
    /\ handle_kv_uuid in_obj st1 = Returns tt st2 []
    /\ source_uuid st2 = u.
Proof.
  intros Hi Ho Hno Hs Hu Hw.
  destruct (parse_interface_definition_uuid st in_definition cpos options text u)
    as (st1 & Hp & Hl & Hsu & _); try done.
  { by rewrite foldl_insert_opts_lookup_ne. }
  exists st1, st1. repeat split; try done.
  by eapply handle_kv_uuid_local.
Qed.

(** C10 (the code departs from it).  A source is opened with a definition
    that carries a uuid option, then opened again with a definition that
    has options but no uuid option.  The second parse resets the flag and
    then sets it again from the entry the first definition left in the
    option dictionary: a valid [uuid] object received afterwards is not
    adopted, and the source keeps the UUID of the first definition. *)
Theorem reopen_without_uuid_option_keeps_local_uuid
    st tx1 cb1 tx2 cb2 u1 in_obj parsed_uuid :
  get_local_capable (source_builder st) = true ->
  error_timer_id st <= 0 ->
  source_definition_opts st = ∅ ->
  StringToOpts "uuid=00000000-0000-0000-0000-000000000001" ","
  = Some [("uuid", "00000000-0000-0000-0000-000000000001")]%string ->
  StringToOpts "name=mon" "," = Some [("name", "mon")]%string ->
  uuid_of_string "00000000-0000-0000-0000-000000000001" = Some u1 ->
  uuid_of_string (string_of_bytes (object_bytes in_obj)) = Some parsed_uuid ->
  exists st1 evs1 st2 evs2 st3,
    open_interface "wlan0:uuid=00000000-0000-0000-0000-000000000001" tx1 cb1 st
    = Returns tt st1 evs1
    /\ open_interface "wlan0:name=mon" tx2 cb2 st1 = Returns tt st2 evs2
    /\ local_uuid st2 = true
    /\ handle_kv_uuid in_obj st2 = Returns tt st3 []
    /\ source_uuid st3 = u1.
Proof.
  intros Hc Ht He Ho1 Ho2 Hu1 Hw.
  destruct (parse_interface_definition_uuid st
              "wlan0:uuid=00000000-0000-0000-0000-000000000001" 5
              [("uuid", "00000000-0000-0000-0000-000000000001")]%string
              "00000000-0000-0000-0000-000000000001" u1)
    as (p1 & Hp1 & Hl1 & Hs1 & Hd1 & Ht1 & Hb1); try done.
  { rewrite He. reflexivity. }
  destruct (open_interface_parsed _ tx1 cb1 st p1 [] Hc Ht Hp1)
    as (st1 & evs1 & Hopen1 & Hl1' & Hs1' & Hd1' & Ht1' & Hb1' & _).
  destruct (parse_interface_definition_uuid st1 "wlan0:name=mon" 5
              [("name", "mon")]%string
              "00000000-0000-0000-0000-000000000001" u1)
    as (p2 & Hp2 & Hl2 & Hs2 & Hd2 & Ht2 & Hb2); try done.
  { rewrite Hd1', Hd1, He. reflexivity. }
  assert (Hc1 : get_local_capable (source_builder st1) = true) by congruence.
  assert (Hti1 : error_timer_id st1 <= 0) by lia.
  destruct (open_interface_parsed _ tx2 cb2 st1 p2 [] Hc1 Hti1 Hp2)
    as (st2 & evs2 & Hopen2 & Hl2' & Hs2' & _).
  exists st1, evs1, st2, evs2, st2.
  repeat split; try done; try congruence.
  eapply handle_kv_uuid_local; [done|congruence].
Qed.

End ControllerFacts.

(** ** The statements above on the sample controller *)

Lemma BufferError_leaves_second_command_witness :
  command_ack_map two_pending_datasource = two_pending
  /\ BufferError (P := sample_platform) "transport lost" two_pending_datasource
     = Undefined InvalidIterator
         (set_command_ack_map (P := sample_platform) {[ 2 := pending_probe ]}
            two_pending_datasource)
         [EvListCb 10%nat 100 []].
Proof.
  split; [reflexivity|].
  apply (BufferError_leaves_second_command (P := sample_platform)).
  reflexivity.
Defined.

Lemma trigger_error_with_pending_command_witness :
  command_ack_map two_pending_datasource <> ∅
  /\ (exists st' evs,
        cancel_all_commands (P := sample_platform) "transport lost"
          two_pending_datasource
        = Undefined InvalidIterator st' evs)
  /\ (exists st' evs,
        trigger_error (P := sample_platform) "transport lost"
          two_pending_datasource
        = Undefined InvalidIterator st' evs
        /\ source_error st' = false).
Proof.
  assert (Hne : command_ack_map two_pending_datasource <> ∅)
    by apply insert_non_empty.
  split; [exact Hne|].
  exact (trigger_error_with_pending_command (P := sample_platform)
           two_pending_datasource "transport lost" Hne).
Defined.

Lemma trigger_error_schedules_no_reopen_witness :
  source_retry retry_datasource = true
  /\ command_ack_map retry_datasource = ∅
  /\ exists st' evs,
       trigger_error (P := sample_platform) "card unplugged" retry_datasource
       = Returns tt st' evs
       /\ timetracker st' = timetracker retry_datasource
       /\ error_timer_id st' = -1
       /\ source_retry_attempts st' = 0.
Proof.
  split; [reflexivity|]. split; [reflexivity|].
  exact (trigger_error_schedules_no_reopen (P := sample_platform)
           retry_datasource "card unplugged" eq_refl eq_refl).
Defined.

Lemma capability_gating_witness :
  get_list_capable (source_builder (sample_datasource not_capable)) = false
  /\ get_probe_capable (source_builder (sample_datasource not_capable)) = false
  /\ get_local_capable (source_builder (sample_datasource not_capable)) = false
  /\ get_tune_capable (source_builder (sample_datasource not_capable)) = false
  /\ list_interfaces (P := sample_platform) 7 (Some 1%nat)
       (sample_datasource not_capable)
     = Returns tt (sample_datasource not_capable) [EvListCb 1%nat 7 []]
  /\ open_interface (P := sample_platform) "wlan0" 7 (Some 1%nat)
       (sample_datasource not_capable)
     = Returns tt (sample_datasource not_capable)
         [EvOpenCb 1%nat 7 false "Driver does not support direct capture"]
  /\ set_channel_hop (P := sample_platform) (D_of_int 5) ["1"; "6"]%string 7
       (Some 1%nat) (sample_datasource not_capable)
     = Returns tt (sample_datasource not_capable)
         [EvConfigureCb 1%nat 7 false "Driver not capable of changing channel"].
Proof.
  destruct (capability_gating (P := sample_platform)
              (sample_datasource not_capable) 7 (Some 1%nat) "wlan0" "6"
              (D_of_int 5) ["1"; "6"]%string)
    as (Hlist & _ & Hopen & Htune).
  destruct (Htune eq_refl) as (_ & Hhop & _).
  do 4 (split; [reflexivity|]).
  split; [exact (Hlist eq_refl)|]. split; [exact (Hopen eq_refl) | exact Hhop].
Defined.

Lemma handle_kv_gps_fix_stored_in_precision_witness :
  unpack_dict (P := sample_platform) gps_fix_object
  = inr {[ "fix"%string := OInt 3 ]}
  /\ exists gpsinfo,
       handle_kv_gps (P := sample_platform) gps_fix_object
         (sample_datasource all_capable)
       = Returns (Some gpsinfo) (sample_datasource all_capable) []
       /\ precision gpsinfo = D_of_int 3
       /\ fix_ gpsinfo = 0.
Proof.
  assert (Hd : unpack_dict (P := sample_platform) gps_fix_object
               = inr {[ "fix"%string := OInt 3 ]}) by (vm_compute; reflexivity).
  split; [exact Hd|].
  exact (handle_kv_gps_fix_stored_in_precision (P := sample_platform)
           (sample_datasource all_capable) gps_fix_object (OInt 3) 3 Hd eq_refl).
Defined.

Lemma uuid_of_earlier_definition_blocks_wire_uuid_witness :
  source_definition_opts opened_with_uuid !! "uuid"%string
  = Some "00000000-0000-0000-0000-000000000001"%string
  /\ uuid_of_string (Platform := sample_platform)
       (string_of_bytes (object_bytes wire_uuid_object))
     = Some "ffffffff-ffff-ffff-ffff-ffffffffffff"%string
  /\ exists st1 st2,
       parse_interface_definition (P := sample_platform) "wlan0:name=mon"
         opened_with_uuid
       = Returns true st1 []
       /\ local_uuid st1 = true
       /\ handle_kv_uuid (P := sample_platform) wire_uuid_object st1
          = Returns tt st2 []
       /\ source_uuid st2 = "00000000-0000-0000-0000-000000000001"%string.
Proof.
  assert (Hs : source_definition_opts opened_with_uuid !! "uuid"%string
               = Some "00000000-0000-0000-0000-000000000001"%string)
    by (vm_compute; reflexivity).
  assert (Hw : uuid_of_string (Platform := sample_platform)
                 (string_of_bytes (object_bytes wire_uuid_object))
               = Some "ffffffff-ffff-ffff-ffff-ffffffffffff"%string)
    by (vm_compute; reflexivity).
  split; [exact Hs|]. split; [exact Hw|].
  apply (uuid_of_earlier_definition_blocks_wire_uuid (P := sample_platform)
           opened_with_uuid "wlan0:name=mon" 5 [("name", "mon")]%string
           "00000000-0000-0000-0000-000000000001"
           "00000000-0000-0000-0000-000000000001" wire_uuid_object
           "ffffffff-ffff-ffff-ffff-ffffffffffff").
  - reflexivity.
  - vm_compute; reflexivity.
  - constructor; [|constructor]. vm_compute. discriminate.
  - exact Hs.
  - vm_compute; reflexivity.
  - exact Hw.
Defined.

Lemma reopen_without_uuid_option_keeps_local_uuid_witness :
  get_local_capable (source_builder (sample_datasource all_capable)) = true
  /\ source_definition_opts (sample_datasource all_capable) = ∅
  /\ exists st1 evs1 st2 evs2 st3,
       open_interface (P := sample_platform)
         "wlan0:uuid=00000000-0000-0000-0000-000000000001" 2 (Some 5%nat)
         (sample_datasource all_capable)
       = Returns tt st1 evs1
       /\ open_interface (P := sample_platform) "wlan0:name=mon" 3 (Some 6%nat) st1
          = Returns tt st2 evs2
       /\ local_uuid st2 = true
       /\ handle_kv_uuid (P := sample_platform) wire_uuid_object st2
          = Returns tt st3 []
       /\ source_uuid st3 = "00000000-0000-0000-0000-000000000001"%string.
Proof.
  split; [reflexivity|]. split; [reflexivity|].
  apply (reopen_without_uuid_option_keeps_local_uuid (P := sample_platform)
           (sample_datasource all_capable) 2 (Some 5%nat) 3 (Some 6%nat)
           "00000000-0000-0000-0000-000000000001" wire_uuid_object
           "ffffffff-ffff-ffff-ffff-ffffffffffff").
  - reflexivity.
  - vm_compute; discriminate.
  - reflexivity.
  - vm_compute; reflexivity.
  - vm_compute; reflexivity.
  - vm_compute; reflexivity.
  - vm_compute; reflexivity.
Defined.

(* ===================================================================== *)
(** * Further properties of the frame decoder *)
(* ===================================================================== *)

Lemma store_app_l (l rest : list byte) off bs :
  (off + length bs <= length l)%nat ->
  store (l ++ rest) off bs = store l off bs ++ rest.
Proof.
  intros Hlen. unfold store. apply list_eq. intros i.
  destruct (decide (i < off)%nat) as [Hlt|Hge].
  - rewrite list_lookup_inserts_lt by done.
    rewrite !lookup_app_l by (rewrite ?length_inserts; lia).
    by rewrite list_lookup_inserts_lt.
  - destruct (decide (i < off + length bs)%nat) as [Hin|Hout].
    + rewrite list_lookup_inserts by (rewrite ?length_app; lia).
      rewrite lookup_app_l by (rewrite length_inserts; lia).
      by rewrite list_lookup_inserts by lia.
    + rewrite list_lookup_inserts_ge by lia.
      destruct (decide (i < length l)%nat) as [Hl|Hl].
      * rewrite !lookup_app_l by (rewrite ?length_inserts; lia).
        by rewrite list_lookup_inserts_ge by lia.
      * rewrite !lookup_app_r by (rewrite ?length_inserts; lia).
        by rewrite length_inserts.
Qed.

Lemma field_app_l (l rest : list byte) o n :
  (o + n <= length l)%nat ->
  firstn n (skipn o (l ++ rest)) = firstn n (skipn o l).
Proof.
  intros Hlen. rewrite drop_app_le by lia.
  apply take_app_le. rewrite length_drop. lia.
Qed.

Lemma field_take (l : list byte) o n m :
  (o + n <= m)%nat ->
  firstn n (skipn o (take m l)) = firstn n (skipn o l).
Proof.
  intros Hlen. rewrite skipn_firstn_comm, take_take.
  f_equal. lia.
Qed.

Section WireExtras.

Context `{P : Platform}.

Ltac wire_offsets :=
  unfold wire_frame_with, off_signature, off_checksum, off_sequence_number,
    off_packet_sz, off_type, off_num_kv_pairs, off_data,
    sizeof_simple_cap_proto_t.

Ltac wire_len :=
  unfold store32; rewrite ?length_store, ?length_app, ?repeat_length; lia.

Lemma wire_frame_with_signature cs seqno type num_kv (data : list byte) :
  firstn 4 (skipn off_signature (wire_frame_with cs seqno type num_kv data))
  = encode32 KIS_CAP_SIMPLE_PROTO_SIG.
Proof.
  wire_offsets.
  rewrite !field_store32_other by lia. rewrite field_store_other by lia.
  rewrite field_store32_other by lia.
  apply field32_store_same. rewrite length_app, repeat_length. lia.
Qed.

Lemma wire_frame_with_packet_sz cs seqno type num_kv (data : list byte) :
  firstn 4 (skipn off_packet_sz (wire_frame_with cs seqno type num_kv data))
  = encode32 (Z.of_nat (36 + length data)).
Proof.
  wire_offsets.
  rewrite !field_store32_other by lia.
  rewrite field32_store_same by wire_len.
  unfold store32. rewrite !length_store, length_app, repeat_length. done.
Qed.

Lemma wire_frame_with_checksum cs seqno type num_kv (data : list byte) :
  firstn 4 (skipn off_checksum (wire_frame_with cs seqno type num_kv data))
  = encode32 cs.
Proof. wire_offsets. apply field32_store_same. wire_len. Qed.

Lemma wire_frame_with_sequence_number cs seqno type num_kv (data : list byte) :
  firstn 4 (skipn off_sequence_number
              (wire_frame_with cs seqno type num_kv data))
  = encode32 seqno.
Proof.
  wire_offsets.
  rewrite !field_store32_other by lia. rewrite field_store_other by lia.
  apply field32_store_same. wire_len.
Qed.

Lemma wire_frame_with_num_kv_pairs cs seqno type num_kv (data : list byte) :
  firstn 4 (skipn off_num_kv_pairs (wire_frame_with cs seqno type num_kv data))
  = encode32 num_kv.
Proof.
  wire_offsets. rewrite field_store32_other by lia.
  apply field32_store_same. wire_len.
Qed.

Lemma wire_frame_with_type cs seqno type num_kv (data : list byte) :
  firstn 16 (skipn off_type (wire_frame_with cs seqno type num_kv data))
  = pad_to 16 (bytes_of_string type).
Proof.
  pose proof (length_pad_to 16 (bytes_of_string type)) as Hpad.
  wire_offsets. rewrite !field_store32_other by lia.
  rewrite <- Hpad at 1. apply field_store_same. wire_len.
Qed.

Lemma wire_frame_with_data cs seqno type num_kv (data : list byte) :
  skipn off_data (wire_frame_with cs seqno type num_kv data) = data.
Proof.
  wire_offsets. unfold store32.
  rewrite !skipn_store_after by (rewrite ?length_pad_to; simpl length; lia).
  apply drop_app_length'. symmetry. apply repeat_length.
Qed.

Lemma wire_frame_with_zero_checksum cs seqno type num_kv (data : list byte) :
  store32 (wire_frame_with cs seqno type num_kv data) off_checksum 0
  = wire_frame_with 0 seqno type num_kv data.
Proof. unfold wire_frame_with, store32. by rewrite store_store. Qed.

(** The decoder on a frame with any checksum field, followed by any
    further bytes of the read buffer. *)
Lemma BufferAvailable_frame_wire_frame_with cs seqno type num_kv
    (data rest : list byte) :
  Z.of_nat (36 + length data) < 2 ^ 32 ->
  0 <= num_kv < 2 ^ 32 ->
  BufferAvailable_frame (wire_frame_with cs seqno type num_kv data ++ rest)
  = if wrap32 (Adler32Checksum (wire_frame_with 0 seqno type num_kv data))
       =? wrap32 cs
    then match extract_kv_pairs (Z.to_nat num_kv) (data ++ rest) 0 ∅ with
         | None => ReadOutOfBounds
         | Some kv_map =>
             Dispatch (36 + length data)
               (string_of_bytes (c_str (pad_to 16 (bytes_of_string type))))
               kv_map
         end
    else InvalidChecksum.
Proof.
  intros Hlen Hkv. unfold BufferAvailable_frame.
  pose proof (length_wire_frame_with cs seqno type num_kv data) as HL.
  pose proof (length_wire_frame_with 0 seqno type num_kv data) as HL0.
  rewrite length_app, HL.
  destruct (Nat.ltb_spec (36 + length data + length rest)
              sizeof_simple_cap_proto_t) as [Hlt|_];
    [unfold sizeof_simple_cap_proto_t in Hlt; lia|].
  assert (Hz : store32 (wire_frame_with cs seqno type num_kv data ++ rest)
                 off_checksum 0
               = wire_frame_with 0 seqno type num_kv data ++ rest).
  { rewrite <- wire_frame_with_zero_checksum with (cs := cs).
    apply store_app_l. rewrite HL. unfold off_checksum. simpl. lia. }
  rewrite Hz.
  rewrite (field_app_l _ rest off_signature 4)
    by (rewrite HL; unfold off_signature; lia).
  rewrite (field_app_l _ rest off_packet_sz 4)
    by (rewrite HL; unfold off_packet_sz; lia).
  rewrite (field_app_l _ rest off_checksum 4)
    by (rewrite HL; unfold off_checksum; lia).
  rewrite (field_app_l _ rest off_num_kv_pairs 4)
    by (rewrite HL0; unfold off_num_kv_pairs; lia).
  rewrite (field_app_l _ rest off_type 16)
    by (rewrite HL0; unfold off_type; lia).
  rewrite wire_frame_with_signature, wire_frame_with_packet_sz,
    wire_frame_with_checksum, wire_frame_with_num_kv_pairs,
    wire_frame_with_type, !decode32_encode32.
  rewrite Z.eqb_refl. cbn [negb].
  assert (Hw : forall z, 0 <= z < 2 ^ 32 -> wrap32 z = z)
    by (intros z Hzr; unfold wrap32; apply Z.mod_small; lia).
  rewrite (Hw (Z.of_nat _)) by lia. rewrite Nat2Z.id.
  destruct (Nat.ltb_spec (36 + length data + length rest) (36 + length data))
    as [Hlt|_]; [lia|].
  rewrite take_app_length' by done.
  rewrite drop_app_le by (rewrite HL0; unfold off_data; lia).
  rewrite wire_frame_with_data.
  rewrite (Hw num_kv) by lia.
  destruct (_ =? _); done.
Qed.

Lemma c_str_all (bs : list byte) :
  Forall (fun b => b <> x00) bs -> c_str bs = bs.
Proof.
  induction 1 as [|b bs Hb _ IH]; simpl; [done|].
  case_decide; [contradiction | by rewrite IH].
Qed.

Lemma wire_name_field (s : string) :
  wire_name s = true ->
  string_of_bytes (c_str (pad_to 16 (bytes_of_string s))) = s.
Proof.
  unfold wire_name. intros [Hlen Hnz]%andb_prop.
  apply Nat.leb_le in Hlen.
  assert (Hf : Forall (fun b => b <> x00) (bytes_of_string s)).
  { apply List.Forall_forall. intros b Hb.
    rewrite forallb_forall in Hnz. specialize (Hnz b Hb).
    apply negb_true_iff, bool_decide_eq_false in Hnz. done. }
  assert (Hc : c_str (pad_to 16 (bytes_of_string s)) = bytes_of_string s).
  { unfold pad_to. rewrite take_app_ge by done.
    destruct (16 - length (bytes_of_string s))%nat as [|k] eqn:Ek.
    - rewrite take_0, app_nil_r. by apply c_str_all.
    - change (repeat x00 16) with (x00 :: repeat x00 15).
      rewrite firstn_cons. by apply c_str_app_nul. }
  rewrite Hc. apply string_of_list_byte_of_string.
Qed.

(** X1.  A frame with a valid envelope and two keyed records, laid out
    one after the other: the decoder consumes the whole frame and hands
    both records to the dispatcher, each under its key in lower case with
    its key, size and object bytes as sent; when the two keys agree up to
    case, the second record replaces the first. *)
Theorem BufferAvailable_frame_two_records seqno type k1 (o1 : list byte)
    k2 (o2 : list byte) :
  (20 <= sizeof_simple_cap_proto_kv_h_t)%nat ->
  wire_name type = true -> wire_name k1 = true -> wire_name k2 = true ->
  Z.of_nat (36 + (sizeof_simple_cap_proto_kv_h_t + length o1)
               + (sizeof_simple_cap_proto_kv_h_t + length o2)) < 2 ^ 32 ->
  BufferAvailable_frame
    (wire_frame seqno type 2 (wire_record k1 o1 ++ wire_record k2 o2))
  = Dispatch (36 + (sizeof_simple_cap_proto_kv_h_t + length o1)
                 + (sizeof_simple_cap_proto_kv_h_t + length o2)) type
      (<[StrLower k2 := mk_kv k2 (length o2) o2]>
         (<[StrLower k1 := mk_kv k1 (length o1) o1]> ∅)).
Proof.
  intros HH Ht Hk1 Hk2 Hlen.
  pose proof (length_wire_record k1 o1 HH) as L1.
  pose proof (length_wire_record k2 o2 HH) as L2.
  rewrite BufferAvailable_frame_wire_frame
    by (rewrite ?length_app, ?L1, ?L2; lia).
  change (Z.to_nat 2) with 2%nat. cbn [extract_kv_pairs].
  pose proof (KisDatasourceCapKeyedObject_of_wire_record
                [] (wire_record k2 o2) k1 o1 HH ltac:(lia)) as R0.
  pose proof (KisDatasourceCapKeyedObject_of_wire_record
                (wire_record k1 o1) [] k2 o2 HH ltac:(lia)) as R1.
  rewrite app_nil_l in R0. rewrite app_nil_r, L1 in R1.
  change (length (@nil byte)) with 0%nat in R0.
  rewrite R0. cbn [mbind option_bind kv_size kv_key].
  rewrite R1. cbn [mbind option_bind kv_size kv_key].
  rewrite !wire_name_field by done.
  rewrite length_app, L1, L2. f_equal.
Qed.

(** X2.  The decoder rejects a frame for its checksum exactly when the
    checksum field differs (as a 32-bit number) from the Adler-32 of the
    whole frame taken with the field zeroed; no other frame with a valid
    signature and length is rejected this way. *)
Theorem BufferAvailable_frame_checksum cs seqno type num_kv (data : list byte) :
  Z.of_nat (36 + length data) < 2 ^ 32 ->
  0 <= num_kv < 2 ^ 32 ->
  BufferAvailable_frame (wire_frame_with cs seqno type num_kv data)
  = InvalidChecksum
  <-> wrap32 cs
      <> wrap32 (Adler32Checksum (wire_frame_with 0 seqno type num_kv data)).
Proof.
  intros Hlen Hkv.
  rewrite <- (app_nil_r (wire_frame_with cs seqno type num_kv data)).
  rewrite BufferAvailable_frame_wire_frame_with by done.
  destruct (Z.eqb_spec
              (wrap32 (Adler32Checksum (wire_frame_with 0 seqno type num_kv data)))
              (wrap32 cs)) as [E|E].
  - split; [|congruence].
    destruct (extract_kv_pairs _ _ _ _); discriminate.
  - split; [congruence | done].
Qed.

(** X3.  The record loop is not bounded by the frame.  A frame whose
    length field covers the envelope only but whose count announces one
    record is accepted; the record is taken from the bytes that follow the
    frame in the read buffer, and only the 36 bytes of the envelope are
    consumed, so the same bytes are read again as the start of the next
    frame. *)
Theorem BufferAvailable_frame_reads_past_frame seqno type k (o rest : list byte) :
  (20 <= sizeof_simple_cap_proto_kv_h_t)%nat ->
  wire_name type = true -> wire_name k = true ->
  Z.of_nat (length o) < 2 ^ 32 ->
  BufferAvailable_frame (wire_frame seqno type 1 [] ++ wire_record k o ++ rest)
  = Dispatch 36 type {[ StrLower k := mk_kv k (length o) o ]}.
Proof.
  intros HH Ht Hk Hlen. unfold wire_frame.
  rewrite BufferAvailable_frame_wire_frame_with by (simpl; lia).
  assert (Hww : forall z, wrap32 (wrap32 z) = wrap32 z)
    by (intros z; unfold wrap32; apply Z.mod_mod; lia).
  rewrite Hww, Z.eqb_refl.
  change (Z.to_nat 1) with 1%nat. cbn [extract_kv_pairs app].
  pose proof (KisDatasourceCapKeyedObject_of_wire_record
                [] rest k o HH Hlen) as R0.
  rewrite app_nil_l in R0. change (length (@nil byte)) with 0%nat in R0.
  rewrite R0. cbn [mbind option_bind kv_size kv_key].
  rewrite !wire_name_field by done. done.
Qed.

(** X4.  A frame that has arrived only in part stays in the read buffer:
    whatever the number of bytes received so far, short of the whole
    frame, [BufferAvailable] returns without consuming a byte, without an
    event and without any change to the controller. *)
Theorem BufferAvailable_partial_frame_kept (st : KisDatasource) rb
    seqno type num_kv (data : list byte) (n : nat) :
  ringbuf_handler st = Some rb ->
  rb_readable rb = firstn n (wire_frame seqno type num_kv data) ->
  (n < 36 + length data)%nat ->
  Z.of_nat (36 + length data) < 2 ^ 32 ->
  BufferAvailable n st = Returns tt st [].
Proof.
  intros Hrb Hbuf Hn Hlen. unfold BufferAvailable.
  destruct (Nat.ltb_spec n sizeof_simple_cap_proto_t) as [Hlt|Hge]; [done|].
  unfold sizeof_simple_cap_proto_t in Hge.
  unfold bind, get. rewrite Hrb.
  unfold PeekReadBufferData. rewrite Hbuf, take_take, Nat.min_id.
  assert (E : BufferAvailable_frame (take n (wire_frame seqno type num_kv data))
              = NeedMore).
  { unfold BufferAvailable_frame, wire_frame.
    rewrite length_take, length_wire_frame_with.
    replace (n `min` (36 + length data))%nat with n by lia.
    destruct (Nat.ltb_spec n sizeof_simple_cap_proto_t) as [Hlt|_];
      [unfold sizeof_simple_cap_proto_t in Hlt; lia|].
    rewrite (field_take _ off_signature 4 n) by (unfold off_signature; lia).
    rewrite (field_take _ off_packet_sz 4 n) by (unfold off_packet_sz; lia).
    rewrite wire_frame_with_signature, wire_frame_with_packet_sz,
      !decode32_encode32.
    rewrite Z.eqb_refl. cbn [negb].
    assert (Hw : wrap32 (Z.of_nat (36 + length data)) = Z.of_nat (36 + length data))
      by (unfold wrap32; apply Z.mod_small; lia).
    rewrite Hw, Nat2Z.id.
    destruct (Nat.ltb_spec n (36 + length data)) as [_|Hc]; [done | lia]. }
  rewrite E. done.
Qed.

(** X5.  Every frame [write_packet] builds passes the decoder's checks:
    signature, length and checksum are accepted and the frame is consumed
    whole.  Its sequence field holds the sequence number big-endian, and
    the command name comes back cut at its first NUL and to 15 bytes. *)
Theorem write_packet_frame_accepted seqno in_cmd (in_kvpairs : KVmap) :
  Z.of_nat (write_packet_pack_len in_kvpairs) < 2 ^ 32 ->
  (exists kv_map,
     BufferAvailable_frame (write_packet_frame seqno in_cmd in_kvpairs)
     = Dispatch (length (write_packet_frame seqno in_cmd in_kvpairs))
         (string_of_bytes (firstn 15 (c_str (bytes_of_string in_cmd)))) kv_map)
  /\ decode32 (firstn 4 (skipn off_sequence_number
                           (write_packet_frame seqno in_cmd in_kvpairs)))
     = wrap32 seqno.
Proof.
  intros Hlen. split.
  - exists ∅. rewrite length_write_packet_frame.
    by apply BufferAvailable_frame_write_packet.
  - by rewrite frame_sequence_number, decode32_encode32.
Qed.

End WireExtras.

(** ** The decoder statements on the sample platform *)

Lemma BufferAvailable_frame_two_records_witness :
  BufferAvailable_frame (P := sample_platform)
    (wire_frame (P := sample_platform) 1 "DATA" 2
       (wire_record (P := sample_platform) "Packet" ["001"%byte; "002"%byte]
        ++ wire_record (P := sample_platform) "packet" ["003"%byte]))
  = Dispatch 87 "DATA"
      (<["packet"%string := mk_kv "packet" 1 ["003"%byte]]>
         (<["packet"%string := mk_kv "Packet" 2 ["001"%byte; "002"%byte]]> ∅)).
Proof.
  apply (BufferAvailable_frame_two_records (P := sample_platform)
           1 "DATA" "Packet" ["001"%byte; "002"%byte] "packet" ["003"%byte]);
    vm_compute; first [reflexivity | lia].
Defined.

Lemma BufferAvailable_frame_checksum_witness :
  BufferAvailable_frame (P := sample_platform)
    (wire_frame_with (P := sample_platform) 0 1 "MESSAGE" 0 [])
  = InvalidChecksum.
Proof.
  apply (BufferAvailable_frame_checksum (P := sample_platform) 0 1 "MESSAGE" 0 []);
    vm_compute; first [lia | intuition congruence].
Defined.

Lemma BufferAvailable_frame_reads_past_frame_witness :
  BufferAvailable_frame (P := sample_platform)
    (wire_frame (P := sample_platform) 1 "MESSAGE" 1 []
     ++ wire_record (P := sample_platform) "Next" ["007"%byte] ++ [])
  = Dispatch 36 "MESSAGE" {[ "next"%string := mk_kv "Next" 1 ["007"%byte] ]}.
Proof.
  apply (BufferAvailable_frame_reads_past_frame (P := sample_platform)
           1 "MESSAGE" "Next" ["007"%byte] []);
    vm_compute; first [reflexivity | lia].
Defined.

Lemma BufferAvailable_partial_frame_kept_witness :
  let rb := mk_ringbuf
              (firstn 40 (wire_frame (P := sample_platform) 1 "DATA" 0
                            (repeat "001"%byte 8))) [] 4096 in
  let st := set_ringbuf_handler (P := sample_platform) (Some rb)
              (sample_datasource all_capable) in
  BufferAvailable (P := sample_platform) 40 st = Returns tt st [].
Proof.
  intros rb st.
  apply (BufferAvailable_partial_frame_kept (P := sample_platform)
           st rb 1 "DATA" 0 (repeat "001"%byte 8) 40);
    vm_compute; first [reflexivity | lia].
Defined.

Lemma write_packet_frame_accepted_witness :
  (exists kv_map,
     BufferAvailable_frame (P := sample_platform)
       (write_packet_frame (P := sample_platform) 7 "SOURCE_LIST_INTERFACES" ∅)
     = Dispatch 36 "SOURCE_LIST_INT" kv_map)
  /\ decode32 (firstn 4 (skipn off_sequence_number
                 (write_packet_frame (P := sample_platform) 7
                    "SOURCE_LIST_INTERFACES" ∅)))
     = 7.
Proof.
  destruct (write_packet_frame_accepted (P := sample_platform)
              7 "SOURCE_LIST_INTERFACES" ∅) as [[kv_map H1] H2].
  - vm_compute. reflexivity.
  - split; [exists kv_map; exact H1 | exact H2].
Defined.

(* ===================================================================== *)
(** * Further properties of the controller *)
(* ===================================================================== *)

(** ** Sequence numbers *)

Lemma wrap32_range (z : Z) : 0 <= wrap32 z < 2 ^ 32.
Proof. unfold wrap32. apply Z.mod_pos_bound. lia. Qed.

Lemma wrap32_small (z : Z) : 0 <= z < 2 ^ 32 -> wrap32 z = z.
Proof. intros Hz. unfold wrap32. apply Z.mod_small. lia. Qed.

Lemma wrap32_succ_ne (n : Z) : 0 <= n < 2 ^ 32 -> wrap32 (n + 1) <> n.
Proof.
  intros Hn. unfold wrap32.
  destruct (decide (n + 1 = 2 ^ 32)) as [E|E].
  - rewrite E, Z.mod_same by lia. lia.
  - rewrite Z.mod_small by lia. lia.
Qed.

Lemma bswap32_bytes (a b c d : Z) :
  0 <= a < 256 -> 0 <= b < 256 -> 0 <= c < 256 -> 0 <= d < 256 ->
  bswap32 (a + 256 * b + 65536 * c + 16777216 * d)
  = d + 256 * c + 65536 * b + 16777216 * a.
Proof.
  intros Ha Hb Hc Hd. unfold bswap32.
  change 255 with (Z.ones 8). rewrite !Z.land_ones by lia.
  rewrite !Z.shiftl_mul_pow2, !Z.shiftr_div_pow2 by lia.
  change (2 ^ 24) with 16777216. change (2 ^ 16) with 65536.
  change (2 ^ 8) with 256.
  set (v := a + 256 * b + 65536 * c + 16777216 * d).
  assert (E0 : v mod 256 = a)
    by (symmetry; apply Z.mod_unique with (q := b + 256 * c + 65536 * d);
        [lia | unfold v; lia]).
  assert (E1 : v / 256 = b + 256 * c + 65536 * d)
    by (symmetry; apply Z.div_unique with (r := a); [lia | unfold v; lia]).
  assert (E2 : v / 65536 = c + 256 * d)
    by (symmetry; apply Z.div_unique with (r := a + 256 * b);
        [lia | unfold v; lia]).
  assert (E3 : v / 16777216 = d)
    by (symmetry; apply Z.div_unique with (r := a + 256 * b + 65536 * c);
        [lia | unfold v; lia]).
  rewrite E0, E1, E2, E3.
  assert (F1 : (b + 256 * c + 65536 * d) mod 256 = b)
    by (symmetry; apply Z.mod_unique with (q := c + 256 * d); lia).
  assert (F2 : (c + 256 * d) mod 256 = c)
    by (symmetry; apply Z.mod_unique with (q := d); lia).
  assert (F3 : d mod 256 = d) by (apply Z.mod_small; lia).
  rewrite F1, F2, F3. lia.
Qed.

Lemma bswap32_involutive (v : Z) :
  0 <= v < 2 ^ 32 -> bswap32 (bswap32 v) = v.
Proof.
  intros Hv.
  set (q1 := v / 256). set (q2 := q1 / 256). set (q3 := q2 / 256).
  pose proof (Z.div_mod v 256 ltac:(lia)) as D0.
  pose proof (Z.div_mod q1 256 ltac:(lia)) as D1.
  pose proof (Z.div_mod q2 256 ltac:(lia)) as D2.
  fold q1 in D0. fold q2 in D1. fold q3 in D2.
  pose proof (Z.mod_pos_bound v 256 ltac:(lia)) as B0.
  pose proof (Z.mod_pos_bound q1 256 ltac:(lia)) as B1.
  pose proof (Z.mod_pos_bound q2 256 ltac:(lia)) as B2.
  assert (B3 : 0 <= q3 < 256) by lia.
  assert (E : v = v mod 256 + 256 * (q1 mod 256) + 65536 * (q2 mod 256)
                  + 16777216 * q3) by lia.
  rewrite E at 1. rewrite bswap32_bytes by done.
  rewrite bswap32_bytes by done. lia.
Qed.

Lemma bswap32_range (v : Z) : 0 <= bswap32 v < 2 ^ 32.
Proof.
  unfold bswap32.
  change 255 with (Z.ones 8). rewrite !Z.land_ones by lia.
  rewrite !Z.shiftl_mul_pow2 by lia.
  change (2 ^ 24) with 16777216. change (2 ^ 16) with 65536.
  change (2 ^ 8) with 256.
  pose proof (Z.mod_pos_bound v 256 ltac:(lia)).
  pose proof (Z.mod_pos_bound (Z.shiftr v 8) 256 ltac:(lia)).
  pose proof (Z.mod_pos_bound (Z.shiftr v 16) 256 ltac:(lia)).
  pose proof (Z.mod_pos_bound (Z.shiftr v 24) 256 ltac:(lia)).
  lia.
Qed.

Section ControllerExtras.

Context `{P : Platform}.

Lemma kis_ntoh32_range (v : Z) : 0 <= v < 2 ^ 32 -> 0 <= kis_ntoh32 v < 2 ^ 32.
Proof.
  intros Hv. unfold kis_ntoh32. destruct host_big_endian; [done|].
  apply bswap32_range.
Qed.

Lemma kis_ntoh32_inj (a b : Z) :
  0 <= a < 2 ^ 32 -> 0 <= b < 2 ^ 32 -> kis_ntoh32 a = kis_ntoh32 b -> a = b.
Proof.
  intros Ha Hb. unfold kis_ntoh32. destruct host_big_endian; [done|].
  intros E. rewrite <- (bswap32_involutive a), <- (bswap32_involutive b) by done.
  by rewrite E.
Qed.

(** ** [write_packet], case by case *)

Lemma write_packet_no_transport st in_cmd (in_kvpairs : KVmap) :
  ringbuf_handler st = None ->
  write_packet in_cmd in_kvpairs st = Returns None st [].
Proof. intros Hrb. unfold write_packet, bind, get. by rewrite Hrb. Qed.


Lemma write_packet_sent st rb in_cmd (in_kvpairs : KVmap) :
  ringbuf_handler st = Some rb ->
  (write_packet_pack_len in_kvpairs <= rb_free rb)%nat ->
  write_packet in_cmd in_kvpairs st
  = Returns (Some (kis_ntoh32 (next_cmd_sequence st)))
      (set_ringbuf_handler
         (Some (mk_ringbuf (rb_readable rb)
                  (rb_written rb
                   ++ write_packet_frame (next_cmd_sequence st) in_cmd in_kvpairs)
                  (rb_free rb - write_packet_pack_len in_kvpairs)))
         (set_next_cmd_sequence (wrap32 (next_cmd_sequence st + 1)) st)) [].
Proof.
  intros Hrb Hroom. unfold write_packet, bind, get, modify. rewrite Hrb.
  unfold PutWriteBufferData. rewrite length_write_packet_frame.
  destruct (Nat.leb_spec (write_packet_pack_len in_kvpairs) (rb_free rb)) as [_|?];
    [|lia].
  rewrite Nat.eqb_refl. reflexivity.
Qed.


(** ** The command registry *)


(** ** Commands that cannot be sent *)

(** X7.  No transport ([ringbuf_handler] is NULL): each of the five
    commands reports a failure to its completion, when there is one, and
    leaves the controller exactly as it was; no sequence number is used and
    nothing is registered. *)
Theorem send_command_without_transport st def chan rate chans tx
    (cb : option callback) :
  ringbuf_handler st = None ->
  send_command_list_interfaces tx cb st
  = Returns tt st (match cb with Some c => [EvListCb c tx []] | None => [] end)
  /\ send_command_probe_interface def tx cb st
     = Returns tt st
         (match cb with
          | Some c => [EvProbeCb c tx false "unable to generate command frame"]
          | None => []
          end)
  /\ send_command_open_interface def tx cb st
     = Returns tt st
         (match cb with
          | Some c => [EvOpenCb c tx false "unable to generate command frame"]
          | None => []
          end)
  /\ send_command_set_channel chan tx cb st
     = Returns tt st
         (match cb with
          | Some c => [EvConfigureCb c tx false "unable to generate command frame"]
          | None => []
          end)
  /\ send_command_set_channel_hop rate chans tx cb st
     = Returns tt st
         (match cb with
          | Some c => [EvConfigureCb c tx false "unable to generate command frame"]
          | None => []
          end).
Proof.
  intros Hrb.
  unfold send_command_list_interfaces, send_command_probe_interface,
    send_command_open_interface, send_command_set_channel,
    send_command_set_channel_hop, bind.
  rewrite !write_packet_no_transport by done.
  destruct cb; done.
Qed.


(** X9.  Two list requests sent one after the other on a transport with
    room: both frames are written, in order and with consecutive sequence
    numbers, no completion is called, and both commands are pending under
    two different keys, the byte-order conversion of the two sequence
    numbers. *)
Theorem list_interfaces_twice st rb tx1 cb1 tx2 cb2 :
  get_list_capable (source_builder st) = true ->
  ringbuf_handler st = Some rb ->
  (72 <= rb_free rb)%nat ->
  0 <= next_cmd_sequence st < 2 ^ 32 ->
  let n1 := next_cmd_sequence st in
  let n2 := wrap32 (n1 + 1) in
  exists st2 rb2,
    bind (list_interfaces tx1 cb1) (fun _ => list_interfaces tx2 cb2) st
    = Returns tt st2 []
    /\ kis_ntoh32 n1 <> kis_ntoh32 n2
    /\ command_ack_map st2
       = <[kis_ntoh32 n2 :=
             mk_tracked_command tx2 (kis_ntoh32 n2) cb2 None None None (-1)]>
           (<[kis_ntoh32 n1 :=
                mk_tracked_command tx1 (kis_ntoh32 n1) cb1 None None None (-1)]>
              (command_ack_map st))
    /\ next_cmd_sequence st2 = wrap32 (n2 + 1)
    /\ ringbuf_handler st2 = Some rb2
    /\ rb_written rb2
       = rb_written rb ++ write_packet_frame n1 "LISTDEVICE" ∅
         ++ write_packet_frame n2 "LISTDEVICE" ∅.
Proof.
  intros Hcap Hrb Hroom Hn n1 n2.
  assert (Hlen : write_packet_pack_len (∅ : KVmap) = 36%nat)
    by (rewrite write_packet_pack_len_spec, map_to_list_empty; done).
  assert (Hne : kis_ntoh32 n1 <> kis_ntoh32 n2).
  { intros E. apply kis_ntoh32_inj in E; [|done|apply wrap32_range].
    symmetry in E. by apply wrap32_succ_ne in E. }
  unfold bind at 1.
  assert (E1 : list_interfaces tx1 cb1 st
    = Returns tt
        (set_command_ack_map
           (<[kis_ntoh32 n1 :=
                mk_tracked_command tx1 (kis_ntoh32 n1) cb1 None None None (-1)]>
              (command_ack_map st))
           (set_ringbuf_handler
              (Some (mk_ringbuf (rb_readable rb)
                       (rb_written rb ++ write_packet_frame n1 "LISTDEVICE" ∅)
                       (rb_free rb - 36)))
              (set_next_cmd_sequence n2 st))) []).
  { unfold list_interfaces, bind at 1. unfold get. rewrite Hcap. cbn [negb].
    unfold send_command_list_interfaces, bind.
    rewrite (write_packet_sent _ rb) by (rewrite ?Hlen; done || lia).
    rewrite Hlen. unfold register_command, modify.
    cbn [new_tracked_command transaction command_seq list_cb probe_cb open_cb
           configure_cb timer_id app].
    reflexivity. }
  rewrite E1.
  set (st1 := set_command_ack_map _ _).
  assert (Hcap1 : get_list_capable (source_builder st1) = true)
    by (subst st1; by destruct st).
  unfold list_interfaces, bind at 1. unfold get. rewrite Hcap1. cbn [negb].
  unfold send_command_list_interfaces, bind.
  rewrite (write_packet_sent _
             (mk_ringbuf (rb_readable rb)
                (rb_written rb ++ write_packet_frame n1 "LISTDEVICE" ∅)
                (rb_free rb - 36)))
    by (rewrite ?Hlen; first [by (subst st1; destruct st) | simpl; lia]).
  unfold register_command, modify.
  cbn [new_tracked_command transaction command_seq list_cb probe_cb open_cb
         configure_cb timer_id app].
  eexists _, _. split; [reflexivity|].
  split; [done|].
  subst st1. destruct st; simpl in *.
  repeat split. by rewrite <- app_assoc.
Qed.

(** ** Responses *)

Lemma get_kv_success_sequence_object ok seq st :
  get_kv_success_sequence (success_object ok seq) st = Returns (wrap32 seq) st [].
Proof.
  unfold get_kv_success_sequence, success_object. cbn [kv_size kv_object].
  change (5 =? sizeof_simple_cap_proto_success_value)%nat with true.
  cbn [negb]. unfold ret.
  change (firstn 4 (skipn 1 (?b :: encode32 seq))) with (encode32 seq).
  by rewrite decode32_encode32.
Qed.

Lemma get_kv_success_object ok seq st :
  get_kv_success (success_object ok seq) st = Returns ok st [].
Proof.
  unfold get_kv_success, success_object. cbn [kv_size kv_object].
  change (5 =? sizeof_simple_cap_proto_success_value)%nat with true.
  cbn [negb]. unfold ret. by destruct ok.
Qed.

Lemma close_source_empty st :
  command_ack_map st = ∅ ->
  close_source st
  = Returns tt
      (if 0 <? error_timer_id st
       then set_timetracker (RemoveTimer (timetracker st) (error_timer_id st)) st
       else st)
      (match ringbuf_handler st with
       | Some _ => [EvCloseHandler "Closing source"]
       | None => []
       end).
Proof.
  intros He. unfold close_source, bind, get.
  destruct (0 <? error_timer_id st); cbn [when];
    unfold remove_timer, modify, ret.
  - rewrite cancel_all_commands_empty by (by destruct st).
    by destruct st, ringbuf_handler0.
  - rewrite cancel_all_commands_empty by done.
    by destruct (ringbuf_handler st).
Qed.

Lemma list_interfaces_sent st rb tx cb :
  get_list_capable (source_builder st) = true ->
  ringbuf_handler st = Some rb ->
  (36 <= rb_free rb)%nat ->
  list_interfaces tx cb st
  = Returns tt
      (set_command_ack_map
         (<[kis_ntoh32 (next_cmd_sequence st) :=
              mk_tracked_command tx (kis_ntoh32 (next_cmd_sequence st)) cb
                None None None (-1)]> (command_ack_map st))
         (set_ringbuf_handler
            (Some (mk_ringbuf (rb_readable rb)
                     (rb_written rb
                      ++ write_packet_frame (next_cmd_sequence st) "LISTDEVICE" ∅)
                     (rb_free rb - 36)))
            (set_next_cmd_sequence (wrap32 (next_cmd_sequence st + 1)) st))) [].
Proof.
  intros Hcap Hrb Hroom.
  assert (Hlen : write_packet_pack_len (∅ : KVmap) = 36%nat)
    by (rewrite write_packet_pack_len_spec, map_to_list_empty; done).
  unfold list_interfaces, bind at 1. unfold get. rewrite Hcap. cbn [negb].
  unfold send_command_list_interfaces, bind.
  rewrite (write_packet_sent _ rb) by (rewrite ?Hlen; done || lia).
  rewrite Hlen. reflexivity.
Qed.

(** X10.  A list request and its answer, where the registry key of the
    command is the sequence number itself (a big-endian host, or a number
    that reads the same in both byte orders).  The frame written carries
    the sequence number; the response that echoes it calls the completion
    exactly once, with the listed interfaces and with the sequence number
    (not the caller's transaction) as its first argument, retires the
    command and closes the source. *)
Theorem list_request_answered st rb tx cb ok :
  get_list_capable (source_builder st) = true ->
  ringbuf_handler st = Some rb ->
  (36 <= rb_free rb)%nat ->
  0 <= next_cmd_sequence st < 2 ^ 32 ->
  command_ack_map st = ∅ ->
  error_timer_id st <= 0 ->
  kis_ntoh32 (next_cmd_sequence st) = next_cmd_sequence st ->
  let n := next_cmd_sequence st in
  decode32 (firstn 4 (skipn off_sequence_number
                        (write_packet_frame n "LISTDEVICE" ∅))) = n
  /\ exists st2,
       bind (list_interfaces tx (Some cb))
         (fun _ => proto_dispatch_packet "LISTRESP"
                     {[ "success"%string := success_object ok n ]}) st
       = Returns tt st2
           [EvListCb cb n (listed_interfaces st);
            EvCloseHandler "Closing source"]
       /\ command_ack_map st2 = ∅
       /\ source_error st2 = source_error st.
Proof.
  intros Hcap Hrb Hroom Hn He Ht Hkey n. split.
  { rewrite frame_sequence_number, decode32_encode32. by apply wrap32_small. }
  unfold bind at 1. rewrite (list_interfaces_sent st rb) by done.
  rewrite Hkey, He. fold n.
  set (st1 := set_command_ack_map _ _).
  change (proto_dispatch_packet "LISTRESP" ?kv) with (proto_packet_list_resp kv).
  unfold proto_packet_list_resp, if_found.
  rewrite !lookup_singleton_ne by done. rewrite lookup_singleton_eq.
  unfold bind at 1 2 3. unfold ret at 1 2.
  rewrite get_kv_success_sequence_object, (wrap32_small n) by done.
  unfold bind at 1. unfold get at 1.
  assert (Hl : command_ack_map st1 !! n
               = Some (mk_tracked_command tx n (Some cb) None None None (-1)))
    by (subst st1; destruct st; simpl; apply lookup_insert_eq).
  rewrite Hl. cbn [list_cb].
  unfold bind at 1 2. unfold emit, erase_command, modify.
  set (st2 := set_command_ack_map _ st1).
  assert (He2 : command_ack_map st2 = ∅).
  { subst st2 st1. destruct st; simpl.
    by rewrite delete_insert_eq, delete_empty. }
  rewrite close_source_empty by done.
  assert (Ht2 : (0 <? error_timer_id st2) = false)
    by (subst st2 st1; destruct st; simpl in *; lia).
  assert (Hrb2 : is_Some (ringbuf_handler st2))
    by (subst st2 st1; destruct st; simpl; eauto).
  rewrite Ht2. destruct Hrb2 as [rb2 ->].
  assert (Hli : listed_interfaces st1 = listed_interfaces st)
    by (subst st1; by destruct st).
  rewrite Hli. exists st2. split; [reflexivity|].
  split; [done|]. subst st2 st1. by destruct st.
Qed.

Lemma map_begin_singleton {A} (k : Z) (a : A) :
  map_begin ({[ k := a ]} : gmap Z A) = Some (k, a).
Proof. unfold map_begin. by rewrite map_to_list_singleton. Qed.

(** X11.  The same exchange where the registry key differs from the
    sequence number (a little-endian host and a number that is not its own
    byte swap).  The frame still carries the sequence number, but the
    response that echoes it finds no command: the completion is not called
    with the answer.  The close that follows cancels the command, which
    calls the completion with the empty list and the caller's transaction,
    and then uses the erased iterator. *)
Theorem list_request_echo_missed st rb tx cb ok :
  get_list_capable (source_builder st) = true ->
  ringbuf_handler st = Some rb ->
  (36 <= rb_free rb)%nat ->
  0 <= next_cmd_sequence st < 2 ^ 32 ->
  command_ack_map st = ∅ ->
  error_timer_id st <= 0 ->
  kis_ntoh32 (next_cmd_sequence st) <> next_cmd_sequence st ->
  let n := next_cmd_sequence st in
  decode32 (firstn 4 (skipn off_sequence_number
                        (write_packet_frame n "LISTDEVICE" ∅))) = n
  /\ exists st2,
       bind (list_interfaces tx (Some cb))
         (fun _ => proto_dispatch_packet "LISTRESP"
                     {[ "success"%string := success_object ok n ]}) st
       = Undefined InvalidIterator st2 [EvListCb cb tx []]
       /\ command_ack_map st2 = ∅.
Proof.
  intros Hcap Hrb Hroom Hn He Ht Hkey n. split.
  { rewrite frame_sequence_number, decode32_encode32. by apply wrap32_small. }
  unfold bind at 1. rewrite (list_interfaces_sent st rb) by done.
  rewrite He, insert_empty. fold n.
  set (k := kis_ntoh32 n) in *.
  set (st1 := set_command_ack_map _ _).
  change (proto_dispatch_packet "LISTRESP" ?kv) with (proto_packet_list_resp kv).
  unfold proto_packet_list_resp, if_found.
  rewrite !lookup_singleton_ne by done. rewrite lookup_singleton_eq.
  unfold bind at 1 2 3. unfold ret at 1 2.
  rewrite get_kv_success_sequence_object, (wrap32_small n) by done.
  unfold bind at 1. unfold get at 1.
  assert (Hm : command_ack_map st1
               = {[ k := mk_tracked_command tx k (Some cb) None None None (-1) ]})
    by (subst st1; by destruct st).
  assert (Hl : command_ack_map st1 !! n = None)
    by (rewrite Hm; by apply lookup_singleton_ne).
  rewrite Hl. unfold bind at 1. unfold ret at 1.
  assert (Ht1 : (0 <? error_timer_id st1) = false)
    by (subst st1; destruct st; simpl in *; lia).
  unfold close_source, bind at 1. unfold get at 1. rewrite Ht1.
  cbn [when]. unfold bind at 1. unfold ret at 1.
  unfold bind at 1. unfold cancel_all_commands, bind at 1. unfold get at 1.
  rewrite Hm, map_begin_singleton.
  unfold bind at 1. unfold cancel_command, bind at 1. unfold get at 1.
  rewrite Hm, lookup_singleton_eq. cbn [list_cb transaction timer_id].
  change (-1 <? -1) with false. cbn [when].
  unfold bind, emit, ret, modify, undefined.
  eexists. split; [reflexivity|].
  subst st1. destruct st; simpl. apply delete_singleton_eq.
Qed.

(** X12.  An open response that reports a failure for the one pending
    command, with no message: the completion is called once with [false]
    and an empty reason, the command is retired, and the controller goes
    into its error state with an empty reason. *)
Theorem open_response_failure st rb seq cmd cb :
  command_ack_map st = {[ seq := cmd ]} ->
  open_cb cmd = Some cb ->
  0 <= seq < 2 ^ 32 ->
  ringbuf_handler st = Some rb ->
  proto_packet_open_resp {[ "success"%string := success_object false seq ]} st
  = Returns tt
      (set_source_error_reason "" (set_source_error true
         (set_command_ack_map ∅ st)))
      [EvOpenCb cb seq false ""; EvErrorHandler ""].
Proof.
  intros Hm Hcb Hseq Hrb.
  unfold proto_packet_open_resp, if_found.
  rewrite !lookup_singleton_ne by done. rewrite lookup_singleton_eq.
  unfold bind, ret, get, emit, erase_command, modify.
  rewrite get_kv_success_sequence_object, (wrap32_small seq) by done.
  rewrite Hm, lookup_singleton_eq, Hcb.
  rewrite !get_kv_success_object. cbn [negb when app].
  rewrite trigger_error_empty
    by (destruct st; simpl in *; subst; apply delete_singleton_eq).
  rewrite Hm, delete_singleton_eq.
  assert (E : ringbuf_handler (set_command_ack_map ∅ st) = Some rb)
    by (by destruct st).
  rewrite E. reflexivity.
Qed.

(** X13.  A response whose [success] object has the wrong size, with
    nothing pending: the error path is taken three times (once for each
    read of the object, once for the failure) and the reason that stays is
    the response's message, here empty, not the complaint about the
    object. *)
Theorem response_with_malformed_success st rb (obj : KisDatasourceCapKeyedObject) :
  kv_size obj <> 5%nat ->
  command_ack_map st = ∅ ->
  ringbuf_handler st = Some rb ->
  let malformed :=
    Returns tt (set_source_error_reason "" (set_source_error true st))
      [EvErrorHandler "Invalid SUCCESS object in response";
       EvErrorHandler "Invalid SUCCESS object in response";
       EvErrorHandler ""] in
  proto_packet_open_resp {[ "success"%string := obj ]} st = malformed
  /\ proto_packet_configresp {[ "success"%string := obj ]} st = malformed.
Proof.
  intros Hsz He Hrb malformed.
  assert (Hneq : (kv_size obj =? sizeof_simple_cap_proto_success_value)%nat = false)
    by (by apply Nat.eqb_neq).
  assert (Hseq : forall st', command_ack_map st' = ∅ -> ringbuf_handler st' = Some rb ->
            get_kv_success_sequence obj st'
            = Returns 0 (set_source_error_reason "Invalid SUCCESS object in response"
                           (set_source_error true st'))
                [EvErrorHandler "Invalid SUCCESS object in response"]).
  { intros st' He' Hrb'. unfold get_kv_success_sequence. rewrite Hneq. cbn [negb].
    unfold bind. rewrite trigger_error_empty, Hrb' by done. reflexivity. }
  assert (Hok : forall st', command_ack_map st' = ∅ -> ringbuf_handler st' = Some rb ->
            get_kv_success obj st'
            = Returns false (set_source_error_reason "Invalid SUCCESS object in response"
                               (set_source_error true st'))
                [EvErrorHandler "Invalid SUCCESS object in response"]).
  { intros st' He' Hrb'. unfold get_kv_success. rewrite Hneq. cbn [negb].
    unfold bind. rewrite trigger_error_empty, Hrb' by done. reflexivity. }
  set (st1 := set_source_error_reason "Invalid SUCCESS object in response"
                (set_source_error true st)).
  assert (He1 : command_ack_map st1 = ∅) by (subst st1; by destruct st).
  assert (Hrb1 : ringbuf_handler st1 = Some rb) by (subst st1; by destruct st).
  set (st2 := set_source_error_reason "Invalid SUCCESS object in response"
                (set_source_error true st1)).
  assert (He2 : command_ack_map st2 = ∅) by (subst st2 st1; by destruct st).
  assert (Hrb2 : ringbuf_handler st2 = Some rb) by (subst st2 st1; by destruct st).
  assert (Hfin : set_source_error_reason "" (set_source_error true st2)
                 = set_source_error_reason "" (set_source_error true st))
    by (subst st2 st1; by destruct st).
  split.
  - unfold proto_packet_open_resp, if_found.
    rewrite !lookup_singleton_ne by done. rewrite lookup_singleton_eq.
    unfold bind, ret, get.
    rewrite Hseq by done. fold st1. rewrite He1, lookup_empty.
    rewrite Hok by done. fold st2.
    cbn [negb when]. rewrite trigger_error_empty, Hrb2, Hfin by done.
    reflexivity.
  - unfold proto_packet_configresp, if_found.
    rewrite !lookup_singleton_ne by done. rewrite lookup_singleton_eq.
    unfold bind, ret, get.
    rewrite Hseq by done. fold st1. rewrite He1, lookup_empty.
    rewrite Hok by done. fold st2.
    cbn [negb when]. rewrite trigger_error_empty, Hrb2, Hfin by done.
    reflexivity.
Qed.

(** X14.  A response for a sequence number that is not pending.  An open
    or configure response that reports success changes nothing and calls
    nothing, whatever else is pending; a list or probe response still
    closes the source, exactly as [close_source] called directly. *)
Theorem stale_response st seq ok :
  command_ack_map st !! seq = None ->
  0 <= seq < 2 ^ 32 ->
  proto_packet_open_resp {[ "success"%string := success_object true seq ]} st
  = Returns tt st []
  /\ proto_packet_configresp {[ "success"%string := success_object true seq ]} st
     = Returns tt st []
  /\ proto_packet_list_resp {[ "success"%string := success_object ok seq ]} st
     = close_source st
  /\ proto_packet_probe_resp {[ "success"%string := success_object ok seq ]} st
     = close_source st.
Proof.
  intros Hl Hseq.
  split; [|split; [|split]].
  - unfold proto_packet_open_resp, if_found.
    rewrite !lookup_singleton_ne by done. rewrite lookup_singleton_eq.
    unfold bind, ret, get.
    rewrite get_kv_success_sequence_object, (wrap32_small seq) by done.
    rewrite Hl, get_kv_success_object. reflexivity.
  - unfold proto_packet_configresp, if_found.
    rewrite !lookup_singleton_ne by done. rewrite lookup_singleton_eq.
    unfold bind, ret, get.
    rewrite get_kv_success_sequence_object, (wrap32_small seq) by done.
    rewrite Hl, get_kv_success_object. reflexivity.
  - unfold proto_packet_list_resp, if_found.
    rewrite !lookup_singleton_ne by done. rewrite lookup_singleton_eq.
    unfold bind, ret, get.
    rewrite get_kv_success_sequence_object, (wrap32_small seq) by done.
    rewrite Hl. destruct (close_source st) as [[] ? ?|]; reflexivity.
  - unfold proto_packet_probe_resp, if_found.
    rewrite !lookup_singleton_ne by done. rewrite lookup_singleton_eq.
    unfold bind, ret, get.
    rewrite get_kv_success_sequence_object, (wrap32_small seq) by done.
    rewrite Hl. destruct (close_source st) as [[] ? ?|]; reflexivity.
Qed.

(** X15.  A frame that carries none of the keys the handlers look for.
    The dispatcher goes by the type tag in lower case: a response type
    takes the error path with the reason of its kind, an error frame with
    the stock reason, and a message frame, a data frame and every unknown
    type do nothing at all. *)
Theorem frame_without_known_keys (kv : KVmap) (t : string) st :
  Forall (fun k => kv !! k = None)
    ["message"; "channels"; "chanset"; "chanhop"; "uuid"; "interfacelist";
     "success"; "packet"]%string ->
  proto_dispatch_packet t kv st
  = if String.eqb (StrLower t) "proberesp"
    then trigger_error "No valid response found for probe request" st
    else if String.eqb (StrLower t) "openresp"
    then trigger_error "No valid response found for open request" st
    else if String.eqb (StrLower t) "listresp"
    then trigger_error "No valid response found for list request" st
    else if String.eqb (StrLower t) "error"
    then trigger_error "Received error frame on data source" st
    else if String.eqb (StrLower t) "configresp"
    then trigger_error "No valid response found for config request" st
    else Returns tt st [].
Proof.
  intros Hk. rewrite !Forall_cons in Hk.
  destruct Hk as (K1 & K2 & K3 & K4 & K5 & K6 & K7 & K8 & _).
  assert (Hstep : forall (m : M unit) s,
            bind (ret s) (fun _ : string => m) st = m st).
  { intros m s. unfold bind, ret. destruct (m st); reflexivity. }
  assert (Hstep' : forall (m : M unit),
            bind (ret tt) (fun _ : unit => m) st = m st).
  { intros m. unfold bind, ret. destruct (m st); reflexivity. }
  unfold proto_dispatch_packet.
  destruct (String.eqb (StrLower t) "proberesp").
  { unfold proto_packet_probe_resp, if_found.
    rewrite K1, K2, K3, K7. by rewrite Hstep, !Hstep'. }
  destruct (String.eqb (StrLower t) "openresp").
  { unfold proto_packet_open_resp, if_found.
    rewrite K1, K2, K3, K4, K5, K7. by rewrite Hstep, !Hstep'. }
  destruct (String.eqb (StrLower t) "listresp").
  { unfold proto_packet_list_resp, if_found.
    rewrite K1, K6, K7. by rewrite Hstep, !Hstep'. }
  destruct (String.eqb (StrLower t) "error").
  { unfold proto_packet_error, if_found.
    rewrite K1.
    unfold bind, ret. by destruct (trigger_error _ st). }
  destruct (String.eqb_spec (StrLower t) "message") as [E|_].
  { unfold proto_packet_message, if_found. rewrite K1, E. reflexivity. }
  destruct (String.eqb (StrLower t) "configresp").
  { unfold proto_packet_configresp, if_found.
    rewrite K1, K3, K4, K7. by rewrite Hstep, !Hstep'. }
  destruct (String.eqb (StrLower t) "data"); [|done].
  unfold proto_packet_data, if_found. by rewrite K1, K8.
Qed.

Lemma handle_kv_message_ok st in_obj dict m text f flags :
  unpack_dict in_obj = inr dict ->
  dict !! "msg"%string = Some m -> as_string m = inr text ->
  dict !! "flags"%string = Some f -> as_unsigned_int f = inr flags ->
  handle_kv_message in_obj st = Returns text st [EvMsg text flags].
Proof.
  intros Hd Hm Ht Hf Hfl. unfold handle_kv_message.
  rewrite Hd. cbn [try_bind]. rewrite Hm, Ht. cbn [try_bind].
  rewrite Hf, Hfl. reflexivity.
Qed.

(** X16.  The reason an error frame leaves behind, with nothing pending.
    When its message object decodes, the message is logged with its flags
    and becomes the error reason.  When the message object lacks its text,
    the error path is taken twice and the reason that stays is the
    decoding failure. *)
Theorem error_frame_reason st rb (kv : KVmap) in_obj dict :
  command_ack_map st = ∅ ->
  ringbuf_handler st = Some rb ->
  kv !! "message"%string = Some in_obj ->
  unpack_dict in_obj = inr dict ->
  (forall m text f flags,
     dict !! "msg"%string = Some m -> as_string m = inr text ->
     dict !! "flags"%string = Some f -> as_unsigned_int f = inr flags ->
     proto_packet_error kv st
     = Returns tt (set_source_error_reason text (set_source_error true st))
         [EvMsg text flags; EvErrorHandler text])
  /\ (dict !! "msg"%string = None ->
      let what := "failed to unpack message bundle: missing 'msg' entry"%string in
      proto_packet_error kv st
      = Returns tt (set_source_error_reason what (set_source_error true st))
          [EvErrorHandler what; EvErrorHandler what]).
Proof.
  intros He Hrb Hkv Hd. split.
  - intros m text f flags Hm Ht Hf Hfl.
    unfold proto_packet_error, if_found. rewrite Hkv. unfold bind.
    rewrite (handle_kv_message_ok st in_obj dict m text f flags) by done.
    rewrite trigger_error_empty, Hrb by done. reflexivity.
  - intros Hm what.
    unfold proto_packet_error, if_found. rewrite Hkv.
    unfold handle_kv_message. rewrite Hd. cbn [try_bind]. rewrite Hm.
    cbn [try_bind].
    change ("failed to unpack message bundle: " ++ "missing 'msg' entry")%string
      with what.
    unfold bind, ret.
    rewrite trigger_error_empty, Hrb by done.
    rewrite trigger_error_empty by (by destruct st).
    assert (E : ringbuf_handler
                  (set_source_error_reason what (set_source_error true st))
                = Some rb) by (by destruct st).
    rewrite E. cbn [app]. f_equal.
Qed.

(** ** Payload decoders *)

(** X17.  A hop configuration that has its channel list but no rate, with
    nothing pending: the update is not all-or-nothing.  The hop list of the
    controller is replaced by the new list before the missing rate is
    noticed; then the error path is taken, and the hop rate stays. *)
Theorem handle_kv_config_hop_partial st rb in_obj dict o channel_vec :
  command_ack_map st = ∅ ->
  ringbuf_handler st = Some rb ->
  unpack_dict in_obj = inr dict ->
  dict !! "channels"%string = Some o ->
  AsStringVector o = inr channel_vec ->
  dict !! "rate"%string = None ->
  let what :=
    "failed to unpack chanset bundle: rate missing in hop config"%string in
  handle_kv_config_hop in_obj st
  = Returns tt
      (set_source_error_reason what (set_source_error true
         (set_source_hop_vec channel_vec st)))
      [EvErrorHandler what].
Proof.
  intros He Hrb Hd Hc Hv Hr what.
  unfold handle_kv_config_hop. rewrite Hd, Hc, Hv, Hr.
  unfold bind, modify.
  rewrite trigger_error_empty by (by destruct st).
  assert (E : ringbuf_handler (set_source_hop_vec channel_vec st) = Some rb)
    by (by destruct st).
  rewrite E. reflexivity.
Qed.

Ltac signal_step dict key convert :=
  let o := fresh "o" in
  let E := fresh "E" in
  destruct (dict !! key) as [o|];
  [destruct (convert o) eqn:E; cbn [try_bind]; [discriminate|]
  | cbn [try_bind]].

(** X18.  The scale of a signal record.  Whenever the signal object
    decodes, the record is on the RSSI scale if the map has an RSSI reading
    (signal or noise), whatever else it has; otherwise on the dBm scale if
    it has a dBm reading; otherwise it keeps the scale of a fresh record.
    Each of the four readings holds the value of its field. *)
Theorem unpack_signal_scale in_obj dict siginfo :
  unpack_dict in_obj = inr dict ->
  unpack_signal in_obj = inr siginfo ->
  signal_type siginfo
  = match dict !! "signal_rssi"%string, dict !! "noise_rssi"%string,
          dict !! "signal_dbm"%string, dict !! "noise_dbm"%string with
    | Some _, _, _, _ | None, Some _, _, _ => kis_l1_signal_type_rssi
    | None, None, Some _, _ | None, None, None, Some _ => kis_l1_signal_type_dbm
    | None, None, None, None => signal_type new_kis_layer1_packinfo
    end
  /\ (forall o, dict !! "signal_dbm"%string = Some o ->
        as_int32_t o = inr (signal_dbm siginfo))
  /\ (forall o, dict !! "noise_dbm"%string = Some o ->
        as_int32_t o = inr (noise_dbm siginfo))
  /\ (forall o, dict !! "signal_rssi"%string = Some o ->
        as_int32_t o = inr (signal_rssi siginfo))
  /\ (forall o, dict !! "noise_rssi"%string = Some o ->
        as_int32_t o = inr (noise_rssi siginfo)).
Proof.
  intros Hd. unfold unpack_signal. rewrite Hd. cbn [try_bind].
  generalize new_kis_layer1_packinfo. intros [ty sd nd sr nr fk ch dr].
  cbn [signal_type signal_dbm noise_dbm signal_rssi noise_rssi freq_khz
         channel datarate set_signal].
  signal_step dict "signal_dbm"%string as_int32_t;
    signal_step dict "noise_dbm"%string as_int32_t;
    signal_step dict "signal_rssi"%string as_int32_t;
    signal_step dict "noise_rssi"%string as_int32_t;
    cbn [signal_type signal_dbm noise_dbm signal_rssi noise_rssi freq_khz
           channel datarate set_signal];
    signal_step dict "freq_khz"%string as_double;
    signal_step dict "channel"%string as_string;
    signal_step dict "datarate"%string as_double;
    intros [= <-];
    cbn [signal_type signal_dbm noise_dbm signal_rssi noise_rssi];
    (split; [reflexivity|]);
    repeat split; intros ? [= <-]; assumption.
Qed.

(** X19.  A data frame whose packet decodes and whose GPS object does
    not, with nothing pending: the GPS failure takes the error path, and
    the packet is handed on all the same, with its link frame and without
    a position. *)
Theorem data_frame_with_bad_gps st rb (kv : KVmap) pobj gobj
    tv_sec tv_usec datachunk what :
  command_ack_map st = ∅ ->
  ringbuf_handler st = Some rb ->
  kv !! "message"%string = None ->
  kv !! "signal"%string = None ->
  kv !! "packet"%string = Some pobj ->
  unpack_packet pobj = inr (tv_sec, tv_usec, datachunk) ->
  kv !! "gps"%string = Some gobj ->
  unpack_gps gobj = inl what ->
  let reason := ("failed to unpack gps bundle: " ++ what)%string in
  proto_packet_data kv st
  = Returns tt (set_source_error_reason reason (set_source_error true st))
      [EvErrorHandler reason;
       EvProcessPacket (mk_packet tv_sec tv_usec (Some datachunk) None None)].
Proof.
  intros He Hrb Km Ks Kp Hp Kg Hg reason.
  unfold proto_packet_data, if_found. rewrite Km, Ks, Kp, Kg.
  unfold handle_kv_packet, handle_kv_gps. rewrite Hp, Hg.
  unfold bind, ret, emit.
  rewrite trigger_error_empty, Hrb by done. reflexivity.
Qed.

(** X20.  A data frame whose packet object announces a size that is not
    the length of its data, with nothing pending: the packet is destroyed,
    the error path is taken with the size complaint, and nothing is handed
    on; the signal and GPS objects of the frame are not looked at. *)
Theorem data_frame_size_mismatch st rb (kv : KVmap) pobj dict
    o1 o2 o3 o4 raw tv_sec tv_usec dlt size :
  command_ack_map st = ∅ ->
  ringbuf_handler st = Some rb ->
  kv !! "message"%string = None ->
  kv !! "packet"%string = Some pobj ->
  unpack_dict pobj = inr dict ->
  dict !! "tv_sec"%string = Some o1 -> as_uint64_t o1 = inr tv_sec ->
  dict !! "tv_usec"%string = Some o2 -> as_uint64_t o2 = inr tv_usec ->
  dict !! "dlt"%string = Some o3 -> as_uint64_t o3 = inr dlt ->
  dict !! "size"%string = Some o4 -> as_uint64_t o4 = inr size ->
  dict !! "packet"%string = Some raw ->
  Z.of_nat (length (via_bin raw)) <> size ->
  let reason :=
    "failed to unpack packet bundle: packet size did not match data size"%string in
  proto_packet_data kv st
  = Returns tt (set_source_error_reason reason (set_source_error true st))
      [EvDestroyPacket; EvErrorHandler reason].
Proof.
  intros He Hrb Km Kp Hd H1 C1 H2 C2 H3 C3 H4 C4 H5 Hne reason.
  unfold proto_packet_data, if_found. rewrite Km, Kp.
  unfold handle_kv_packet, unpack_packet.
  rewrite Hd. cbn [try_bind]. rewrite H1, C1. cbn [try_bind].
  rewrite H2, C2. cbn [try_bind]. rewrite H3, C3. cbn [try_bind].
  rewrite H4, C4. cbn [try_bind]. rewrite H5. cbn [try_bind].
  destruct (Z.eqb_spec (Z.of_nat (length (via_bin raw))) size) as [?|_];
    [contradiction|].
  cbn [negb]. unfold bind, ret, emit.
  rewrite trigger_error_empty, Hrb by done. reflexivity.
Qed.

Lemma interfacelist_loop_cons e elems st :
  interfacelist_loop (e :: elems) st
  = match interface_entry e with
    | inl what => Returns (inl what) st []
    | inr intf =>
        interfacelist_loop elems
          (set_listed_interfaces (listed_interfaces st ++ [intf]) st)
    end.
Proof.
  cbn [interfacelist_loop]. unfold interface_entry, try_bind.
  destruct (as_StrMap e) as [|dict]; [reflexivity|].
  destruct (dict !! "interface"%string) as [o|];
    [destruct (as_string o) as [|interface]|]; try reflexivity.
  destruct (dict !! "flags"%string) as [o'|];
    [destruct (as_string o') as [|opts]|]; try reflexivity;
    unfold bind, modify; by destruct (interfacelist_loop elems _).
Qed.

Lemma interfacelist_loop_entries elems good tail st :
  Forall2 (fun e intf => interface_entry e = inr intf) elems good ->
  interfacelist_loop (elems ++ tail) st
  = interfacelist_loop tail
      (set_listed_interfaces (listed_interfaces st ++ good) st).
Proof.
  intros Hall. revert st.
  induction Hall as [|e intf elems good He _ IH]; intros st.
  - rewrite app_nil_r. simpl. f_equal. by destruct st.
  - cbn [app]. rewrite interfacelist_loop_cons, He, IH.
    f_equal. destruct st; simpl. by rewrite <- app_assoc.
Qed.

(** X21.  An interface list whose first elements decode and whose next
    element does not, with nothing pending: the interfaces known before are
    dropped, the ones read before the bad element are kept, the elements
    after it are not read, and the error path is taken.  (When every
    element decodes, the list is replaced by the new one.) *)
Theorem handle_kv_interfacelist_partial st rb in_obj deserialized
    elems good bad rest what :
  command_ack_map st = ∅ ->
  ringbuf_handler st = Some rb ->
  msgpack_unpack (object_bytes in_obj) = inr deserialized ->
  via_array deserialized = elems ++ bad :: rest ->
  Forall2 (fun e intf => interface_entry e = inr intf) elems good ->
  interface_entry bad = inl what ->
  let reason := ("failed to unpack proberesp channels bundle: " ++ what)%string in
  handle_kv_interfacelist in_obj st
  = Returns tt
      (set_source_error_reason reason (set_source_error true
         (set_listed_interfaces good st)))
      [EvErrorHandler reason].
Proof.
  intros He Hrb Hu Ha Hall Hbad reason.
  unfold handle_kv_interfacelist. rewrite Hu, Ha.
  unfold bind at 1. unfold modify at 1.
  unfold bind at 1. rewrite (interfacelist_loop_entries elems good) by done.
  rewrite interfacelist_loop_cons, Hbad.
  rewrite trigger_error_empty by (by destruct st).
  assert (E : ringbuf_handler
                (set_listed_interfaces
                   (listed_interfaces (set_listed_interfaces [] st) ++ good)
                   (set_listed_interfaces [] st)) = Some rb)
    by (by destruct st).
  rewrite E. cbn [app]. f_equal.
Qed.

(** ** Opening a source *)

(** X22.  A definition whose option part cannot be split into options:
    [open_interface] reports "Malformed source config" and sends nothing
    (no byte written, no sequence number used, nothing registered), but
    the interface name has already been replaced by the text before the
    colon and the local-UUID mark has been dropped. *)
Theorem open_interface_malformed_options st in_definition cpos tx
    (cb : option callback) :
  get_local_capable (source_builder st) = true ->
  error_timer_id st <= 0 ->
  index 0 ":" in_definition = Some cpos ->
  StringToOpts
    (substring (cpos + 1) (String.length in_definition - cpos - 1) in_definition)
    "," = None ->
  open_interface in_definition tx cb st
  = Returns tt
      (set_source_interface (substring 0 cpos in_definition)
         (set_local_uuid false st))
      (match cb with
       | Some c => [EvOpenCb c tx false "Malformed source config"]
       | None => []
       end).
Proof.
  intros Hcap Ht Hi Ho. unfold open_interface, bind at 1. unfold get at 1.
  rewrite Hcap. cbn [negb].
  destruct (Z.ltb_spec 0 (error_timer_id st)) as [?|_]; [lia|]. cbn [when].
  unfold parse_interface_definition. rewrite Hi, Ho.
  unfold bind, ret, modify. cbn [negb]. by destruct cb.
Qed.



(** ** The retry timer *)

(** X25.  Two errors handled in a row on a source with retry enabled:
    the failure count goes up by two, two messages are logged, and the
    timer armed by the first call is removed by the second, so that the
    second call leaves one reopen timer where the first left one. *)
Theorem handle_source_error_twice st :
  source_retry st = true ->
  error_timer_id st <= 0 ->
  0 < tt_next_id (timetracker st) ->
  let id := tt_next_id (timetracker st) in
  exists st2 evs,
    bind handle_source_error (fun _ => handle_source_error) st
    = Returns tt st2 evs
    /\ length evs = 2%nat
    /\ source_retry_attempts st2
       = wrap32 (wrap32 (source_retry_attempts st + 1) + 1)
    /\ error_timer_id st2 = id + 1
    /\ tt_timers (timetracker st2)
       = <[id + 1 := mk_timer 5 ReopenInterface]>
           (delete id (tt_timers (timetracker st))).
Proof.
  intros Hr Ht Hid id.
  unfold bind at 1.
  assert (E1 : exists evs1,
    handle_source_error st
    = Returns tt
        (set_error_timer_id id
           (set_timetracker
              (mk_timetracker
                 (<[id := mk_timer 5 ReopenInterface]> (tt_timers (timetracker st)))
                 (id + 1))
              (set_source_retry_attempts
                 (wrap32 (source_retry_attempts st + 1)) st))) evs1
    /\ length evs1 = 1%nat).
  { unfold handle_source_error, bind, get, modify, emit. rewrite Hr.
    cbn [negb].
    assert (T : (0 <? error_timer_id
                        (set_source_retry_attempts
                           (wrap32 (source_retry_attempts st + 1)) st)) = false)
      by (destruct st; simpl in *; lia).
    rewrite T. cbn [when]. unfold ret. eexists. split.
    - simpl. f_equal.
    - reflexivity. }
  destruct E1 as (evs1 & -> & L1).
  set (st1 := set_error_timer_id id _).
  assert (Hr1 : source_retry st1 = true) by (subst st1; by destruct st).
  unfold handle_source_error, bind, get, modify, emit. rewrite Hr1.
  cbn [negb].
  assert (T : (0 <? error_timer_id
                      (set_source_retry_attempts
                         (wrap32 (source_retry_attempts st1 + 1)) st1)) = true)
    by (subst st1; destruct st; simpl in *; lia).
  rewrite T. cbn [when]. unfold remove_timer, modify.
  eexists _, _. split; [reflexivity|].
  split; [rewrite !length_app, L1; reflexivity|].
  subst st1. destruct st; simpl in *.
  repeat split. f_equal. apply delete_insert_eq.
Qed.

(** ** From bytes to the log *)

(** X26.  The whole receive path on a message frame.  The read buffer
    holds a valid frame of type MESSAGE with one [message] record whose
    object decodes to a text and its flags, followed by other bytes:
    [BufferAvailable] consumes exactly the frame, leaves the bytes after
    it in the buffer, logs the text with its flags, and changes nothing
    else. *)
Theorem BufferAvailable_message_frame st rb seqno (obj rest : list byte)
    dict m text f flags :
  (20 <= sizeof_simple_cap_proto_kv_h_t)%nat ->
  Z.of_nat (36 + (sizeof_simple_cap_proto_kv_h_t + length obj)) < 2 ^ 32 ->
  ringbuf_handler st = Some rb ->
  rb_readable rb
  = wire_frame seqno "MESSAGE" 1 (wire_record "message" obj) ++ rest ->
  unpack_dict (mk_kv "message" (length obj) obj) = inr dict ->
  dict !! "msg"%string = Some m -> as_string m = inr text ->
  dict !! "flags"%string = Some f -> as_unsigned_int f = inr flags ->
  BufferAvailable (length (rb_readable rb)) st
  = Returns tt
      (set_ringbuf_handler
         (Some (mk_ringbuf rest (rb_written rb) (rb_free rb))) st)
      [EvMsg text flags].
Proof.
  intros HH Hlen Hrb Hbuf Hd Hm Ht Hf Hfl.
  pose proof (length_wire_record "message" obj HH) as Lr.
  assert (Lf : length (wire_frame seqno "MESSAGE" 1 (wire_record "message" obj))
               = (36 + (sizeof_simple_cap_proto_kv_h_t + length obj))%nat)
    by (unfold wire_frame; rewrite length_wire_frame_with, Lr; done).
  unfold BufferAvailable.
  destruct (Nat.ltb_spec (length (rb_readable rb)) sizeof_simple_cap_proto_t)
    as [Hlt|_].
  { rewrite Hbuf, length_app, Lf in Hlt.
    unfold sizeof_simple_cap_proto_t in Hlt. lia. }
  unfold bind at 1. unfold get at 1. rewrite Hrb.
  unfold PeekReadBufferData. rewrite firstn_all.
  assert (E : BufferAvailable_frame (rb_readable rb)
              = Dispatch (36 + (sizeof_simple_cap_proto_kv_h_t + length obj))
                  "MESSAGE"
                  {[ "message"%string := mk_kv "message" (length obj) obj ]}).
  { rewrite Hbuf. unfold wire_frame.
    rewrite BufferAvailable_frame_wire_frame_with by (rewrite ?Lr; lia).
    assert (Hww : forall z, wrap32 (wrap32 z) = wrap32 z)
      by (intros z; unfold wrap32; apply Z.mod_mod; lia).
    rewrite Hww, Z.eqb_refl.
    change (Z.to_nat 1) with 1%nat. cbn [extract_kv_pairs].
    pose proof (KisDatasourceCapKeyedObject_of_wire_record
                  [] rest "message" obj HH ltac:(lia)) as R0.
    rewrite app_nil_l in R0. change (length (@nil byte)) with 0%nat in R0.
    rewrite R0. cbn [mbind option_bind kv_size kv_key].
    rewrite !wire_name_field by reflexivity.
    rewrite Lr. reflexivity. }
  rewrite E.
  change (proto_dispatch_packet "MESSAGE" ?kv) with (proto_packet_message kv).
  unfold proto_packet_message, if_found. rewrite lookup_singleton_eq.
  unfold bind, modify, ret.
  rewrite (handle_kv_message_ok _ _ dict m text f flags) by done.
  cbn [app]. f_equal. unfold GetReadBufferData.
  rewrite Hbuf, <- Lf, drop_app_length. reflexivity.
Qed.

(** ** Channel hopping *)



End ControllerExtras.

(** ** The controller statements on the sample controller *)

Ltac in_range := vm_compute; split; [discriminate | reflexivity].


Lemma send_command_without_transport_witness :
  send_command_probe_interface (P := sample_platform) "wlan0" 7 (Some 1%nat)
    no_transport_datasource
  = Returns tt no_transport_datasource
      [EvProbeCb 1%nat 7 false "unable to generate command frame"].
Proof.
  exact (proj1 (proj2 (send_command_without_transport (P := sample_platform)
                         no_transport_datasource "wlan0" "6" (D_of_int 5)
                         ["1"; "6"]%string 7 (Some 1%nat) eq_refl))).
Defined.


Lemma list_interfaces_twice_witness :
  exists st2 rb2,
    bind (P := sample_platform)
      (list_interfaces (P := sample_platform) 7 (Some 1%nat))
      (fun _ => list_interfaces (P := sample_platform) 8 (Some 2%nat))
      (sample_datasource all_capable)
    = Returns tt st2 []
    /\ next_cmd_sequence st2 = 1002
    /\ ringbuf_handler st2 = Some rb2
    /\ length (rb_written rb2) = 72%nat.
Proof.
  destruct (list_interfaces_twice (P := sample_platform)
              (sample_datasource all_capable) (mk_ringbuf [] [] 4096)
              7 (Some 1%nat) 8 (Some 2%nat) eq_refl eq_refl
              ltac:(vm_compute; lia) ltac:(in_range))
    as (st2 & rb2 & H1 & _ & _ & H4 & H5 & H6).
  exists st2, rb2. split; [exact H1|]. split; [exact H4|].
  split; [exact H5|]. rewrite H6. reflexivity.
Defined.

Lemma list_request_answered_witness :
  exists st2,
    bind (P := sample_platform)
      (list_interfaces (P := sample_platform) 7 (Some 1%nat))
      (fun _ => proto_dispatch_packet (P := sample_platform) "LISTRESP"
                  {[ "success"%string := success_object true 0 ]})
      zero_sequence_datasource
    = Returns tt st2 [EvListCb 1%nat 0 []; EvCloseHandler "Closing source"]
    /\ command_ack_map st2 = ∅.
Proof.
  destruct (list_request_answered (P := sample_platform)
              zero_sequence_datasource (mk_ringbuf [] [] 4096) 7 1%nat true
              eq_refl eq_refl ltac:(vm_compute; lia)
              ltac:(in_range) eq_refl
              ltac:(vm_compute; discriminate) eq_refl)
    as (_ & st2 & H1 & H2 & _).
  exists st2. exact (conj H1 H2).
Defined.

Lemma list_request_echo_missed_witness :
  exists st2,
    bind (P := sample_platform)
      (list_interfaces (P := sample_platform) 7 (Some 1%nat))
      (fun _ => proto_dispatch_packet (P := sample_platform) "LISTRESP"
                  {[ "success"%string := success_object true 1000 ]})
      (sample_datasource all_capable)
    = Undefined InvalidIterator st2 [EvListCb 1%nat 7 []]
    /\ command_ack_map st2 = ∅.
Proof.
  destruct (list_request_echo_missed (P := sample_platform)
              (sample_datasource all_capable) (mk_ringbuf [] [] 4096) 7 1%nat true
              eq_refl eq_refl ltac:(vm_compute; lia)
              ltac:(in_range) eq_refl
              ltac:(vm_compute; discriminate)
              ltac:(vm_compute; discriminate))
    as (_ & st2 & H1 & H2).
  exists st2. exact (conj H1 H2).
Defined.

Lemma open_response_failure_witness :
  proto_packet_open_resp (P := sample_platform)
    {[ "success"%string := success_object false 5 ]} open_pending_datasource
  = Returns tt
      (set_source_error_reason (P := sample_platform) ""
         (set_source_error (P := sample_platform) true
            (sample_datasource all_capable)))
      [EvOpenCb 30%nat 5 false ""; EvErrorHandler ""].
Proof.
  apply (open_response_failure (P := sample_platform)
           open_pending_datasource (mk_ringbuf [] [] 4096) 5 pending_open 30%nat);
    first [reflexivity | in_range].
Defined.

Lemma response_with_malformed_success_witness :
  proto_packet_configresp (P := sample_platform)
    {[ "success"%string := mk_kv "success" 4 [x00; x00; x00; x00] ]}
    (sample_datasource all_capable)
  = Returns tt
      (set_source_error_reason (P := sample_platform) ""
         (set_source_error (P := sample_platform) true
            (sample_datasource all_capable)))
      [EvErrorHandler "Invalid SUCCESS object in response";
       EvErrorHandler "Invalid SUCCESS object in response";
       EvErrorHandler ""].
Proof.
  apply (response_with_malformed_success (P := sample_platform)
           (sample_datasource all_capable) (mk_ringbuf [] [] 4096)
           (mk_kv "success" 4 [x00; x00; x00; x00]));
    first [reflexivity | vm_compute; lia].
Defined.

Lemma stale_response_witness :
  proto_packet_configresp (P := sample_platform)
    {[ "success"%string := success_object true 77 ]} two_pending_datasource
  = Returns tt two_pending_datasource []
  /\ proto_packet_list_resp (P := sample_platform)
       {[ "success"%string := success_object false 77 ]}
       (sample_datasource all_capable)
     = close_source (P := sample_platform) (sample_datasource all_capable).
Proof.
  split.
  - apply (stale_response (P := sample_platform) two_pending_datasource 77 true);
      first [in_range | vm_compute; reflexivity].
  - apply (stale_response (P := sample_platform)
             (sample_datasource all_capable) 77 false);
      first [in_range | vm_compute; reflexivity].
Defined.

Lemma frame_without_known_keys_witness :
  proto_dispatch_packet (P := sample_platform) "OpenResp"
    {[ "junk"%string := mk_kv "junk" 0 [] ]} (sample_datasource all_capable)
  = trigger_error (P := sample_platform)
      "No valid response found for open request" (sample_datasource all_capable).
Proof.
  apply (frame_without_known_keys (P := sample_platform)
           {[ "junk"%string := mk_kv "junk" 0 [] ]} "OpenResp"
           (sample_datasource all_capable)).
  repeat constructor.
Defined.

Lemma error_frame_reason_witness :
  proto_packet_error (P := sample_platform)
    {[ "message"%string := message_object ]} (sample_datasource all_capable)
  = Returns tt
      (set_source_error_reason (P := sample_platform) "low battery"
         (set_source_error (P := sample_platform) true
            (sample_datasource all_capable)))
      [EvMsg "low battery" 2; EvErrorHandler "low battery"].
Proof.
  assert (Hd : unpack_dict (P := sample_platform) message_object
               = inr (<["msg"%string := OStr "low battery"]>
                        (<["flags"%string := OInt 2]> ∅)))
    by (vm_compute; reflexivity).
  apply (proj1 (error_frame_reason (P := sample_platform)
                  (sample_datasource all_capable) (mk_ringbuf [] [] 4096)
                  {[ "message"%string := message_object ]} message_object _
                  eq_refl eq_refl (lookup_singleton_eq _ _) Hd)
           (OStr "low battery") "low battery"%string (OInt 2) 2);
    vm_compute; reflexivity.
Defined.

Lemma handle_kv_config_hop_partial_witness :
  handle_kv_config_hop (P := sample_platform) hop_object_no_rate
    (sample_datasource all_capable)
  = Returns tt
      (set_source_error_reason (P := sample_platform)
         "failed to unpack chanset bundle: rate missing in hop config"
         (set_source_error (P := sample_platform) true
            (set_source_hop_vec (P := sample_platform) ["1"; "6"]%string
               (sample_datasource all_capable))))
      [EvErrorHandler
         "failed to unpack chanset bundle: rate missing in hop config"].
Proof.
  assert (Hd : unpack_dict (P := sample_platform) hop_object_no_rate
               = inr {[ "channels"%string := OArr [OStr "1"; OStr "6"] ]})
    by (vm_compute; reflexivity).
  apply (handle_kv_config_hop_partial (P := sample_platform)
           (sample_datasource all_capable) (mk_ringbuf [] [] 4096)
           hop_object_no_rate _ (OArr [OStr "1"; OStr "6"]) ["1"; "6"]%string
           eq_refl eq_refl Hd);
    vm_compute; reflexivity.
Defined.

Lemma unpack_signal_scale_witness :
  exists siginfo,
    unpack_signal (P := sample_platform) signal_object = inr siginfo
    /\ signal_type siginfo = kis_l1_signal_type_rssi
    /\ signal_dbm siginfo = -20
    /\ noise_rssi siginfo = 7.
Proof.
  assert (Hd : unpack_dict (P := sample_platform) signal_object
               = inr (<["signal_dbm"%string := OInt (-20)]>
                        (<["noise_rssi"%string := OInt 7]> ∅)))
    by (vm_compute; reflexivity).
  assert (Hs : unpack_signal (P := sample_platform) signal_object
               = inr (mk_l1 kis_l1_signal_type_rssi (-20) 0 0 7
                        (D_of_int 0) "" (D_of_int 0)))
    by (vm_compute; reflexivity).
  destruct (unpack_signal_scale (P := sample_platform) signal_object _ _ Hd Hs)
    as (H1 & _).
  eexists. split; [exact Hs|]. split; [|split; reflexivity].
  rewrite H1. vm_compute. reflexivity.
Defined.

Lemma data_frame_with_bad_gps_witness :
  proto_packet_data (P := sample_platform)
    (data_frame_kv "003") (sample_datasource all_capable)
  = Returns tt
      (set_source_error_reason (P := sample_platform)
         "failed to unpack gps bundle: insufficient bytes"
         (set_source_error (P := sample_platform) true
            (sample_datasource all_capable)))
      [EvErrorHandler "failed to unpack gps bundle: insufficient bytes";
       EvProcessPacket
         (mk_packet (P := sample_platform) 1 2
            (Some (mk_chunk 105 ["a"%byte; "b"%byte; "c"%byte])) None None)].
Proof.
  apply (data_frame_with_bad_gps (P := sample_platform)
           (sample_datasource all_capable) (mk_ringbuf [] [] 4096)
           (data_frame_kv "003")
           (packet_object "003") gps_object_empty 1 2
           (mk_chunk 105 ["a"%byte; "b"%byte; "c"%byte]) "insufficient bytes");
    vm_compute; reflexivity.
Defined.

Lemma data_frame_size_mismatch_witness :
  proto_packet_data (P := sample_platform)
    (data_frame_kv "004") (sample_datasource all_capable)
  = Returns tt
      (set_source_error_reason (P := sample_platform)
         "failed to unpack packet bundle: packet size did not match data size"
         (set_source_error (P := sample_platform) true
            (sample_datasource all_capable)))
      [EvDestroyPacket;
       EvErrorHandler
         "failed to unpack packet bundle: packet size did not match data size"].
Proof.
  assert (Hd : unpack_dict (P := sample_platform) (packet_object "004")
               = inr (<["tv_sec"%string := OInt 1]>
                        (<["tv_usec"%string := OInt 2]>
                           (<["dlt"%string := OInt 105]>
                              (<["size"%string := OInt 4]>
                                 (<["packet"%string :=
                                      OBin ["a"%byte; "b"%byte; "c"%byte]]> ∅))))))
    by (vm_compute; reflexivity).
  apply (data_frame_size_mismatch (P := sample_platform)
           (sample_datasource all_capable) (mk_ringbuf [] [] 4096)
           (data_frame_kv "004")
           (packet_object "004") _ (OInt 1) (OInt 2) (OInt 105) (OInt 4)
           (OBin ["a"%byte; "b"%byte; "c"%byte]) 1 2 105 4
           eq_refl eq_refl ltac:(vm_compute; reflexivity)
           ltac:(vm_compute; reflexivity) Hd);
    vm_compute; first [reflexivity | discriminate].
Defined.

Lemma handle_kv_interfacelist_partial_witness :
  handle_kv_interfacelist (P := sample_platform) interfacelist_object
    listed_datasource
  = Returns tt
      (set_source_error_reason (P := sample_platform)
         "failed to unpack proberesp channels bundle: interface missing in list response"
         (set_source_error (P := sample_platform) true
            (set_listed_interfaces (P := sample_platform) [("wlan0", "x")]%string
               listed_datasource)))
      [EvErrorHandler
         "failed to unpack proberesp channels bundle: interface missing in list response"].
Proof.
  apply (handle_kv_interfacelist_partial (P := sample_platform)
           listed_datasource (mk_ringbuf [] [] 4096) interfacelist_object
           (OArr [OMap [(OStr "interface", OStr "wlan0"); (OStr "flags", OStr "x")];
                  OMap [(OStr "flags", OStr "y")];
                  OMap [(OStr "interface", OStr "wlan1")]])
           [OMap [(OStr "interface", OStr "wlan0"); (OStr "flags", OStr "x")]]
           [("wlan0", "x")]%string
           (OMap [(OStr "flags", OStr "y")])
           [OMap [(OStr "interface", OStr "wlan1")]]
           "interface missing in list response");
    try (vm_compute; reflexivity).
  constructor; [vm_compute; reflexivity | constructor].
Defined.

Lemma open_interface_malformed_options_witness :
  open_interface (P := sample_platform) "wlan0:bogus" 7 (Some 1%nat)
    (sample_datasource all_capable)
  = Returns tt
      (set_source_interface (P := sample_platform) "wlan0"
         (set_local_uuid (P := sample_platform) false
            (sample_datasource all_capable)))
      [EvOpenCb 1%nat 7 false "Malformed source config"].
Proof.
  apply (open_interface_malformed_options (P := sample_platform)
           (sample_datasource all_capable) "wlan0:bogus" 5 7 (Some 1%nat));
    vm_compute; first [reflexivity | discriminate].
Defined.


Lemma handle_source_error_twice_witness :
  exists st2 evs,
    bind (P := sample_platform) (handle_source_error (P := sample_platform))
      (fun _ => handle_source_error (P := sample_platform)) retry_datasource
    = Returns tt st2 evs
    /\ source_retry_attempts st2 = 2
    /\ error_timer_id st2 = 2
    /\ tt_timers (timetracker st2) = {[ 2 := mk_timer 5 ReopenInterface ]}.
Proof.
  destruct (handle_source_error_twice (P := sample_platform) retry_datasource
              eq_refl ltac:(vm_compute; discriminate)
              ltac:(vm_compute; reflexivity))
    as (st2 & evs & H1 & _ & H3 & H4 & H5).
  exists st2, evs. split; [exact H1|]. split; [exact H3|]. split; [exact H4|].
  rewrite H5. vm_compute. reflexivity.
Defined.

Lemma BufferAvailable_message_frame_witness :
  let obj := kv_object message_object in
  let rb :=
    mk_ringbuf
      (wire_frame (P := sample_platform) 1 "MESSAGE" 1
         (wire_record (P := sample_platform) "message" obj)
       ++ ["001"%byte; "002"%byte]) [] 4096 in
  let st := set_ringbuf_handler (P := sample_platform) (Some rb)
              (sample_datasource all_capable) in
  BufferAvailable (P := sample_platform) (length (rb_readable rb)) st
  = Returns tt
      (set_ringbuf_handler (P := sample_platform)
         (Some (mk_ringbuf ["001"%byte; "002"%byte] [] 4096)) st)
      [EvMsg "low battery" 2].
Proof.
  intros obj rb st.
  assert (Hd : unpack_dict (P := sample_platform)
                 (mk_kv "message" (length obj) obj)
               = inr (<["msg"%string := OStr "low battery"]>
                        (<["flags"%string := OInt 2]> ∅)))
    by (vm_compute; reflexivity).
  apply (BufferAvailable_message_frame (P := sample_platform) st rb 1 obj
           ["001"%byte; "002"%byte] _ (OStr "low battery") "low battery"%string
           (OInt 2) 2 ltac:(vm_compute; lia) ltac:(vm_compute; reflexivity)
           eq_refl eq_refl Hd);
    vm_compute; reflexivity.
Defined.

(* ===================================================================== *)
(** * Properties of device keys and element types *)
(* ===================================================================== *)


Lemma testbit_wrap32 (v n : Z) :
  0 <= n -> Z.testbit (wrap32 v) n = Z.testbit v n && (n <? 32).
Proof.
  intros Hn. unfold wrap32. rewrite <- Z.land_ones by lia.
  by rewrite Z.land_spec, Z.testbit_ones_nonneg by lia.
Qed.

Lemma testbit_wrap64 (v n : Z) :
  0 <= n -> Z.testbit (wrap64 v) n = Z.testbit v n && (n <? 64).
Proof.
  intros Hn. unfold wrap64. rewrite <- Z.land_ones by lia.
  by rewrite Z.land_spec, Z.testbit_ones_nonneg by lia.
Qed.

(** X28.  A source-phy key keeps its two checksums apart: the low 32 bits
    of [gen_spkey] are [gen_pkey] of the phy name, whatever the source, the
    high 32 bits are the checksum of the first 16 bytes of the source
    UUID, and the mask in the key constructor leaves a [gen_pkey] value as
    it is. *)
Theorem gen_spkey_halves (adler32_checksum : list byte -> Z)
    (uuid_block : list byte) (phy : string) (in_dkey : Z) :
  Z.land (gen_spkey adler32_checksum uuid_block phy) 0xFFFFFFFF
  = gen_pkey adler32_checksum phy
  /\ Z.shiftr (gen_spkey adler32_checksum uuid_block phy) 32
     = wrap32 (adler32_checksum (firstn 16 uuid_block))
  /\ spkey (device_key_of_pkey (gen_pkey adler32_checksum phy) in_dkey)
     = gen_pkey adler32_checksum phy.
Proof.
  unfold gen_spkey, gen_pkey, device_key_of_pkey. cbn [spkey].
  set (c := adler32_checksum (firstn 16 uuid_block)).
  set (q := adler32_checksum (bytes_of_string phy)).
  change 0xFFFFFFFF with (Z.ones 32).
  split; [|split]; apply Z.bits_inj'; intros n Hn.
  - rewrite Z.land_spec, Z.lor_spec, Z.testbit_ones_nonneg by lia.
    rewrite !testbit_wrap64, !testbit_wrap32 by lia.
    destruct (Z.ltb_spec n 32) as [Hlt|Hge].
    + rewrite Z.shiftl_spec, Z.testbit_neg_r by lia.
      destruct (Z.ltb_spec n 64); [|lia].
      cbn. by rewrite !andb_true_r.
    + by rewrite !andb_false_r.
  - rewrite Z.shiftr_spec, Z.lor_spec by lia.
    rewrite !testbit_wrap64, !testbit_wrap32 by lia.
    rewrite Z.shiftl_spec by lia.
    rewrite testbit_wrap64 by lia.
    replace (n + 32 - 32) with n by lia.
    destruct (Z.ltb_spec n 32), (Z.ltb_spec (n + 32) 64), (Z.ltb_spec (n + 32) 32),
      (Z.ltb_spec n 64); try lia;
      by rewrite ?andb_true_r, ?andb_false_r, ?orb_false_r.
  - rewrite Z.land_spec, Z.testbit_ones_nonneg by lia.
    rewrite !testbit_wrap32 by lia.
    by destruct (Z.testbit q n), (n <? 32).
Qed.

(** X29.  The type names written by [type_to_typestring] are read back by
    [typestring_to_type] as the type they came from, for every type the
    file names; any other value of the enumeration is written as
    ["TrackerUnknown"], which does not read back.  Conversely, a string that
    reads as a type is the name that type is written as, so no other
    spelling is accepted. *)
Theorem typestring_round_trip :
  (forall t,
     typestring_to_type (type_to_typestring t)
     = match t with
       | tracker_type_other _ =>
           inl "Unable to interpret tracker type TrackerUnknown"%string
       | _ => inr t
       end)
  /\ (forall s t, typestring_to_type s = inr t -> type_to_typestring t = s).
Proof.
  split.
  - intros t. destruct t; reflexivity.
  - intros s t. unfold typestring_to_type.
    repeat match goal with
           | |- context [String.eqb s ?k] =>
               destruct (String.eqb_spec s k) as [->|?];
               [intros [= <-]; reflexivity|]
           end.
    discriminate.
Qed.
